(** * reddit-bot: validators, client and engagement loop

    A shallow embedding of [validators.py], [reddit_client.py], the
    configuration check of [config.py] and the auto-comment, monitoring,
    retrieval, search and statistics parts of [reddit_bot.py], together
    with the properties of the engagement loop.

    Modelling conventions
    - a Python [str] is a [string]; its characters are the code points
      below 256, [len] is [String.length];
    - a Python [int] is a [Z], a [float] a binary64 [PrimFloat.float];
    - a [dict] with string keys is a [gmap string pyval];
    - the Reddit API (praw) and the two agno agents are an environment
      [Env] of functions that answer a call from the history of calls
      made so far; every call is appended to a chronological trace and
      may raise;
    - Python code that can raise lives in a state-and-exception monad;
      [try]/[except] is [try_catch]. *)

From Stdlib Require Import ZArith Lia Bool Ascii String List DecimalString PrimFloat Uint63.
From stdpp Require Import base option list strings gmap fin_maps.

Local Open Scope Z_scope.
Local Open Scope string_scope.
Local Open Scope list_scope.

(* ===================================================================== *)
(** ** Python strings *)
(* ===================================================================== *)

Module PyStr.

Definition len (s : string) : Z := Z.of_nat (String.length s).

(** [str.isspace] on one character (code points below 256):
    TAB..CR, FS..US, space, NEL and NBSP. *)
Definition is_space (c : ascii) : bool :=
  let n := N_of_ascii c in
  ((9 <=? n) && (n <=? 13) || (28 <=? n) && (n <=? 32)
   || (n =? 133) || (n =? 160))%N.

Fixpoint lstrip (s : string) : string :=
  match s with
  | EmptyString => EmptyString
  | String c r => if is_space c then lstrip r else s
  end.

Definition is_empty (s : string) : bool :=
  match s with EmptyString => true | String _ _ => false end.

Fixpoint rstrip (s : string) : string :=
  match s with
  | EmptyString => EmptyString
  | String c r =>
      let r' := rstrip r in
      if is_space c && is_empty r' then EmptyString else String c r'
  end.

(** [s.strip()] *)
Definition strip (s : string) : string := rstrip (lstrip s).

(** [s.startswith(p)] *)
Definition startswith (s p : string) : bool := String.prefix p s.

(** [s.startswith((p1, p2, ...))] *)
Definition startswith_any (s : string) (ps : list string) : bool :=
  existsb (startswith s) ps.

(** [s[:n]] for [n >= 0] *)
Fixpoint take (n : nat) (s : string) : string :=
  match n, s with
  | S k, String c r => String c (take k r)
  | _, _ => EmptyString
  end.

(** [s.replace(old, new)] for a non-empty [old]: occurrences are taken
    left to right and do not overlap.  [skip] counts the characters of
    the occurrence being consumed. *)
Fixpoint replace_from (old new : string) (skip : nat) (s : string) : string :=
  match s with
  | EmptyString => EmptyString
  | String c r =>
      match skip with
      | S k => replace_from old new k r
      | O =>
          if String.prefix old s
          then new +:+ replace_from old new (Nat.pred (String.length old)) r
          else String c (replace_from old new O r)
      end
  end.

Definition replace (s old new : string) : string := replace_from old new O s.

Definition lower_char (c : ascii) : ascii :=
  let n := N_of_ascii c in
  if ((65 <=? n) && (n <=? 90)
      || (192 <=? n) && (n <=? 222) && negb (n =? 215))%N
  then ascii_of_N (n + 32) else c.

(** [s.lower()] *)
Fixpoint lower (s : string) : string :=
  match s with
  | EmptyString => EmptyString
  | String c r => String (lower_char c) (lower r)
  end.

(** [needle in s] *)
Fixpoint contains (needle s : string) : bool :=
  String.prefix needle s
  || match s with
     | EmptyString => false
     | String _ r => contains needle r
     end.

Definition newline : ascii := ascii_of_N 10.
Definition nl : string := String newline EmptyString.

(** [s.split('\n')]: never empty, one more piece than there are
    newlines. *)
Fixpoint split_nl (s : string) : list string :=
  match s with
  | EmptyString => [EmptyString]
  | String c r =>
      if Ascii.eqb c newline then EmptyString :: split_nl r
      else match split_nl r with
           | [] => [String c EmptyString]
           | l :: ls => String c l :: ls
           end
  end.

(** [sep.join(parts)] *)
Definition join (sep : string) (parts : list string) : string :=
  String.concat sep parts.

(** [str(n)] for an [int] *)
Definition of_int (z : Z) : string := NilZero.string_of_int (Z.to_int z).

Definition repeat_char (c : ascii) (n : nat) : string :=
  Nat.iter n (String c) EmptyString.

End PyStr.

(* ===================================================================== *)
(** ** Configuration ([config.py]) *)
(* ===================================================================== *)

Module Config.
Definition MAX_COMMENT_LENGTH : Z := 10000.
Definition MAX_POSTS_PER_REQUEST : Z := 100.
Definition RATE_LIMIT_DELAY : Z := 2.
Definition MIN_COMMENT_LENGTH : Z := 10.
Definition MAX_RETRIES : Z := 3.
End Config.

(* ===================================================================== *)
(** ** Exceptions, values and the outside world *)
(* ===================================================================== *)

(** The exception classes the code tells apart, and [str(e)]. *)
Inductive ExnKind :=
| Forbidden | TooManyRequests | Redirect
| ValueError | TypeError | AttributeError | KeyError | OtherException.

Record Exn := mkExn { exn_kind : ExnKind; exn_msg : string }.

Inductive Result (A : Type) :=
| Ok (a : A)
| Raise (e : Exn).
Arguments Ok {A} a.
Arguments Raise {A} e.

(** Values stored in the dictionaries the client builds.  [VObj] is any
    other object (a float, a Redditor, a Subreddit), known by its
    [str()]; it is truthy. *)
Inductive pyval :=
| VNone
| VBool (b : bool)
| VInt (z : Z)
| VStr (s : string)
| VObj (repr : string).

Definition truthy (v : pyval) : bool :=
  match v with
  | VNone => false
  | VBool b => b
  | VInt z => negb (Z.eqb z 0)
  | VStr s => negb (PyStr.is_empty s)
  | VObj _ => true
  end.

Definition py_str (v : pyval) : string :=
  match v with
  | VNone => "None"
  | VBool true => "True"
  | VBool false => "False"
  | VInt z => PyStr.of_int z
  | VStr s => s
  | VObj r => r
  end.

Definition type_name (v : pyval) : string :=
  match v with
  | VNone => "NoneType"
  | VBool _ => "bool"
  | VInt _ => "int"
  | VStr _ => "str"
  | VObj _ => "object"
  end.

(** [v.strip()] *)
Definition py_strip (v : pyval) : Result string :=
  match v with
  | VStr s => Ok (PyStr.strip s)
  | _ => Raise (mkExn AttributeError
                  ("'" +:+ type_name v +:+ "' object has no attribute 'strip'"))
  end.

(** [v >= n] and [v < n] against an [int]; [bool] is an [int] in Python. *)
Definition py_int (v : pyval) : Result Z :=
  match v with
  | VInt z => Ok z
  | VBool b => Ok (if b then 1 else 0)
  | _ => Raise (mkExn TypeError
                  ("comparison not supported between instances of '"
                     +:+ type_name v +:+ "' and 'int'"))
  end.

(** A submission as a listing yields it: reading an attribute gives a
    value or raises. *)
Definition RawPost : Type := string -> Result pyval.

(** A submission fetched by id, with the attributes the client reads. *)
Record Submission := mkSubmission {
  sub_title : string;
  sub_selftext : string;
  sub_locked : bool;
  sub_subreddit : string
}.

(** The comment object [submission.reply] returns. *)
Record Comment := mkComment { c_id : string; c_permalink : string }.

(** Calls that leave the process, and [time.sleep]. *)
Inductive Event :=
| EvValidationAgent (prompt : string)
| EvGeneratorAgent (prompt : string)
| EvSubmission (post_id : string)
| EvReplaceMore (post_id : string)
| EvReply (post_id text : string)
| EvListing (subreddit sort : string) (time_filter : option string) (limit : Z)
| EvSearch (subreddit query sort time_filter : string) (limit : Z)
| EvSleep (seconds : Z).

(** The trace is chronological; every entry carries the clock reading at
    which the call was issued. *)
Definition History : Type := list (Z * Event).

(** The collaborators.  Each answers from the history of calls so far,
    so answers may change from call to call.  [agent_run] gives
    [response.content] ([None] when there is no content);
    [submission_comments] is [replace_more(limit=0)] followed by
    [comments.list()], each comment with its [body] if it has one;
    [latency] is the time a call takes beyond any sleep. *)
Record Env := mkEnv {
  validation_agent_run : History -> string -> Result (option string);
  comment_generator_agent_run : History -> string -> Result (option string);
  reddit_submission : History -> string -> Result Submission;
  submission_comments : History -> string -> Result (list (option string));
  submission_reply : History -> string -> string -> Result Comment;
  subreddit_listing :
    History -> string -> string -> option string -> Z -> Result (list RawPost);
  subreddit_search :
    History -> string -> string -> string -> string -> Z -> Result (list RawPost);
  latency : History -> Event -> N
}.

(** The dictionary [post_comment] returns; the bot adds [post_title] and
    [post_id].  A key that is absent or [None] is [None]. *)
Record PostResult := mkPostResult {
  success : bool;
  error : option string;
  comment_id : option string;
  permalink : option string;
  post_title : option pyval;
  post_id : option pyval
}.

(** One entry of the monitoring match list. *)
Record Match := mkMatch {
  m_post_id : pyval;
  m_title : pyval;
  m_keyword : string;
  m_matched_at : Z;
  m_permalink : pyval;
  m_comment_result : option PostResult
}.

(** [RedditBot.stats] *)
Record Stats := mkStats {
  comments_posted : Z;
  posts_retrieved : Z;
  errors : Z;
  start_time : Z
}.

(** The state a run threads: the trace and the clock of the outside
    world, the bot's counters, and the two lists the bot loops append to
    ([results] in [auto_comment_on_posts], [matches] in
    [monitor_subreddit]); like the Python locals they keep what was
    appended when an exception unwinds. *)
Record State := mkState {
  trace : History;
  clock : Z;
  stats : Stats;
  results : list PostResult;
  matches : list Match
}.

Definition set_stats (f : Stats -> Stats) (s : State) : State :=
  mkState (trace s) (clock s) (f (stats s)) (results s) (matches s).
Definition set_results (f : list PostResult -> list PostResult) (s : State) : State :=
  mkState (trace s) (clock s) (stats s) (f (results s)) (matches s).
Definition set_matches (f : list Match -> list Match) (s : State) : State :=
  mkState (trace s) (clock s) (stats s) (results s) (f (matches s)).

(* ===================================================================== *)
(** ** The monad *)
(* ===================================================================== *)

Definition M (A : Type) : Type := State -> Result A * State.

Definition ret {A} (a : A) : M A := fun s => (Ok a, s).

Definition bind {A B} (m : M A) (k : A -> M B) : M B :=
  fun s =>
    match m s with
    | (Ok a, s') => k a s'
    | (Raise e, s') => (Raise e, s')
    end.

Definition raise {A} (e : Exn) : M A := fun s => (Raise e, s).

(** [try: body except Exception as e: handler e] *)
Definition try_catch {A} (body : M A) (handler : Exn -> M A) : M A :=
  fun s =>
    match body s with
    | (Ok a, s') => (Ok a, s')
    | (Raise e, s') => handler e s'
    end.

Definition lift {A} (r : Result A) : M A := fun s => (r, s).

Definition modify (f : State -> State) : M unit := fun s => (Ok tt, f s).

Definition now : M Z := fun s => (Ok (clock s), s).

Declare Scope py_scope.
Delimit Scope py_scope with py.
Notation "x <- m ;; k" := (bind m (fun x => k))
  (at level 100, m at next level, right associativity) : py_scope.
Notation "m ;;; k" := (bind m (fun _ => k))
  (at level 100, right associativity) : py_scope.
Local Open Scope py_scope.

(** [for x in xs: body x] *)
Fixpoint for_each {A} (xs : list A) (body : A -> M unit) : M unit :=
  match xs with
  | [] => ret tt
  | x :: rest => body x ;;; for_each rest body
  end.

(** The same sequencing for code that reads values without touching the
    world. *)
Definition rbind {A B} (r : Result A) (k : A -> Result B) : Result B :=
  match r with
  | Ok a => k a
  | Raise e => Raise e
  end.

Section WithEnv.

Variable env : Env.

(** Issue a call: log it with the current clock, let the time it takes
    pass, and hand back the collaborator's answer. *)
Definition call {A} (ev : Event) (answer : History -> Result A) : M A :=
  fun s =>
    let h := trace s in
    (answer h,
     mkState (h ++ [(clock s, ev)])
             (clock s + Z.of_N (latency env h ev))
             (stats s) (results s) (matches s)).

(** [time.sleep(seconds)] *)
Definition sleep (seconds : Z) : M unit :=
  fun s =>
    let h := trace s in
    (Ok tt,
     mkState (h ++ [(clock s, EvSleep seconds)])
             (clock s + seconds + Z.of_N (latency env h (EvSleep seconds)))
             (stats s) (results s) (matches s)).

End WithEnv.

Notation "x <~ r ;; k" := (rbind r (fun x => k))
  (at level 100, r at next level, right associativity) : py_scope.

(** [d[key]] *)
Definition dict_get (d : gmap string pyval) (key : string) : Result pyval :=
  match d !! key with
  | Some v => Ok v
  | None => Raise (mkExn KeyError ("'" +:+ key +:+ "'"))
  end.

(* ===================================================================== *)
(** ** [validators.py] *)
(* ===================================================================== *)

Module Validator.

(** *** The name pattern [^[A-Za-z0-9_]{3,21}$] under [re.match] *)

Definition is_word_char (c : ascii) : bool :=
  let n := N_of_ascii c in
  ((65 <=? n) && (n <=? 90) || (97 <=? n) && (n <=? 122)
   || (48 <=? n) && (n <=? 57) || (n =? 95))%N.

(** [$] without [re.MULTILINE]: the end of the string, or just before
    a newline that ends the string. *)
Definition at_dollar (s : string) : bool :=
  PyStr.is_empty s || String.eqb s PyStr.nl.

(** Having taken [taken] characters of the class, either stop here
    (when the count is within bounds and [$] matches) or take one
    more. *)
Fixpoint match_name_from (taken : nat) (s : string) : bool :=
  ((3 <=? taken)%nat && (taken <=? 21)%nat && at_dollar s)
  || match s with
     | EmptyString => false
     | String c r =>
         is_word_char c && (taken <? 21)%nat && match_name_from (S taken) r
     end.

Definition re_match_name (s : string) : bool := match_name_from 0 s.

Definition validate_subreddit_name (subreddit : string) : bool * string :=
  if PyStr.is_empty subreddit then (false, "Subreddit name cannot be empty")
  else
    let subreddit :=
      PyStr.replace (PyStr.replace subreddit "r/" EmptyString) "R/" EmptyString in
    if negb (re_match_name subreddit)
    then (false, "Invalid subreddit name format")
    else (true, subreddit).

(** The [for field in required_fields] loop: the first field that is
    not a key of the dictionary. *)
Fixpoint first_missing (fields : list string) (d : gmap string pyval)
  : option string :=
  match fields with
  | [] => None
  | f :: rest =>
      match d !! f with
      | None => Some f
      | Some _ => first_missing rest d
      end
  end.

Definition validate_post_data (post_data : gmap string pyval)
  : Result (bool * string) :=
  match first_missing ["title"; "id"] post_data with
  | Some field => Ok (false, "Missing required field: " +:+ field)
  | None =>
      title <~ dict_get post_data "title" ;;
      stripped <~ py_strip title ;;
      if PyStr.is_empty stripped
      then Ok (false, "Post title cannot be empty")
      else Ok (true, "Post data is valid")
  end.

(** [response.content.strip()] *)
Definition content_strip (content : option string) : Result string :=
  match content with
  | Some s => Ok (PyStr.strip s)
  | None => Raise (mkExn AttributeError
                     "'NoneType' object has no attribute 'strip'")
  end.

Definition too_short_reason : string :=
  "Comment too short (minimum " +:+ PyStr.of_int Config.MIN_COMMENT_LENGTH
    +:+ " characters)".

Definition too_long_reason : string :=
  "Comment too long (maximum " +:+ PyStr.of_int Config.MAX_COMMENT_LENGTH
    +:+ " characters)".

Definition validation_prompt (comment_text post_context : string) : string :=
  "Validate this Reddit comment:" +:+ PyStr.nl +:+ "POST CONTEXT: "
    +:+ (if PyStr.is_empty post_context then "No context"
         else PyStr.take 500 post_context)
    +:+ PyStr.nl +:+ "COMMENT: " +:+ comment_text.

(** The three-way reading of the agent's answer. *)
Definition verdict_of (result : string) : bool * string :=
  if PyStr.startswith result "VALID" then (true, "Comment is valid")
  else if PyStr.startswith result "INVALID"
  then (false, PyStr.strip (PyStr.replace result "INVALID:" EmptyString))
  else (PyStr.contains "valid" (PyStr.lower result),
        "Content validation completed").

(** [generate_comment]'s clean-up of the agent's answer.  The
    comprehension keeps a line when its stripped form is non-empty and
    the line itself does not start with one of the prefixes; what it
    collects is the stripped line. *)
Definition meta_prefixes : list string := ["Here"; "This comment"; "I generated"].

Fixpoint clean_lines (lines : list string) : list string :=
  match lines with
  | [] => []
  | line :: rest =>
      if negb (PyStr.is_empty (PyStr.strip line))
         && negb (PyStr.startswith_any line meta_prefixes)
      then PyStr.strip line :: clean_lines rest
      else clean_lines rest
  end.

Definition clean_up (generated_comment : string) : string :=
  match clean_lines (PyStr.split_nl generated_comment) with
  | [] => generated_comment
  | lines => PyStr.join PyStr.nl lines
  end.

(** [f"- {comment[:100]}..."] for the first three comments *)
Definition existing_text (existing_comments : list string) : string :=
  match existing_comments with
  | [] => EmptyString
  | _ => PyStr.join PyStr.nl
           (map (fun comment => "- " +:+ PyStr.take 100 comment +:+ "...")
                (firstn 3 existing_comments))
  end.

Definition generation_prompt (post_title post_content subreddit : string)
    (existing_comments : list string) : string :=
  "Generate a Reddit comment for:" +:+ PyStr.nl
    +:+ "SUBREDDIT: r/" +:+ subreddit +:+ PyStr.nl
    +:+ "TITLE: " +:+ post_title +:+ PyStr.nl
    +:+ "CONTENT: "
    +:+ (if PyStr.is_empty post_content then "No content"
         else PyStr.take 500 post_content)
    +:+ PyStr.nl +:+ "EXISTING COMMENTS:" +:+ PyStr.nl
    +:+ existing_text existing_comments.

Section WithEnv.

Variable env : Env.

Definition validate_comment (comment_text post_context : string)
  : M (bool * string) :=
  try_catch
    (if (PyStr.len (PyStr.strip comment_text) <? Config.MIN_COMMENT_LENGTH)%Z
     then ret (false, too_short_reason)
     else if (PyStr.len comment_text >? Config.MAX_COMMENT_LENGTH)%Z
     then ret (false, too_long_reason)
     else
       let prompt := validation_prompt comment_text post_context in
       content <- call env (EvValidationAgent prompt)
                    (fun h => validation_agent_run env h prompt) ;;
       result <- lift (content_strip content) ;;
       ret (verdict_of result))
    (fun e => ret (false, "Validation error: " +:+ exn_msg e)).

Definition generate_comment (post_title post_content subreddit : string)
    (existing_comments : list string) : M string :=
  try_catch
    (let prompt :=
       generation_prompt post_title post_content subreddit existing_comments in
     content <- call env (EvGeneratorAgent prompt)
                  (fun h => comment_generator_agent_run env h prompt) ;;
     generated_comment <- lift (content_strip content) ;;
     ret (clean_up generated_comment))
    (fun e => ret ("Error generating comment: " +:+ exn_msg e)).

End WithEnv.

End Validator.

(* ===================================================================== *)
(** ** [reddit_client.py] *)
(* ===================================================================== *)

Module Client.

Definition failure (msg : string) : PostResult :=
  mkPostResult false (Some msg) None None None None.

(** [try: ... except Exception: ...] around code that only reads. *)
Definition rtry {A} (r : Result A) (handler : Exn -> Result A) : Result A :=
  match r with
  | Ok a => Ok a
  | Raise e => handler e
  end.

(** [str(post.author) if post.author else '[deleted]'] *)
Definition author_of (post : RawPost) : Result pyval :=
  author <~ post "author" ;;
  if truthy author
  then author <~ post "author" ;; Ok (VStr (py_str author))
  else Ok (VStr "[deleted]").

Definition permalink_of (post : RawPost) : Result pyval :=
  p <~ post "permalink" ;; Ok (VStr ("https://reddit.com" +:+ py_str p)).

Definition subreddit_of (post : RawPost) : Result pyval :=
  s <~ post "subreddit" ;; Ok (VStr (py_str s)).

(** The dictionary literal of [get_subreddit_posts]; the attributes are
    read in the order of the keys. *)
Definition listing_post_info (post : RawPost) : Result (gmap string pyval) :=
  id <~ post "id" ;;
  title <~ post "title" ;;
  author <~ author_of post ;;
  score <~ post "score" ;;
  upvote_ratio <~ post "upvote_ratio" ;;
  num_comments <~ post "num_comments" ;;
  created_utc <~ post "created_utc" ;;
  url <~ post "url" ;;
  permalink <~ permalink_of post ;;
  selftext <~ post "selftext" ;;
  subreddit <~ subreddit_of post ;;
  is_self <~ post "is_self" ;;
  over_18 <~ post "over_18" ;;
  spoiler <~ post "spoiler" ;;
  stickied <~ post "stickied" ;;
  locked <~ post "locked" ;;
  Ok (list_to_map
        [("id", id); ("title", title); ("author", author); ("score", score);
         ("upvote_ratio", upvote_ratio); ("num_comments", num_comments);
         ("created_utc", created_utc); ("url", url);
         ("permalink", permalink); ("selftext", selftext);
         ("subreddit", subreddit); ("is_self", is_self);
         ("over_18", over_18); ("spoiler", spoiler);
         ("stickied", stickied); ("locked", locked)]).

(** The dictionary literal of [search_posts]. *)
Definition search_post_info (post : RawPost) : Result (gmap string pyval) :=
  id <~ post "id" ;;
  title <~ post "title" ;;
  author <~ author_of post ;;
  score <~ post "score" ;;
  num_comments <~ post "num_comments" ;;
  created_utc <~ post "created_utc" ;;
  permalink <~ permalink_of post ;;
  selftext <~ post "selftext" ;;
  subreddit <~ subreddit_of post ;;
  url <~ post "url" ;;
  Ok (list_to_map
        [("id", id); ("title", title); ("author", author); ("score", score);
         ("num_comments", num_comments); ("created_utc", created_utc);
         ("permalink", permalink); ("selftext", selftext);
         ("subreddit", subreddit); ("url", url)]).

(** Validate the dictionary and append it when it is valid. *)
Definition append_if_valid (post_info : gmap string pyval)
    (post_data : list (gmap string pyval)) : Result (list (gmap string pyval)) :=
  verdict <~ Validator.validate_post_data post_info ;;
  Ok (if fst verdict then post_data ++ [post_info] else post_data).

(** The body of the [for post in posts] loop of [get_subreddit_posts]:
    the handler formats the warning with [post.id] and goes on. *)
Definition listing_step (post_data : list (gmap string pyval)) (post : RawPost)
  : Result (list (gmap string pyval)) :=
  rtry (post_info <~ listing_post_info post ;;
        append_if_valid post_info post_data)
       (fun e => _ <~ post "id" ;; Ok post_data).

(** The body of the loop of [search_posts]: the handler's warning
    names no attribute of the post. *)
Definition search_step (post_data : list (gmap string pyval)) (post : RawPost)
  : Result (list (gmap string pyval)) :=
  rtry (post_info <~ search_post_info post ;;
        append_if_valid post_info post_data)
       (fun e => Ok post_data).

Fixpoint collect (step : list (gmap string pyval) -> RawPost ->
                         Result (list (gmap string pyval)))
    (post_data : list (gmap string pyval)) (posts : list RawPost)
  : Result (list (gmap string pyval)) :=
  match posts with
  | [] => Ok post_data
  | post :: rest =>
      post_data <~ step post_data post ;; collect step post_data rest
  end.

(** [hasattr(comment, 'body') and comment.body != '[deleted]'] over the
    first five comments *)
Fixpoint live_bodies (comments : list (option string)) : list string :=
  match comments with
  | [] => []
  | Some body :: rest =>
      if String.eqb body "[deleted]" then live_bodies rest
      else body :: live_bodies rest
  | None :: rest => live_bodies rest
  end.

(** [subreddit_name or str(submission.subreddit)] *)
Definition subreddit_or (subreddit_name : option string) (submission : Submission)
  : string :=
  match subreddit_name with
  | Some name => if PyStr.is_empty name then sub_subreddit submission else name
  | None => sub_subreddit submission
  end.

Section WithEnv.

Variable env : Env.

Definition get_subreddit_posts (subreddit_name sort_by : string) (limit : Z)
    (time_filter : string) : M (list (gmap string pyval)) :=
  let '(is_valid, result) := Validator.validate_subreddit_name subreddit_name in
  (* the name the handlers see: reassigned once validation passed *)
  let name := if is_valid then result else subreddit_name in
  try_catch
    (if negb is_valid then raise (mkExn ValueError result)
     else
       let listing sort tf :=
         call env (EvListing name sort tf limit)
              (fun h => subreddit_listing env h name sort tf limit) in
       posts <-
         (if String.eqb sort_by "hot" then listing "hot" None
          else if String.eqb sort_by "new" then listing "new" None
          else if String.eqb sort_by "top" then listing "top" (Some time_filter)
          else if String.eqb sort_by "rising" then listing "rising" None
          else raise (mkExn ValueError ("Invalid sort method: " +:+ sort_by))) ;;
       lift (collect listing_step [] posts))
    (fun e =>
       match exn_kind e with
       | Redirect =>
           raise (mkExn ValueError ("Subreddit r/" +:+ name +:+ " does not exist"))
       | Forbidden =>
           raise (mkExn ValueError ("Access forbidden to r/" +:+ name))
       | _ => raise e
       end).

Definition search_posts (query : string) (subreddit_name : option string)
    (sort time_filter : string) (limit : Z) : M (list (gmap string pyval)) :=
  try_catch
    (let search name :=
       call env (EvSearch name query sort time_filter limit)
            (fun h => subreddit_search env h name query sort time_filter limit) in
     search_results <-
       (match subreddit_name with
        | Some name =>
            if PyStr.is_empty name then search "all"
            else
              let '(is_valid, result) := Validator.validate_subreddit_name name in
              if negb is_valid then raise (mkExn ValueError result)
              else search result
        | None => search "all"
        end) ;;
     lift (collect search_step [] search_results))
    (fun e => raise e).

Definition post_comment (post_id comment_text : string) (validate : bool)
  : M PostResult :=
  try_catch
    (submission <- call env (EvSubmission post_id)
                     (fun h => reddit_submission env h post_id) ;;
     let post_context :=
       sub_title submission +:+ PyStr.nl +:+ sub_selftext submission in
     rejected <-
       (if validate
        then verdict <- Validator.validate_comment env comment_text post_context ;;
             ret (if fst verdict then None else Some (snd verdict))
        else ret None) ;;
     match rejected with
     | Some reason => ret (failure ("Comment validation failed: " +:+ reason))
     | None =>
         if sub_locked submission
         then ret (failure "Post is locked and does not allow comments")
         else
           comment <- call env (EvReply post_id comment_text)
                        (fun h => submission_reply env h post_id comment_text) ;;
           sleep env Config.RATE_LIMIT_DELAY ;;;
           ret (mkPostResult true None (Some (c_id comment))
                  (Some ("https://reddit.com" +:+ c_permalink comment))
                  None None)
     end)
    (fun e =>
       match exn_kind e with
       | Forbidden =>
           ret (failure
             "Forbidden: You may be banned from this subreddit or lack permissions")
       | TooManyRequests =>
           ret (failure
             "Rate limited: Too many requests. Please wait before posting again")
       | _ => ret (failure (exn_msg e))
       end).

Definition generate_and_post_comment (post_id : string)
    (subreddit_name : option string) : M PostResult :=
  try_catch
    (submission <- call env (EvSubmission post_id)
                     (fun h => reddit_submission env h post_id) ;;
     comments <- call env (EvReplaceMore post_id)
                   (fun h => submission_comments env h post_id) ;;
     let existing_comments := live_bodies (firstn 5 comments) in
     generated_comment <-
       Validator.generate_comment env (sub_title submission)
         (sub_selftext submission) (subreddit_or subreddit_name submission)
         existing_comments ;;
     if PyStr.startswith generated_comment "Error"
     then ret (failure generated_comment)
     else post_comment post_id generated_comment true)
    (fun e => ret (failure (exn_msg e))).

End WithEnv.

End Client.

(* ===================================================================== *)
(** ** [reddit_bot.py] *)
(* ===================================================================== *)

Module Bot.

Definition count_comment (st : Stats) : Stats :=
  mkStats (comments_posted st + 1) (posts_retrieved st) (errors st) (start_time st).

Definition count_error (st : Stats) : Stats :=
  mkStats (comments_posted st) (posts_retrieved st) (errors st + 1) (start_time st).

(** [post['score'] >= min_score and not post['locked'] and
    not post['over_18'] and post['num_comments'] < 100], left to right
    and short-circuiting. *)
Definition eligible (min_score : Z) (post : gmap string pyval) : Result bool :=
  score <~ dict_get post "score" ;;
  score <~ py_int score ;;
  if negb (score >=? min_score)%Z then Ok false
  else
    locked <~ dict_get post "locked" ;;
    if truthy locked then Ok false
    else
      over_18 <~ dict_get post "over_18" ;;
      if truthy over_18 then Ok false
      else
        num_comments <~ dict_get post "num_comments" ;;
        num_comments <~ py_int num_comments ;;
        Ok (num_comments <? 100)%Z.

Fixpoint eligible_posts (min_score : Z) (posts : list (gmap string pyval))
  : Result (list (gmap string pyval)) :=
  match posts with
  | [] => Ok []
  | post :: rest =>
      keep <~ eligible min_score post ;;
      kept <~ eligible_posts min_score rest ;;
      Ok (if keep then post :: kept else kept)
  end.

(** [xs[:n]]; a negative [n] counts from the end. *)
Definition slice_upto {A} (n : Z) (xs : list A) : list A :=
  if (0 <=? n)%Z then firstn (Z.to_nat n) xs
  else firstn (length xs - Z.to_nat (- n)) xs.

(** [v[:50]] *)
Definition title_prefix (v : pyval) : Result string :=
  match v with
  | VStr s => Ok (PyStr.take 50 s)
  | _ => Raise (mkExn TypeError
                  ("'" +:+ type_name v +:+ "' object is not subscriptable"))
  end.

(** [match_info['comment_result'] = comment_result]: [match_info] is
    the dictionary appended last, so the assignment shows in the list. *)
Fixpoint set_last_comment_result (r : PostResult) (ms : list Match) : list Match :=
  match ms with
  | [] => []
  | [m] => [mkMatch (m_post_id m) (m_title m) (m_keyword m) (m_matched_at m)
              (m_permalink m) (Some r)]
  | m :: rest => m :: set_last_comment_result r rest
  end.

(** [action in ['comment', 'both']] *)
Definition comments_on_match (action : string) : bool :=
  String.eqb action "comment" || String.eqb action "both".

(** What [monitor_subreddit] returns. *)
Record Monitoring := mkMonitoring {
  mon_subreddit : string;
  mon_keywords : list string;
  mon_duration_hours : Z;
  mon_total_matches : Z;
  mon_matches : list Match;
  mon_completed_at : Z
}.

(** The clock counts seconds. *)
Definition seconds_of_hours (h : Z) : Z := h * 3600.

(** [int / int] and [int * float]: the operands become binary64
    numbers, exactly so below 2^53. *)
Definition float_of_int (z : Z) : float := PrimFloat.of_uint63 (Uint63.of_Z z).

Record BotStats := mkBotStats {
  bs_runtime_hours : float;
  bs_comments_posted : Z;
  bs_posts_retrieved : Z;
  bs_errors : Z;
  bs_success_rate : float
}.

Definition get_bot_stats : M BotStats :=
  current <- now ;;
  fun s =>
    let st := stats s in
    (Ok (mkBotStats
           (float_of_int (current - start_time st) / float_of_int 3600)%float
           (comments_posted st) (posts_retrieved st) (errors st)
           ((float_of_int (comments_posted st)
             / float_of_int (Z.max 1 (comments_posted st + errors st)))
            * float_of_int 100)%float),
     s).

Section WithEnv.

Variable env : Env.

(** One turn of the [for post in eligible_posts[:max_comments]] loop. *)
Definition comment_on (subreddit_name : string) (post : gmap string pyval)
  : M unit :=
  try_catch
    (title <- lift (dict_get post "title") ;;
     _ <- lift (title_prefix title) ;;
     id <- lift (dict_get post "id") ;;
     result <- Client.generate_and_post_comment env (py_str id)
                 (Some subreddit_name) ;;
     title <- lift (dict_get post "title") ;;
     id <- lift (dict_get post "id") ;;
     let result :=
       mkPostResult (success result) (error result) (comment_id result)
         (permalink result) (Some title) (Some id) in
     modify (set_results (fun rs => rs ++ [result])) ;;;
     (if success result
      then modify (set_stats count_comment)
      else modify (set_stats count_error)) ;;;
     sleep env 10)
    (fun e =>
       modify (set_stats count_error) ;;;
       id <- lift (dict_get post "id") ;;
       title <- lift (dict_get post "title") ;;
       modify (set_results (fun rs =>
         rs ++ [mkPostResult false (Some (exn_msg e)) None None
                  (Some title) (Some id)]))).

Definition auto_comment_on_posts (subreddit_name : string) (max_comments : Z)
    (sort_by : string) (min_score : Z) : M (list PostResult) :=
  try_catch
    (posts <- Client.get_subreddit_posts env subreddit_name sort_by
                (max_comments * 2) "day" ;;
     eligible_posts <- lift (eligible_posts min_score posts) ;;
     modify (set_results (fun _ => [])) ;;;
     for_each (slice_upto max_comments eligible_posts)
              (comment_on subreddit_name) ;;;
     fun s => (Ok (results s), s))
    (fun e => modify (set_stats count_error) ;;; raise e).

(** The body of [for keyword in keywords]. *)
Definition check_keyword (subreddit_name action post_text : string)
    (post : gmap string pyval) (keyword : string) : M unit :=
  if PyStr.contains (PyStr.lower keyword) post_text
  then
    id <- lift (dict_get post "id") ;;
    title <- lift (dict_get post "title") ;;
    matched_at <- now ;;
    permalink <- lift (dict_get post "permalink") ;;
    modify (set_matches (fun ms =>
      ms ++ [mkMatch id title keyword matched_at permalink None])) ;;;
    if comments_on_match action
    then
      try_catch
        (id <- lift (dict_get post "id") ;;
         comment_result <- Client.generate_and_post_comment env (py_str id)
                             (Some subreddit_name) ;;
         modify (set_matches (set_last_comment_result comment_result)))
        (fun e => ret tt)
    else ret tt
  else ret tt.

(** The body of [for post in posts]. *)
Definition scan_post (subreddit_name : string) (keywords : list string)
    (action : string) (post : gmap string pyval) : M unit :=
  title <- lift (dict_get post "title") ;;
  selftext <- lift (dict_get post "selftext") ;;
  let post_text := PyStr.lower (py_str title +:+ " " +:+ py_str selftext) in
  for_each keywords (check_keyword subreddit_name action post_text post).

(** The body of the [while] loop. *)
Definition monitor_cycle (subreddit_name : string) (keywords : list string)
    (action : string) : M unit :=
  try_catch
    (posts <- Client.get_subreddit_posts env subreddit_name "new" 10 "day" ;;
     for_each posts (scan_post subreddit_name keywords action) ;;;
     sleep env 300)
    (fun e => sleep env 60).

(** [while datetime.now() < end_time: ...].  [fuel] bounds the number
    of cycles; [None] means the bound was hit with the deadline still
    ahead. *)
Fixpoint monitor_loop (fuel : nat) (subreddit_name : string)
    (keywords : list string) (action : string) (end_time : Z) (s : State)
  : option (Result unit * State) :=
  if (clock s <? end_time)%Z
  then match fuel with
       | O => None
       | S fuel' =>
           match monitor_cycle subreddit_name keywords action s with
           | (Ok _, s') =>
               monitor_loop fuel' subreddit_name keywords action end_time s'
           | (Raise e, s') => Some (Raise e, s')
           end
       end
  else Some (Ok tt, s).

(** The outer handler logs and re-raises. *)
Definition monitor_subreddit (fuel : nat) (subreddit_name : string)
    (keywords : list string) (action : string) (duration_hours : Z)
    (s : State) : option (Result Monitoring * State) :=
  let start_time := clock s in
  let end_time := start_time + seconds_of_hours duration_hours in
  let s := set_matches (fun _ => []) s in
  match monitor_loop fuel subreddit_name keywords action end_time s with
  | None => None
  | Some (Raise e, s') => Some (Raise e, s')
  | Some (Ok _, s') =>
      Some (Ok (mkMonitoring subreddit_name keywords duration_hours
                  (Z.of_nat (length (matches s'))) (matches s') (clock s')),
            s')
  end.

End WithEnv.

End Bot.

(* ===================================================================== *)
(** ** Sample collaborators and inputs *)
(* ===================================================================== *)

Module Sample.

Definition a_submission : Submission :=
  mkSubmission "Typing tips" "How do you annotate decorators?" false "python".

Definition a_comment : Comment := mkComment "c1" "/r/python/comments/p1/_/c1/".

(** A listing item with every attribute present. *)
Definition raw_post (id title : string) (score : Z) : RawPost :=
  fun attr =>
    if String.eqb attr "id" then Ok (VStr id)
    else if String.eqb attr "title" then Ok (VStr title)
    else if String.eqb attr "author" then Ok (VObj "alice")
    else if String.eqb attr "score" then Ok (VInt score)
    else if String.eqb attr "upvote_ratio" then Ok (VObj "0.97")
    else if String.eqb attr "num_comments" then Ok (VInt 3)
    else if String.eqb attr "created_utc" then Ok (VObj "1700000000.0")
    else if String.eqb attr "url" then Ok (VStr "https://example.org/")
    else if String.eqb attr "permalink" then Ok (VStr "/r/python/comments/p1/")
    else if String.eqb attr "selftext" then Ok (VStr "Decorators and typing")
    else if String.eqb attr "subreddit" then Ok (VObj "python")
    else if String.eqb attr "is_self" then Ok (VBool true)
    else if String.eqb attr "over_18" then Ok (VBool false)
    else if String.eqb attr "spoiler" then Ok (VBool false)
    else if String.eqb attr "stickied" then Ok (VBool false)
    else if String.eqb attr "locked" then Ok (VBool false)
    else Raise (mkExn AttributeError
                  ("'Submission' object has no attribute '" +:+ attr +:+ "'")).

(** A listing item whose [id] cannot be read. *)
Definition post_without_id : RawPost :=
  fun attr =>
    if String.eqb attr "id"
    then Raise (mkExn AttributeError "'Submission' object has no attribute 'id'")
    else raw_post "p0" "No id here" 1 attr.

(** A listing item whose [score] cannot be read. *)
Definition post_without_score : RawPost :=
  fun attr =>
    if String.eqb attr "score"
    then Raise (mkExn AttributeError "'Submission' object has no attribute 'score'")
    else raw_post "p9" "No score here" 1 attr.

(** Collaborators that always give the same answers and take no time. *)
Definition env_with (validation generation : Result (option string))
    (reply : Result Comment) (posts : Result (list RawPost)) : Env :=
  mkEnv (fun _ _ => validation) (fun _ _ => generation)
        (fun _ _ => Ok a_submission) (fun _ _ => Ok [Some "First!"; None])
        (fun _ _ _ => reply)
        (fun _ _ _ _ _ => posts) (fun _ _ _ _ _ _ => posts)
        (fun _ _ => 0%N).

Definition agreeable : Env :=
  env_with (Ok (Some "VALID")) (Ok (Some "Protocols help a lot with that."))
           (Ok a_comment)
           (Ok [raw_post "p1" "Typing tips" 5; raw_post "p2" "Async pitfalls" 7]).

(** A generator answer with a preamble, padding and a blank line. *)
Definition chatty_response : string :=
  "Here is a comment:" +:+ PyStr.nl +:+ "  Nice write-up.  " +:+ PyStr.nl
    +:+ PyStr.nl +:+ "Thanks!" +:+ PyStr.nl.

Definition chatty : Env :=
  env_with (Ok (Some "VALID")) (Ok (Some chatty_response)) (Ok a_comment) (Ok []).

Definition stats0 : Stats := mkStats 0 0 0 0.

Definition initial : State := mkState [] 0 stats0 [] [].

Definition with_counts (posted failed : Z) : State :=
  mkState [] 7200 (mkStats posted 0 failed 0) [] [].

Definition long_text : string := PyStr.repeat_char "a" (Z.to_nat 10001).

End Sample.

(* ===================================================================== *)
(** ** The documented behaviour, for comparison with the code *)
(* ===================================================================== *)

Module Stated.

(** Remove one leading [r/] or [R/]. *)
Definition strip_leading_prefix (name : string) : string :=
  match name with
  | String c (String "/" rest) =>
      if Ascii.eqb c "r" || Ascii.eqb c "R" then rest else name
  | _ => name
  end.

(** Strip a single leading prefix, then match the pattern. *)
Definition validate_subreddit_name (name : string) : bool * string :=
  let rest := strip_leading_prefix name in
  if Validator.re_match_name rest then (true, rest)
  else (false, "Invalid subreddit name format").

(** The response with the [INVALID:] prefix removed, trimmed. *)
Definition invalid_reason (response : string) : string :=
  if PyStr.startswith response "INVALID:"
  then PyStr.strip (String.substring 8 (String.length response - 8) response)
  else PyStr.strip response.

(** Lines that are neither empty nor start with a meta prefix. *)
Definition kept_lines (text : string) : list string :=
  List.filter
    (fun line => negb (PyStr.is_empty line)
                 && negb (PyStr.startswith_any line Validator.meta_prefixes))
    (PyStr.split_nl text).

(** The clean-up on the raw response: drop, re-join, fall back to the
    raw response. *)
Definition clean_up_raw (response : string) : string :=
  match kept_lines response with
  | [] => response
  | lines => PyStr.join PyStr.nl lines
  end.

(** Lines that are not blank and do not start with a meta prefix. *)
Definition kept_nonblank_lines (text : string) : list string :=
  List.filter
    (fun line => negb (PyStr.is_empty (PyStr.strip line))
                 && negb (PyStr.startswith_any line Validator.meta_prefixes))
    (PyStr.split_nl text).

(** The clean-up on the trimmed response: drop, trim each kept line,
    re-join, fall back to the trimmed response. *)
Definition clean_up_trimmed (response : string) : string :=
  let trimmed := PyStr.strip response in
  match kept_nonblank_lines trimmed with
  | [] => trimmed
  | lines => PyStr.join PyStr.nl (map PyStr.strip lines)
  end.

End Stated.

(* ===================================================================== *)
(** ** Traces *)
(* ===================================================================== *)

(** A dictionary that [validate_post_data] accepts. *)
Definition valid_post (post : gmap string pyval) : Prop :=
  Validator.validate_post_data post = Ok (true, "Post data is valid").

(** The [id] entries of a returned list of posts. *)
Definition ids_of (r : Result (list (gmap string pyval)))
  : Result (list (option pyval)) :=
  posts <~ r ;; Ok (map (fun post : gmap string pyval => post !! "id") posts).


(** The events a run added to the trace. *)
Definition new_events (s s' : State) : History := drop (length (trace s)) (trace s').

(** [s'] continues [s]: the trace grew by events that satisfy [Q] and
    were issued at or after [clock s], and the clock did not go back. *)
Definition extends_with (Q : Event -> Prop) (s s' : State) : Prop :=
  exists evs,
    trace s' = trace s ++ evs
    /\ Forall (fun te => clock s <= fst te /\ Q (snd te)) evs
    /\ clock s <= clock s'.

(** The bot's counters and lists are untouched. *)
Definition same_bot (s s' : State) : Prop :=
  stats s' = stats s /\ results s' = results s /\ matches s' = matches s.

Definition client_step (Q : Event -> Prop) (s s' : State) : Prop :=
  extends_with Q s s' /\ same_bot s s'.

(** Whatever its outcome, a computation relates the state it starts in
    to the state it ends in. *)
Definition respects {A} (R : State -> State -> Prop) (m : M A) : Prop :=
  forall s, R s (snd (m s)).

Definition never_raises {A} (m : M A) : Prop :=
  forall s, exists a, fst (m s) = Ok a.

Definition is_reply (ev : Event) : Prop :=
  match ev with EvReply _ _ => True | _ => False end.

Definition is_listing (ev : Event) : Prop :=
  match ev with EvListing _ _ _ _ => True | _ => False end.


(** The events one comment attempt can issue. *)
Definition comment_event (ev : Event) : Prop :=
  match ev with
  | EvValidationAgent _ | EvGeneratorAgent _ | EvSubmission _
  | EvReplaceMore _ | EvReply _ _ => True
  | EvSleep seconds => seconds = Config.RATE_LIMIT_DELAY
  | EvListing _ _ _ _ | EvSearch _ _ _ _ _ => False
  end.

Definition asks_validator (ev : Event) : Prop :=
  match ev with EvValidationAgent _ => True | _ => False end.

Definition asks_generator (ev : Event) : Prop :=
  match ev with EvGeneratorAgent _ => True | _ => False end.

(** In the run from [s] to [s'], the reply carrying [text] to [post_id]
    at time [t] came after a call of [validate_comment] on [text] that
    returned an accepting verdict: the call ran from [s1] to [s2], both
    within the run, and the reply was issued from [s2] on. *)
Definition accepted_before (env : Env) (s s' : State) (t : Z)
    (post_id text : string) : Prop :=
  exists ctx s1 s2 reason,
    Validator.validate_comment env text ctx s1 = (Ok (true, reason), s2)
    /\ (exists before, trace s1 = trace s ++ before)
    /\ (exists after, trace s' = trace s2 ++ after
                      /\ In (t, EvReply post_id text) after).

(** A poll of the listing was issued strictly before the deadline. *)
Definition fetched_before (end_time : Z) (te : Z * Event) : Prop :=
  is_listing (snd te) -> fst te < end_time.

(** What the monitoring loop does to the state: it adds calls, polling
    only before the deadline, the clock does not go back, and the match
    list keeps what it held and gains the matches recorded. *)
Definition monitor_rel (end_time : Z) (s s' : State) : Prop :=
  (exists evs, trace s' = trace s ++ evs /\ Forall (fetched_before end_time) evs)
  /\ clock s <= clock s'
  /\ (exists recorded, matches s' = matches s ++ recorded).

(** The trace without the prompts sent to the agents. *)
Definition outline (h : History) : list Event :=
  List.filter
    (fun ev => match ev with
               | EvValidationAgent _ | EvGeneratorAgent _ => false
               | _ => true
               end)
    (map snd h).


(* ===================================================================== *)
(** ** [config.py]: [validate_config] *)
(* ===================================================================== *)

Module ConfigCheck.

Definition required_vars : list string :=
  ["REDDIT_CLIENT_ID"; "REDDIT_CLIENT_SECRET"; "REDDIT_USERNAME";
   "REDDIT_PASSWORD"; "GEMINI_API_KEY"].

(** [not getattr(cls, var)]: the attribute is what [os.getenv] returned,
    [None] when the variable is not set. *)
Definition is_unset (value : option string) : bool :=
  match value with
  | None => true
  | Some s => PyStr.is_empty s
  end.

(** The [for var in required_vars] loop. *)
Fixpoint missing_vars (cls : string -> option string) (vars : list string)
  : list string :=
  match vars with
  | [] => []
  | var :: rest =>
      if is_unset (cls var) then var :: missing_vars cls rest
      else missing_vars cls rest
  end.

Definition validate_config (cls : string -> option string) : Result bool :=
  match missing_vars cls required_vars with
  | [] => Ok true
  | missing =>
      Raise (mkExn ValueError
               ("Missing required environment variables: "
                  +:+ PyStr.join ", " missing))
  end.

End ConfigCheck.

(* ===================================================================== *)
(** ** [reddit_client.py]: [get_post_comments] *)
(* ===================================================================== *)

(** A comment as the comment forest yields it; like a listing item, an
    attribute read gives a value or raises. *)
Definition RawComment : Type := RawPost.

(** What the gateway answers beyond [Env]: the comment objects behind
    [replace_more(limit=0)] and [comments.list()]. *)
Record Forest := mkForest {
  comment_objects : History -> string -> Result (list RawComment)
}.

(** A post dictionary with its [comments] entry; [None] when the key is
    absent. *)
Record WithComments := mkWithComments {
  wc_post : gmap string pyval;
  wc_comments : option (list (gmap string pyval))
}.

Module Comments.

(** [hasattr(comment, name)]: only an [AttributeError] means no. *)
Definition hasattr (comment : RawComment) (name : string) : Result bool :=
  match comment name with
  | Ok _ => Ok true
  | Raise e =>
      match exn_kind e with
      | AttributeError => Ok false
      | _ => Raise e
      end
  end.

(** [value != '[deleted]'] *)
Definition not_deleted (value : pyval) : bool :=
  match value with
  | VStr s => negb (String.eqb s "[deleted]")
  | _ => true
  end.

(** The dictionary literal of [get_post_comments]. *)
Definition comment_info (comment : RawComment) : Result (gmap string pyval) :=
  id <~ comment "id" ;;
  body <~ comment "body" ;;
  author <~ Client.author_of comment ;;
  score <~ comment "score" ;;
  created_utc <~ comment "created_utc" ;;
  permalink <~ Client.permalink_of comment ;;
  parent_id <~ comment "parent_id" ;;
  is_submitter <~ comment "is_submitter" ;;
  stickied <~ comment "stickied" ;;
  depth <~ comment "depth" ;;
  Ok (list_to_map
        [("id", id); ("body", body); ("author", author); ("score", score);
         ("created_utc", created_utc); ("permalink", permalink);
         ("parent_id", parent_id); ("is_submitter", is_submitter);
         ("stickied", stickied); ("depth", depth)]).

(** The body of the loop: a comment that has a body other than
    [[deleted]] is appended; the handler goes on to the next one. *)
Definition comment_step (comments_data : list (gmap string pyval))
    (comment : RawComment) : Result (list (gmap string pyval)) :=
  Client.rtry
    (has_body <~ hasattr comment "body" ;;
     if has_body
     then
       body <~ comment "body" ;;
       if not_deleted body
       then info <~ comment_info comment ;; Ok (comments_data ++ [info])
       else Ok comments_data
     else Ok comments_data)
    (fun e => Ok comments_data).

Section WithEnv.

Variable env : Env.
Variable forest : Forest.

Definition get_post_comments (post_id : string) (limit : Z)
  : M (list (gmap string pyval)) :=
  try_catch
    (_ <- call env (EvSubmission post_id)
            (fun h => reddit_submission env h post_id) ;;
     comments <- call env (EvReplaceMore post_id)
                   (fun h => comment_objects forest h post_id) ;;
     lift (Client.collect comment_step [] (Bot.slice_upto limit comments)))
    (fun e => raise e).

End WithEnv.

End Comments.

(* ===================================================================== *)
(** ** [reddit_bot.py]: data retrieval, search and summaries *)
(* ===================================================================== *)

Module Reports.

(** A summand of [sum(...)]: an [int], a [bool] counting as one; the
    running [int] total cannot take a [str] or [None]. *)
Definition summand (v : pyval) : Result Z :=
  match v with
  | VInt z => Ok z
  | VBool b => Ok (if b then 1 else 0)
  | _ => Raise (mkExn TypeError
                  ("unsupported operand type(s) for +: 'int' and '"
                     +:+ type_name v +:+ "'"))
  end.

(** [post[key]] as a summand. *)
Definition int_field (key : string) (post : gmap string pyval) : Result Z :=
  value <~ dict_get post key ;; summand value.

(** [sum(post[key] for post in posts)] *)
Fixpoint sum_field (key : string) (posts : list (gmap string pyval)) : Result Z :=
  match posts with
  | [] => Ok 0
  | post :: rest =>
      value <~ int_field key post ;;
      total <~ sum_field key rest ;;
      Ok (value + total)
  end.

(** [max(posts, key=lambda x: x[key])] after the first element: a later
    post replaces the best one only when its key is greater. *)
Fixpoint max_from (key : string) (best : gmap string pyval) (best_key : Z)
    (rest : list (gmap string pyval)) : Result (gmap string pyval) :=
  match rest with
  | [] => Ok best
  | post :: rest' =>
      value <~ int_field key post ;;
      if (value >? best_key)%Z then max_from key post value rest'
      else max_from key best best_key rest'
  end.

Definition max_by (key : string) (posts : list (gmap string pyval))
  : Result (gmap string pyval) :=
  match posts with
  | [] => Raise (mkExn ValueError "max() arg is an empty sequence")
  | post :: rest =>
      value <~ int_field key post ;; max_from key post value rest
  end.

(** [int / int] for operands of either sign. *)
Definition true_div (a b : Z) : float :=
  let magnitude (z : Z) := Bot.float_of_int (Z.abs z) in
  let signed (z : Z) :=
    if (z <? 0)%Z then PrimFloat.opp (magnitude z) else magnitude z in
  (signed a / signed b)%float.

Record Summary := mkSummary {
  total_posts : Z;
  average_score : float;
  total_score : Z;
  total_comments : Z;
  average_comments : float;
  top_post : pyval;
  most_discussed : pyval
}.

(** [None] is the empty dictionary returned for no posts. *)
Definition _generate_subreddit_summary (posts : list (gmap string pyval))
  : Result (option Summary) :=
  match posts with
  | [] => Ok None
  | _ =>
      total_score <~ sum_field "score" posts ;;
      total_comments <~ sum_field "num_comments" posts ;;
      let n := Z.of_nat (length posts) in
      top <~ max_by "score" posts ;;
      top_title <~ dict_get top "title" ;;
      discussed <~ max_by "num_comments" posts ;;
      discussed_title <~ dict_get discussed "title" ;;
      Ok (Some (mkSummary n (true_div total_score n) total_score total_comments
                  (true_div total_comments n) top_title discussed_title))
  end.

Definition count_retrieved (n : Z) (st : Stats) : Stats :=
  mkStats (comments_posted st) (posts_retrieved st + n) (errors st) (start_time st).

(** What [retrieve_subreddit_data] returns. *)
Record SubredditData := mkSubredditData {
  sd_subreddit : string;
  sd_retrieved_at : Z;
  sd_sort_method : string;
  sd_total_posts : Z;
  sd_posts : list WithComments;
  sd_summary : option Summary
}.

(** What [search_and_analyze] returns; the analysis is
    [response.content], which may be [None]. *)
Record SearchResults := mkSearchResults {
  sr_query : string;
  sr_subreddit : option string;
  sr_searched_at : Z;
  sr_total_results : Z;
  sr_posts : list (gmap string pyval);
  sr_analysis : option string
}.

(** One entry of [posts_summary]. *)
Definition post_summary (post : gmap string pyval) : Result (list (string * pyval)) :=
  title <~ dict_get post "title" ;;
  score <~ dict_get post "score" ;;
  comments <~ dict_get post "num_comments" ;;
  subreddit <~ dict_get post "subreddit" ;;
  Ok [("title", title); ("score", score); ("comments", comments);
      ("subreddit", subreddit)].

Fixpoint post_summaries (posts : list (gmap string pyval))
  : Result (list (list (string * pyval))) :=
  match posts with
  | [] => Ok []
  | post :: rest =>
      entry <~ post_summary post ;;
      entries <~ post_summaries rest ;;
      Ok (entry :: entries)
  end.

Section WithEnv.

Variable env : Env.
Variable forest : Forest.

(** [json.dumps(posts_summary, indent=2)] *)
Variable json_dumps : list (list (string * pyval)) -> string.

Definition indent : string := "            ".

Definition analysis_prompt (summaries : list (list (string * pyval)))
    (query : string) : string :=
  PyStr.nl
    +:+ indent +:+ "Analyze these Reddit search results for query: "
    +:+ String (ascii_of_N 34) query +:+ String (ascii_of_N 34) PyStr.nl
    +:+ indent +:+ PyStr.nl
    +:+ indent +:+ "Posts data: " +:+ json_dumps summaries +:+ PyStr.nl
    +:+ indent +:+ PyStr.nl
    +:+ indent +:+ "Provide insights about:" +:+ PyStr.nl
    +:+ indent +:+ "1. Common themes and topics" +:+ PyStr.nl
    +:+ indent +:+ "2. Engagement patterns (scores, comments)" +:+ PyStr.nl
    +:+ indent +:+ "3. Popular subreddits for this topic" +:+ PyStr.nl
    +:+ indent +:+ "4. Trends and observations" +:+ PyStr.nl
    +:+ indent +:+ "5. Key takeaways" +:+ PyStr.nl
    +:+ indent +:+ PyStr.nl
    +:+ indent +:+ "Keep the analysis concise but informative." +:+ PyStr.nl
    +:+ indent.

Definition _analyze_posts_with_ai (posts : list (gmap string pyval))
    (query : string) : M (option string) :=
  try_catch
    (match posts with
     | [] => ret (Some "No posts found for analysis")
     | _ =>
         summaries <- lift (post_summaries (firstn 10 posts)) ;;
         let prompt := analysis_prompt summaries query in
         call env (EvValidationAgent prompt)
              (fun h => validation_agent_run env h prompt)
     end)
    (fun e => ret (Some ("Analysis error: " +:+ exn_msg e))).

Definition search_and_analyze (query : string) (subreddit_name : option string)
    (limit : Z) : M SearchResults :=
  try_catch
    (posts <- Client.search_posts env query subreddit_name "relevance" "all" limit ;;
     analysis <- _analyze_posts_with_ai posts query ;;
     searched_at <- now ;;
     ret (mkSearchResults query subreddit_name searched_at
            (Z.of_nat (length posts)) posts analysis))
    (fun e => raise e).

(** The body of [for post in posts] when comments are included. *)
Definition attach_comments (post : gmap string pyval) : M WithComments :=
  try_catch
    (id <- lift (dict_get post "id") ;;
     comments <- Comments.get_post_comments env forest (py_str id) 20 ;;
     sleep env 1 ;;;
     ret (mkWithComments post (Some comments)))
    (fun e =>
       _ <- lift (dict_get post "id") ;;
       ret (mkWithComments post (Some []))).

(** [for x in xs], collecting what the body leaves in each element. *)
Fixpoint for_each_collect {A B} (xs : list A) (body : A -> M B) : M (list B) :=
  match xs with
  | [] => ret []
  | x :: rest =>
      y <- body x ;;
      ys <- for_each_collect rest body ;;
      ret (y :: ys)
  end.

Definition retrieve_subreddit_data (subreddit_name sort_by : string) (limit : Z)
    (include_comments : bool) : M SubredditData :=
  try_catch
    (posts <- Client.get_subreddit_posts env subreddit_name sort_by limit "day" ;;
     posts <-
       (if include_comments then for_each_collect posts attach_comments
        else ret (map (fun post => mkWithComments post None) posts)) ;;
     retrieved_at <- now ;;
     summary <- lift (_generate_subreddit_summary (map wc_post posts)) ;;
     modify (set_stats (count_retrieved (Z.of_nat (length posts)))) ;;;
     ret (mkSubredditData subreddit_name retrieved_at sort_by
            (Z.of_nat (length posts)) posts summary))
    (fun e => modify (set_stats Bot.count_error) ;;; raise e).

End WithEnv.

End Reports.

(* ===================================================================== *)
(** ** Predicates on strings and lists used in the statements *)
(* ===================================================================== *)

(** Every character of [s] satisfies [p]. *)
Fixpoint all_chars (p : ascii -> bool) (s : string) : bool :=
  match s with
  | EmptyString => true
  | String c r => p c && all_chars p r
  end.

Definition is_slash (c : ascii) : bool := Ascii.eqb c "/".

(** [s] contains no slash. *)
Definition slash_free (s : string) : bool := all_chars (fun c => negb (is_slash c)) s.

(** A result dictionary is either a success carrying the comment's id
    and permalink and no error, or a failure carrying an error and no
    comment. *)
Definition well_formed_result (r : PostResult) : Prop :=
  (success r = true /\ error r = None
   /\ is_Some (comment_id r) /\ is_Some (permalink r))
  \/ (success r = false /\ is_Some (error r)
      /\ comment_id r = None /\ permalink r = None).

Definition is_validation (ev : Event) : Prop :=
  match ev with EvValidationAgent _ => True | _ => False end.

(* ===================================================================== *)
(** ** Further sample collaborators *)
(* ===================================================================== *)

Module Sample2.

(** Collaborators for which every submission is locked. *)
Definition locked_thread : Env :=
  mkEnv (fun _ _ => Ok (Some "VALID"))
        (fun _ _ => Ok (Some "Protocols help a lot with that."))
        (fun _ _ => Ok (mkSubmission "Closed" "Thread is closed" true "python"))
        (fun _ _ => Ok [])
        (fun _ _ _ => Ok Sample.a_comment)
        (fun _ _ _ _ _ => Ok []) (fun _ _ _ _ _ _ => Ok [])
        (fun _ _ => 0%N).

End Sample2.

Module Sample3.

(** Collaborators whose comment generator is down. *)
Definition generator_down : Env :=
  Sample.env_with (Ok (Some "VALID")) (Raise (mkExn OtherException "quota exceeded"))
    (Ok Sample.a_comment) (Ok []).

(** Collaborators whose generator starts its comment with [Error]. *)
Definition error_talk : Env :=
  Sample.env_with (Ok (Some "VALID"))
    (Ok (Some "Error handling in Python deserves more love."))
    (Ok Sample.a_comment) (Ok []).

(** Collaborators for which the subreddit does not exist. *)
Definition no_such_subreddit : Env :=
  Sample.env_with (Ok None) (Ok None) (Ok Sample.a_comment)
    (Raise (mkExn Redirect "Redirect to /subreddits/search")).

(** A listing with scores 5, -1 and 20. *)
Definition mixed_listing : Env :=
  Sample.env_with (Ok (Some "VALID")) (Ok (Some "Protocols help a lot with that."))
    (Ok Sample.a_comment)
    (Ok [Sample.raw_post "p1" "Typing tips" 5;
         Sample.raw_post "p2" "Downvoted rant" (-1);
         Sample.raw_post "p3" "Async pitfalls" 20]).

(** The posts of an outcome, none when it is an exception. *)
Definition posts_of {A} (outcome : Result (list A)) : list A :=
  match outcome with
  | Ok posts => posts
  | Raise _ => []
  end.

Definition python_new : Result (list (gmap string pyval)) * State :=
  Client.get_subreddit_posts Sample.agreeable "r/python" "new" 10 "day" Sample.initial.

Definition mixed_run : Result (list PostResult) * State :=
  Bot.auto_comment_on_posts mixed_listing "python" 5 "hot" 0 Sample.initial.

(** An hour of monitoring that comments on every match, and one that
    only logs. *)
Definition pair_of {A} (run : option (Result A * State)) : Result A * State :=
  match run with
  | Some outcome => outcome
  | None => (Raise (mkExn OtherException "still running"), Sample.initial)
  end.

Definition commenting_hour : Result Bot.Monitoring * State :=
  pair_of (Bot.monitor_subreddit Sample.agreeable 60 "python" ["tips"] "comment" 1
             Sample.initial).

Definition logging_hour : Result Bot.Monitoring * State :=
  pair_of (Bot.monitor_subreddit Sample.agreeable 60 "python" ["tips"] "log" 1
             Sample.initial).

(** What the commenting hour returns. *)
Definition commenting_found : Bot.Monitoring :=
  match fst commenting_hour with
  | Ok found => found
  | Raise _ => Bot.mkMonitoring EmptyString [] 0 0 [] 0
  end.

(** The mixed listing as the client returns it, and its summary. *)
Definition mixed_posts : Result (list (gmap string pyval)) * State :=
  Client.get_subreddit_posts mixed_listing "python" "hot" 10 "day" Sample.initial.

Definition mixed_summary : Reports.Summary :=
  match Reports._generate_subreddit_summary (posts_of (fst mixed_posts)) with
  | Ok (Some sm) => sm
  | _ => Reports.mkSummary 0 0%float 0 0 0%float VNone VNone
  end.

(** A comment of the tree, with the attributes the client reads. *)
Definition raw_comment (id body : string) : RawComment :=
  fun attr =>
    if String.eqb attr "id" then Ok (VStr id)
    else if String.eqb attr "body" then Ok (VStr body)
    else if String.eqb attr "author" then Ok VNone
    else if String.eqb attr "score" then Ok (VInt 2)
    else if String.eqb attr "created_utc" then Ok (VObj "1700000100.0")
    else if String.eqb attr "permalink" then Ok (VStr "/r/python/comments/p1/c/")
    else if String.eqb attr "parent_id" then Ok (VStr "t3_p1")
    else if String.eqb attr "is_submitter" then Ok (VBool false)
    else if String.eqb attr "stickied" then Ok (VBool false)
    else if String.eqb attr "depth" then Ok (VInt 0)
    else Raise (mkExn AttributeError
                  ("'Comment' object has no attribute '" +:+ attr +:+ "'")).

(** A comment whose score cannot be read. *)
Definition comment_without_score : RawComment :=
  fun attr =>
    if String.eqb attr "score"
    then Raise (mkExn OtherException "lazy fetch failed")
    else raw_comment "c4" "Broken" attr.

(** A tree of four comments: one live, one deleted, one broken, one
    live. *)
Definition a_forest : Forest :=
  mkForest (fun _ _ => Ok [raw_comment "c1" "Use Protocol";
                           raw_comment "c2" "[deleted]";
                           comment_without_score;
                           raw_comment "c3" "ParamSpec helps"]).

(** A gateway that cannot deliver comment trees. *)
Definition broken_forest : Forest :=
  mkForest (fun _ _ => Raise (mkExn OtherException "503")).

Definition p1_comments : Result (list (gmap string pyval)) * State :=
  Comments.get_post_comments Sample.agreeable a_forest "p1" 20 Sample.initial.

(** [json.dumps] is of no concern here. *)
Definition no_json (summaries : list (list (string * pyval))) : string := "[...]".

Definition retrieval_without_comments : Result Reports.SubredditData * State :=
  Reports.retrieve_subreddit_data mixed_listing broken_forest "python" "hot" 10 true
    Sample.initial.

(** A search that finds the two sample posts while the validation agent
    is out of order. *)
Definition search_with_agent_down : Result Reports.SearchResults * State :=
  Reports.search_and_analyze
    (mkEnv (fun _ _ => Raise (mkExn OtherException "agent offline"))
           (fun _ _ => Ok None)
           (fun _ _ => Ok Sample.a_submission)
           (fun _ _ => Ok [])
           (fun _ _ _ => Ok Sample.a_comment)
           (fun _ _ _ _ _ => Ok [])
           (fun _ _ _ _ _ _ => Ok [Sample.raw_post "p1" "Typing tips" 5;
                                   Sample.raw_post "p3" "Async pitfalls" 20])
           (fun _ _ => 0%N))
    no_json "typing" None 50 Sample.initial.

(** The first post of the mixed listing as the client returns it. *)
Definition first_post : gmap string pyval :=
  match posts_of (fst mixed_posts) with
  | post :: _ => post
  | [] => ∅
  end.

End Sample3.

(** The [time_filter] argument a listing is asked with: only [top] passes
    one. *)
Definition listing_filter (sort_by time_filter : string) : option string :=
  if String.eqb sort_by "top" then Some time_filter else None.

(** The subreddit [search_posts] searches: [all] when none is given, the
    normalised name when a valid one is, none when the name is invalid. *)
Definition search_target (subreddit_name : option string) : option string :=
  match subreddit_name with
  | None => Some "all"
  | Some name =>
      if PyStr.is_empty name then Some "all"
      else if fst (Validator.validate_subreddit_name name)
           then Some (snd (Validator.validate_subreddit_name name))
           else None
  end.

(** The number of successful and of failed results. *)
Definition successes (rs : list PostResult) : Z :=
  Z.of_nat (length (List.filter success rs)).

Definition failures (rs : list PostResult) : Z :=
  Z.of_nat (length (List.filter (fun r => negb (success r)) rs)).

(** The eligibility test came out true. *)
Definition is_eligible (min_score : Z) (post : gmap string pyval) : bool :=
  match Bot.eligible min_score post with
  | Ok true => true
  | _ => false
  end.

(** [post[key]] when it is there and is an [int]. *)
Definition int_field_of (post : gmap string pyval) (key : string) : option Z :=
  match post !! key with
  | Some value =>
      match py_int value with
      | Ok z => Some z
      | Raise _ => None
      end
  | None => None
  end.

(** The criteria of the auto-comment filter. *)
Definition meets_criteria (min_score : Z) (post : gmap string pyval) : Prop :=
  exists score locked over_18 num_comments,
    int_field_of post "score" = Some score
    /\ post !! "locked" = Some locked
    /\ post !! "over_18" = Some over_18
    /\ int_field_of post "num_comments" = Some num_comments
    /\ min_score <= score
    /\ truthy locked = false
    /\ truthy over_18 = false
    /\ num_comments < 100.

(** The bot's counters and its result list are untouched. *)
Definition keeps_counters (s s' : State) : Prop :=
  stats s' = stats s /\ results s' = results s.

(** The calls of a monitoring run that only logs: polls of the listing
    and the waits that end a cycle. *)
Definition monitor_event (ev : Event) : Prop :=
  match ev with
  | EvListing _ _ _ _ => True
  | EvSleep seconds => seconds = 300 \/ seconds = 60
  | _ => False
  end.

Definition without_comment (m : Match) : Prop := m_comment_result m = None.

(** What a monitoring run that only logs does to the state. *)
Definition log_rel (s s' : State) : Prop :=
  extends_with monitor_event s s'
  /\ exists recorded,
       matches s' = matches s ++ recorded /\ Forall without_comment recorded.

(** Within [posts], [top] is the first post whose [key] is the greatest. *)
Definition first_greatest (key : string) (posts : list (gmap string pyval))
    (top : gmap string pyval) : Prop :=
  exists before after k,
    posts = before ++ top :: after
    /\ Reports.int_field key top = Ok k
    /\ Forall (fun p => exists z, Reports.int_field key p = Ok z /\ z < k) before
    /\ Forall (fun p => exists z, Reports.int_field key p = Ok z /\ z <= k) after.

(** A comment dictionary whose body is there and is not [[deleted]]. *)
Definition live_comment (d : gmap string pyval) : Prop :=
  exists body, d !! "body" = Some body /\ Comments.not_deleted body = true.

(** The calls of a data retrieval: the listing, the comment trees and the
    one-second waits between them. *)
Definition retrieval_event (ev : Event) : Prop :=
  match ev with
  | EvListing _ _ _ _ | EvSubmission _ | EvReplaceMore _ => True
  | EvSleep seconds => seconds = 1
  | _ => False
  end.

(** The calls of a search with analysis. *)
Definition search_event (ev : Event) : Prop :=
  match ev with
  | EvSearch _ _ _ _ _ | EvValidationAgent _ => True
  | _ => False
  end.

(** The post carries a [comments] entry. *)
Definition has_comments (w : WithComments) : Prop := is_Some (wc_comments w).

(** The text a post is searched in, and whether [keyword] occurs in it. *)
Definition post_text (title selftext : pyval) : string :=
  PyStr.lower (py_str title +:+ " " +:+ py_str selftext).

Definition keyword_matches (title selftext : pyval) (keyword : string) : bool :=
  PyStr.contains (PyStr.lower keyword) (post_text title selftext).

(** [s] with [recorded] appended to the match list. *)
Definition with_matches (recorded : list Match) (s : State) : State :=
  mkState (trace s) (clock s) (stats s) (results s) (matches s ++ recorded).

(** The match carries the result of a comment attempt. *)
Definition with_comment (m : Match) : Prop := is_Some (m_comment_result m).

(** What a monitoring run that comments does to the match list. *)
Definition comment_rel (s s' : State) : Prop :=
  exists recorded,
    matches s' = matches s ++ recorded /\ Forall with_comment recorded.






(* ===================================================================== *)
(** * Properties *)
(* ===================================================================== *)

(** ** The string functions on small inputs *)
Example strip_ex : PyStr.strip "  a b
 " = "a b".
Proof. reflexivity. Qed.

Example replace_ex : PyStr.replace "r/r/abcr/" "r/" EmptyString = "abc".
Proof. reflexivity. Qed.

Example split_ex : PyStr.split_nl (String "a" (String PyStr.newline (String PyStr.newline "b"))) = ["a"; EmptyString; "b"].
Proof. reflexivity. Qed.

Example of_int_ex : PyStr.of_int 10000 = "10000".
Proof. reflexivity. Qed.

Example subreddit_python :
  Validator.validate_subreddit_name "r/Python" = (true, "Python").
Proof. reflexivity. Qed.

Example subreddit_too_short :
  Validator.validate_subreddit_name "a" = (false, "Invalid subreddit name format").
Proof. reflexivity. Qed.

Example verdict_valid : Validator.verdict_of "VALID" = (true, "Comment is valid").
Proof. reflexivity. Qed.

Example verdict_invalid :
  Validator.verdict_of "INVALID: too spammy" = (false, "too spammy").
Proof. reflexivity. Qed.


(** ** [validate_comment]: structural checks *)

Section ValidateComment.

Variable env : Env.

Lemma too_short_reason_text :
  Validator.too_short_reason = "Comment too short (minimum 10 characters)".
Proof. reflexivity. Qed.

Lemma too_long_reason_text :
  Validator.too_long_reason = "Comment too long (maximum 10000 characters)".
Proof. reflexivity. Qed.

Lemma validate_comment_too_short text ctx s :
  PyStr.len (PyStr.strip text) < Config.MIN_COMMENT_LENGTH ->
  Validator.validate_comment env text ctx s
  = (Ok (false, Validator.too_short_reason), s).
Proof.
  intros Hshort. unfold Validator.validate_comment, try_catch.
  apply Z.ltb_lt in Hshort. rewrite Hshort. reflexivity.
Qed.

Lemma validate_comment_too_long text ctx s :
  Config.MIN_COMMENT_LENGTH <= PyStr.len (PyStr.strip text) ->
  PyStr.len text > Config.MAX_COMMENT_LENGTH ->
  Validator.validate_comment env text ctx s
  = (Ok (false, Validator.too_long_reason), s).
Proof.
  intros Hmin Hlong. unfold Validator.validate_comment, try_catch.
  apply Z.ltb_ge in Hmin. rewrite Hmin.
  apply Z.gtb_gt in Hlong. rewrite Hlong. reflexivity.
Qed.

(** What happens to a comment that passes both length checks: the
    agent is asked once, and its answer (or failure) decides. *)
Lemma validate_comment_asks text ctx s :
  Config.MIN_COMMENT_LENGTH <= PyStr.len (PyStr.strip text) ->
  PyStr.len text <= Config.MAX_COMMENT_LENGTH ->
  let prompt := Validator.validation_prompt text ctx in
  let s' := snd (call env (EvValidationAgent prompt)
                   (fun h => validation_agent_run env h prompt) s) in
  Validator.validate_comment env text ctx s
  = (match validation_agent_run env (trace s) prompt with
     | Ok (Some content) => Ok (Validator.verdict_of (PyStr.strip content))
     | Ok None =>
         Ok (false, "Validation error: 'NoneType' object has no attribute 'strip'")
     | Raise e => Ok (false, "Validation error: " +:+ exn_msg e)
     end, s').
Proof.
  intros Hmin Hmax prompt s'. subst s'.
  unfold Validator.validate_comment, try_catch.
  apply Z.ltb_ge in Hmin. rewrite Hmin.
  assert (Hle : (PyStr.len text >? Config.MAX_COMMENT_LENGTH) = false).
  { rewrite Z.gtb_ltb. apply Z.ltb_ge. exact Hmax. }
  rewrite Hle. fold prompt.
  unfold bind, call, lift, ret. simpl.
  destruct (validation_agent_run env (trace s) prompt) as [[content|]|e];
    reflexivity.
Qed.

End ValidateComment.

(** C2. A comment whose trimmed length is below the minimum (10) or whose
    raw length is above the maximum (10000) is rejected with a reason that
    names the limit, the state (and with it the trace of agent calls) is
    left as it was, and the minimum is checked first: when the trimmed
    length is below it the reason is the too-short one, whatever the raw
    length. *)
Theorem validate_comment_structural_reject (env : Env) (text ctx : string) (s : State) :
  PyStr.len (PyStr.strip text) < Config.MIN_COMMENT_LENGTH
  \/ PyStr.len text > Config.MAX_COMMENT_LENGTH ->
  exists reason,
    Validator.validate_comment env text ctx s = (Ok (false, reason), s)
    /\ (PyStr.len (PyStr.strip text) < Config.MIN_COMMENT_LENGTH ->
        reason = "Comment too short (minimum 10 characters)"
        /\ PyStr.contains (PyStr.of_int Config.MIN_COMMENT_LENGTH) reason = true)
    /\ (Config.MIN_COMMENT_LENGTH <= PyStr.len (PyStr.strip text) ->
        reason = "Comment too long (maximum 10000 characters)"
        /\ PyStr.contains (PyStr.of_int Config.MAX_COMMENT_LENGTH) reason = true).
Proof.
  intros Hbad.
  destruct (Z.lt_ge_cases (PyStr.len (PyStr.strip text)) Config.MIN_COMMENT_LENGTH)
    as [Hshort | Hmin].
  - exists Validator.too_short_reason. split; [| split].
    + apply validate_comment_too_short. exact Hshort.
    + intros _. split; reflexivity.
    + intros Hge. lia.
  - destruct Hbad as [Hshort | Hlong]; [lia |].
    exists Validator.too_long_reason. split; [| split].
    + apply validate_comment_too_long; assumption.
    + intros Hlt. lia.
    + intros _. split; reflexivity.
Qed.

Lemma validate_comment_structural_reject_witness :
  exists reason,
    Validator.validate_comment Sample.agreeable "short" "ctx" Sample.initial
    = (Ok (false, reason), Sample.initial)
    /\ (PyStr.len (PyStr.strip "short") < Config.MIN_COMMENT_LENGTH ->
        reason = "Comment too short (minimum 10 characters)"
        /\ PyStr.contains (PyStr.of_int Config.MIN_COMMENT_LENGTH) reason = true)
    /\ (Config.MIN_COMMENT_LENGTH <= PyStr.len (PyStr.strip "short") ->
        reason = "Comment too long (maximum 10000 characters)"
        /\ PyStr.contains (PyStr.of_int Config.MAX_COMMENT_LENGTH) reason = true).
Proof.
  apply (validate_comment_structural_reject Sample.agreeable "short" "ctx" Sample.initial).
  left. reflexivity.
Defined.

Example validate_comment_long_text :
  Validator.validate_comment Sample.agreeable Sample.long_text "ctx" Sample.initial
  = (Ok (false, "Comment too long (maximum 10000 characters)"), Sample.initial).
Proof. vm_compute. reflexivity. Qed.

Example validate_comment_blank_long_text :
  Validator.validate_comment Sample.agreeable
    (PyStr.repeat_char " " (Z.to_nat 10001)) "ctx" Sample.initial
  = (Ok (false, "Comment too short (minimum 10 characters)"), Sample.initial).
Proof. vm_compute. reflexivity. Qed.

(** C6. [validate_comment] always returns a verdict; when the comment
    passes the length checks and the agent call raises, or its response has
    no content to strip, the verdict rejects and its reason carries the
    description of the failure. *)
Theorem validate_comment_never_propagates (env : Env) (text ctx : string) (s : State) :
  exists verdict s',
    Validator.validate_comment env text ctx s = (Ok verdict, s')
    /\ (Config.MIN_COMMENT_LENGTH <= PyStr.len (PyStr.strip text) ->
        PyStr.len text <= Config.MAX_COMMENT_LENGTH ->
        forall e,
          validation_agent_run env (trace s) (Validator.validation_prompt text ctx)
          = Raise e ->
          verdict = (false, "Validation error: " +:+ exn_msg e))
    /\ (Config.MIN_COMMENT_LENGTH <= PyStr.len (PyStr.strip text) ->
        PyStr.len text <= Config.MAX_COMMENT_LENGTH ->
        validation_agent_run env (trace s) (Validator.validation_prompt text ctx)
        = Ok None ->
        verdict
        = (false, "Validation error: 'NoneType' object has no attribute 'strip'")).
Proof.
  destruct (Z.lt_ge_cases (PyStr.len (PyStr.strip text)) Config.MIN_COMMENT_LENGTH)
    as [Hshort | Hmin].
  - exists (false, Validator.too_short_reason), s.
    split; [apply validate_comment_too_short; exact Hshort |].
    split; intros; lia.
  - destruct (Z.le_gt_cases (PyStr.len text) Config.MAX_COMMENT_LENGTH)
      as [Hmax | Hlong].
    + pose proof (validate_comment_asks env text ctx s Hmin Hmax) as Hrun.
      cbv zeta in Hrun. rewrite Hrun.
      destruct (validation_agent_run env (trace s)
                  (Validator.validation_prompt text ctx)) as [[content|]|e] eqn:Hans;
        eexists; eexists; (split; [reflexivity |]); split; intros; congruence.
    + exists (false, Validator.too_long_reason), s.
      split; [apply validate_comment_too_long; [exact Hmin | lia] |].
      split; intros; lia.
Qed.

Lemma validate_comment_never_propagates_witness :
  fst (Validator.validate_comment
         (Sample.env_with (Raise (mkExn OtherException "429 quota exceeded"))
            (Ok None) (Ok Sample.a_comment) (Ok []))
         "A perfectly fine comment." "ctx" Sample.initial)
  = Ok (false, "Validation error: 429 quota exceeded").
Proof.
  destruct (validate_comment_never_propagates
              (Sample.env_with (Raise (mkExn OtherException "429 quota exceeded"))
                 (Ok None) (Ok Sample.a_comment) (Ok []))
              "A perfectly fine comment." "ctx" Sample.initial)
    as (verdict & s' & Hrun & Hraise & _).
  rewrite Hrun. simpl.
  rewrite (Hraise ltac:(vm_compute; discriminate) ltac:(vm_compute; discriminate)
             (mkExn OtherException "429 quota exceeded") eq_refl).
  reflexivity.
Defined.

(** ** [validate_comment]: reading the agent's answer *)

Lemma prefix_cons (a b : ascii) (p s : string) :
  String.prefix (String a p) (String b s)
  = if Ascii.ascii_dec a b then String.prefix p s else false.
Proof. reflexivity. Qed.

Lemma verdict_of_valid (result : string) :
  PyStr.startswith result "VALID" = true ->
  Validator.verdict_of result = (true, "Comment is valid").
Proof. intros H. unfold Validator.verdict_of. rewrite H. reflexivity. Qed.

Lemma verdict_of_invalid (result : string) :
  PyStr.startswith result "INVALID" = true ->
  Validator.verdict_of result
  = (false, PyStr.strip (PyStr.replace result "INVALID:" EmptyString)).
Proof.
  intros H. unfold Validator.verdict_of.
  destruct (PyStr.startswith result "VALID") eqn:Hv.
  - destruct result as [|c r]; [discriminate |].
    unfold PyStr.startswith in *. rewrite prefix_cons in H, Hv.
    destruct (Ascii.ascii_dec "I" c) as [<- |]; [| discriminate].
    destruct (Ascii.ascii_dec "V" "I"); discriminate.
  - rewrite H. reflexivity.
Qed.

Lemma verdict_of_other (result : string) :
  PyStr.startswith result "VALID" = false ->
  PyStr.startswith result "INVALID" = false ->
  Validator.verdict_of result
  = (PyStr.contains "valid" (PyStr.lower result), "Content validation completed").
Proof. intros Hv Hi. unfold Validator.verdict_of. rewrite Hv, Hi. reflexivity. Qed.

Example verdict_lenient_accept :
  Validator.verdict_of "Looks valid to me" = (true, "Content validation completed").
Proof. reflexivity. Qed.

Example verdict_lenient_reject :
  Validator.verdict_of "Spam." = (false, "Content validation completed").
Proof. reflexivity. Qed.

(** C3. The reason of a rejection is the answer with every occurrence of
    [INVALID:] removed, not only the leading one: for the answer
    [INVALID: quotes INVALID: marker] the code gives [quotes  marker], where
    removing the prefix gives [quotes INVALID: marker]. *)
Theorem verdict_reason_loses_inner_marker :
  fst (Validator.validate_comment
         (Sample.env_with (Ok (Some "INVALID: quotes INVALID: marker"))
            (Ok None) (Ok Sample.a_comment) (Ok []))
         "A perfectly fine comment." "ctx" Sample.initial)
  = Ok (false, "quotes  marker")
  /\ Stated.invalid_reason "INVALID: quotes INVALID: marker" = "quotes INVALID: marker"
  /\ Stated.invalid_reason "INVALID: too spammy" = "too spammy".
Proof. repeat split; vm_compute; reflexivity. Qed.

(** ** [validate_subreddit_name] *)

Example subreddit_upper_prefix :
  Validator.validate_subreddit_name "R/learnpython" = (true, "learnpython").
Proof. reflexivity. Qed.

Example subreddit_too_long :
  Validator.validate_subreddit_name "r/abcdefghijklmnopqrstuv"
  = (false, "Invalid subreddit name format").
Proof. reflexivity. Qed.

Example subreddit_empty :
  Validator.validate_subreddit_name EmptyString
  = (false, "Subreddit name cannot be empty").
Proof. reflexivity. Qed.

(** C5. [validate_subreddit_name] removes [r/] and [R/] wherever they
    occur, so a name with a slash inside can be accepted: [car/pet] is
    accepted as [capet], where stripping a leading prefix and matching the
    pattern rejects it.  The two documented examples hold. *)
Theorem subreddit_name_inner_prefix_accepted :
  Validator.validate_subreddit_name "car/pet" = (true, "capet")
  /\ Stated.validate_subreddit_name "car/pet"
     = (false, "Invalid subreddit name format")
  /\ Validator.validate_subreddit_name "r/Python" = (true, "Python")
  /\ fst (Validator.validate_subreddit_name "a") = false.
Proof. repeat split; reflexivity. Qed.

(** ** [generate_comment] *)

Lemma clean_lines_filter_map (lines : list string) :
  Validator.clean_lines lines
  = map PyStr.strip
      (List.filter
         (fun line => negb (PyStr.is_empty (PyStr.strip line))
                      && negb (PyStr.startswith_any line Validator.meta_prefixes))
         lines).
Proof.
  induction lines as [|line rest IH]; [reflexivity |].
  cbn [Validator.clean_lines List.filter].
  destruct (negb (PyStr.is_empty (PyStr.strip line))
            && negb (PyStr.startswith_any line Validator.meta_prefixes));
    cbn [map]; rewrite IH; reflexivity.
Qed.

Lemma clean_up_trimmed_spec (response : string) :
  Validator.clean_up (PyStr.strip response) = Stated.clean_up_trimmed response.
Proof.
  unfold Validator.clean_up, Stated.clean_up_trimmed, Stated.kept_nonblank_lines.
  rewrite clean_lines_filter_map.
  destruct (List.filter _ (PyStr.split_nl (PyStr.strip response))); reflexivity.
Qed.

(** C7, as the code has it.  When the generator agent answers with a
    text, [generate_comment] trims the text, splits it at newlines, drops
    the lines that are blank or start with [Here], [This comment] or
    [I generated], trims each line it keeps and joins them with newlines;
    when no line is kept it returns the trimmed text. *)
Theorem generate_comment_cleans_trimmed_response
    (env : Env) (title body subreddit : string) (existing : list string)
    (s : State) (response : string) :
  comment_generator_agent_run env (trace s)
    (Validator.generation_prompt title body subreddit existing)
  = Ok (Some response) ->
  fst (Validator.generate_comment env title body subreddit existing s)
  = Ok (Stated.clean_up_trimmed response).
Proof.
  intros Hans.
  unfold Validator.generate_comment, try_catch, bind, call, lift, ret.
  cbn [fst snd]. rewrite Hans. cbn.
  rewrite clean_up_trimmed_spec. reflexivity.
Qed.

Lemma generate_comment_cleans_trimmed_response_witness :
  fst (Validator.generate_comment Sample.chatty "T" "B" "python" [] Sample.initial)
  = Ok ("Nice write-up." +:+ PyStr.nl +:+ "Thanks!").
Proof.
  rewrite (generate_comment_cleans_trimmed_response Sample.chatty
             "T" "B" "python" [] Sample.initial Sample.chatty_response eq_refl).
  reflexivity.
Defined.

(** C7, as stated, fails: for the answer [Here is a comment:] followed by
    a newline every line is dropped, and the text returned is the trimmed
    answer, without the newline, not the raw one. *)
Lemma generate_comment_fallback_not_raw :
  Stated.kept_lines ("Here is a comment:" +:+ PyStr.nl) = []
  /\ fst (Validator.generate_comment
            (Sample.env_with (Ok None)
               (Ok (Some ("Here is a comment:" +:+ PyStr.nl)))
               (Ok Sample.a_comment) (Ok []))
            "T" "B" "python" [] Sample.initial)
     = Ok "Here is a comment:"
  /\ fst (Validator.generate_comment
            (Sample.env_with (Ok None)
               (Ok (Some ("Here is a comment:" +:+ PyStr.nl)))
               (Ok Sample.a_comment) (Ok []))
            "T" "B" "python" [] Sample.initial)
     <> Ok (Stated.clean_up_raw ("Here is a comment:" +:+ PyStr.nl)).
Proof. repeat split; vm_compute; [reflexivity .. | discriminate]. Qed.

(** The lines that are kept are trimmed, too. *)
Example generate_comment_trims_kept_lines :
  Validator.clean_up ("Good point." +:+ PyStr.nl +:+ "   I agree.")
  = "Good point." +:+ PyStr.nl +:+ "I agree."
  /\ Stated.clean_up_raw ("Good point." +:+ PyStr.nl +:+ "   I agree.")
     = "Good point." +:+ PyStr.nl +:+ "   I agree.".
Proof. split; reflexivity. Qed.

Example generate_comment_error_text :
  fst (Validator.generate_comment
         (Sample.env_with (Ok None) (Raise (mkExn OtherException "timeout"))
            (Ok Sample.a_comment) (Ok []))
         "T" "B" "python" [] Sample.initial)
  = Ok "Error generating comment: timeout".
Proof. reflexivity. Qed.

(** ** [get_bot_stats] *)

Lemma success_rate_denominator (posted failed : Z) : 1 <= Z.max 1 (posted + failed).
Proof. lia. Qed.

(** C8. The snapshot reports
    [comments_posted / max(1, comments_posted + errors) * 100], the divisor
    is at least 1; with nothing posted and no error the rate is 0, with 3
    posted and 1 error it is 75.0. *)
Theorem success_rate_snapshot :
  (forall s : State,
      exists snapshot,
        Bot.get_bot_stats s = (Ok snapshot, s)
        /\ Bot.bs_success_rate snapshot
           = (Bot.float_of_int (comments_posted (stats s))
              / Bot.float_of_int
                  (Z.max 1 (comments_posted (stats s) + errors (stats s)))
              * Bot.float_of_int 100)%float
        /\ 1 <= Z.max 1 (comments_posted (stats s) + errors (stats s)))
  /\ (exists snapshot,
        fst (Bot.get_bot_stats (Sample.with_counts 0 0)) = Ok snapshot
        /\ Bot.bs_success_rate snapshot = 0%float)
  /\ (exists snapshot,
        fst (Bot.get_bot_stats (Sample.with_counts 3 1)) = Ok snapshot
        /\ Bot.bs_success_rate snapshot = 75%float).
Proof.
  split; [| split].
  - intros s. eexists. split; [reflexivity |]. split; [reflexivity | lia].
  - eexists. split; [reflexivity |]. vm_compute. reflexivity.
  - eexists. split; [reflexivity |]. vm_compute. reflexivity.
Qed.

(** ** Reasoning about runs *)

Lemma new_events_app (s s' : State) (evs : History) :
  trace s' = trace s ++ evs -> new_events s s' = evs.
Proof.
  intros H. unfold new_events. rewrite H. apply drop_app_length.
Qed.

Lemma new_events_same (s : State) : new_events s s = [].
Proof. apply new_events_app. rewrite app_nil_r. reflexivity. Qed.

Lemma extends_with_refl (Q : Event -> Prop) (s : State) : extends_with Q s s.
Proof.
  exists []. rewrite app_nil_r. repeat split; [constructor | lia].
Qed.

Lemma extends_with_trans (Q : Event -> Prop) (s1 s2 s3 : State) :
  extends_with Q s1 s2 -> extends_with Q s2 s3 -> extends_with Q s1 s3.
Proof.
  intros (evs1 & Ht1 & Hq1 & Hc1) (evs2 & Ht2 & Hq2 & Hc2).
  exists (evs1 ++ evs2). repeat split.
  - rewrite Ht2, Ht1, app_assoc. reflexivity.
  - apply Forall_app. split; [exact Hq1 |].
    eapply Forall_impl; [exact Hq2 |]. intros te [Hle Hq]. split; [lia | exact Hq].
  - lia.
Qed.

Lemma extends_with_weaken (Q Q' : Event -> Prop) (s s' : State) :
  (forall ev, Q ev -> Q' ev) -> extends_with Q s s' -> extends_with Q' s s'.
Proof.
  intros Himp (evs & Ht & Hq & Hc). exists evs. repeat split; [exact Ht | | exact Hc].
  eapply Forall_impl; [exact Hq |]. intros te [Hle HQ]. split; [exact Hle | auto].
Qed.

Lemma same_bot_refl (s : State) : same_bot s s.
Proof. repeat split. Qed.

Lemma same_bot_trans (s1 s2 s3 : State) :
  same_bot s1 s2 -> same_bot s2 s3 -> same_bot s1 s3.
Proof.
  intros (Ha & Hb & Hc) (Ha' & Hb' & Hc'). repeat split; congruence.
Qed.

#[local] Instance extends_with_preorder (Q : Event -> Prop) : PreOrder (extends_with Q).
Proof.
  split; [intros s; apply extends_with_refl |].
  intros s1 s2 s3. apply extends_with_trans.
Qed.

#[local] Instance client_step_preorder (Q : Event -> Prop) : PreOrder (client_step Q).
Proof.
  split.
  - intros s. split; [apply extends_with_refl | apply same_bot_refl].
  - intros s1 s2 s3 [He1 Hb1] [He2 Hb2]. split.
    + eapply extends_with_trans; eassumption.
    + eapply same_bot_trans; eassumption.
Qed.

Lemma client_step_weaken (Q Q' : Event -> Prop) (s s' : State) :
  (forall ev, Q ev -> Q' ev) -> client_step Q s s' -> client_step Q' s s'.
Proof.
  intros Himp [He Hb]. split; [eapply extends_with_weaken; eassumption | exact Hb].
Qed.

Section Respects.

Context {R : State -> State -> Prop} `{!PreOrder R}.

Lemma respects_ret {A} (a : A) : respects R (ret a).
Proof. intros s. simpl. reflexivity. Qed.

Lemma respects_raise {A} (e : Exn) : respects R (@raise A e).
Proof. intros s. simpl. reflexivity. Qed.

Lemma respects_lift {A} (r : Result A) : respects R (lift r).
Proof. intros s. simpl. reflexivity. Qed.

Lemma respects_now : respects R now.
Proof. intros s. simpl. reflexivity. Qed.

Lemma respects_bind {A B} (m : M A) (k : A -> M B) :
  respects R m -> (forall a, respects R (k a)) -> respects R (bind m k).
Proof.
  intros Hm Hk s. unfold bind. specialize (Hm s).
  destruct (m s) as [[a | e] s1]; simpl in *.
  - etransitivity; [exact Hm | apply Hk].
  - exact Hm.
Qed.

Lemma respects_try_catch {A} (body : M A) (handler : Exn -> M A) :
  respects R body -> (forall e, respects R (handler e)) ->
  respects R (try_catch body handler).
Proof.
  intros Hb Hh s. unfold try_catch. specialize (Hb s).
  destruct (body s) as [[a | e] s1]; simpl in *.
  - exact Hb.
  - etransitivity; [exact Hb | apply Hh].
Qed.

Lemma respects_for_each {A} (xs : list A) (body : A -> M unit) :
  (forall x, respects R (body x)) -> respects R (for_each xs body).
Proof.
  intros Hb. induction xs as [| x rest IH]; simpl.
  - apply respects_ret.
  - apply respects_bind; [apply Hb | intros _; exact IH].
Qed.

End Respects.

Section ClientSteps.

Variable env : Env.

Lemma call_step {A} (Q : Event -> Prop) (ev : Event) (answer : History -> Result A) :
  Q ev -> respects (client_step Q) (call env ev answer).
Proof.
  intros Hq s. unfold call. simpl. split; [| repeat split].
  exists [(clock s, ev)]. simpl. repeat split.
  - constructor; [simpl; split; [lia | exact Hq] | constructor].
  - lia.
Qed.

Lemma sleep_step (Q : Event -> Prop) (seconds : Z) :
  0 <= seconds -> Q (EvSleep seconds) -> respects (client_step Q) (sleep env seconds).
Proof.
  intros Hpos Hq s. unfold sleep. simpl. split; [| repeat split].
  exists [(clock s, EvSleep seconds)]. simpl. repeat split.
  - constructor; [simpl; split; [lia | exact Hq] | constructor].
  - lia.
Qed.

Lemma validate_comment_step (text ctx : string) :
  respects (client_step asks_validator) (Validator.validate_comment env text ctx).
Proof.
  unfold Validator.validate_comment.
  apply respects_try_catch; [| intros e; apply respects_ret].
  destruct (_ <? _)%Z; [apply respects_ret |].
  destruct (_ >? _)%Z; [apply respects_ret |].
  apply respects_bind; [apply call_step; exact I | intros content].
  apply respects_bind; [apply respects_lift | intros result; apply respects_ret].
Qed.

Lemma generate_comment_step (title body subreddit : string) (existing : list string) :
  respects (client_step asks_generator)
    (Validator.generate_comment env title body subreddit existing).
Proof.
  unfold Validator.generate_comment.
  apply respects_try_catch; [| intros e; apply respects_ret].
  apply respects_bind; [apply call_step; exact I | intros content].
  apply respects_bind; [apply respects_lift | intros result; apply respects_ret].
Qed.

Lemma post_comment_step (post_id text : string) (validate : bool) :
  respects (client_step comment_event) (Client.post_comment env post_id text validate).
Proof.
  unfold Client.post_comment.
  apply respects_try_catch.
  - apply respects_bind; [apply call_step; exact I | intros submission].
    apply respects_bind.
    + destruct validate; [| apply respects_ret].
      apply respects_bind; [| intros verdict; apply respects_ret].
      intros s. eapply client_step_weaken; [| apply validate_comment_step].
      intros [] H; try contradiction; exact I.
    + intros [reason |]; [apply respects_ret |].
      destruct (sub_locked submission); [apply respects_ret |].
      apply respects_bind; [apply call_step; exact I | intros comment].
      apply respects_bind; [| intros _; apply respects_ret].
      apply sleep_step; [unfold Config.RATE_LIMIT_DELAY; lia | reflexivity].
  - intros e. destruct (exn_kind e); apply respects_ret.
Qed.

Lemma generate_and_post_comment_step (post_id : string) (subreddit : option string) :
  respects (client_step comment_event)
    (Client.generate_and_post_comment env post_id subreddit).
Proof.
  unfold Client.generate_and_post_comment.
  apply respects_try_catch; [| intros e; apply respects_ret].
  apply respects_bind; [apply call_step; exact I | intros submission].
  apply respects_bind; [apply call_step; exact I | intros comments].
  apply respects_bind; [| intros generated].
  { intros s. eapply client_step_weaken; [| apply generate_comment_step].
    intros [] H; try contradiction; exact I. }
  destruct (PyStr.startswith generated "Error"); [apply respects_ret |].
  apply post_comment_step.
Qed.

Lemma get_subreddit_posts_step (name sort_by : string) (limit : Z) (time_filter : string) :
  respects (client_step is_listing)
    (Client.get_subreddit_posts env name sort_by limit time_filter).
Proof.
  unfold Client.get_subreddit_posts.
  destruct (Validator.validate_subreddit_name name) as [is_valid result].
  apply respects_try_catch.
  - destruct (negb is_valid); [apply respects_raise |].
    apply respects_bind; [| intros posts; apply respects_lift].
    repeat (match goal with
            | |- respects _ (if ?b then _ else _) => destruct b
            end);
      first [apply call_step; exact I | apply respects_raise].
  - intros e. destruct (exn_kind e); apply respects_raise.
Qed.

(** The client's operations return a dictionary whatever happens. *)
Lemma post_comment_returns (post_id text : string) (validate : bool) :
  never_raises (Client.post_comment env post_id text validate).
Proof.
  intros s. unfold Client.post_comment, try_catch.
  destruct (bind _ _ s) as [[r | e] s1]; simpl.
  - eexists; reflexivity.
  - destruct (exn_kind e); eexists; reflexivity.
Qed.

Lemma generate_and_post_comment_returns (post_id : string) (subreddit : option string) :
  never_raises (Client.generate_and_post_comment env post_id subreddit).
Proof.
  intros s. unfold Client.generate_and_post_comment, try_catch.
  destruct (bind _ _ s) as [[r | e] s1]; simpl; eexists; reflexivity.
Qed.

End ClientSteps.

(** ** Comments reach the gateway only after validation *)

Section ValidatedReplies.

Variable env : Env.

Lemma not_validator_reply (t : Z) (p x : string) (c : Z) (evs : History) :
  Forall (fun te : Z * Event => c <= fst te /\ asks_validator (snd te)) evs ->
  ~ In (t, EvReply p x) evs.
Proof.
  intros Hall Hin. rewrite Forall_forall in Hall.
  apply list_elem_of_In in Hin. destruct (Hall _ Hin) as [_ []].
Qed.

Lemma post_comment_replies_validated (post_id text : string) (s : State) (t : Z) (p x : string) :
  In (t, EvReply p x)
     (new_events s (snd (Client.post_comment env post_id text true s))) ->
  p = post_id /\ x = text
  /\ accepted_before env s (snd (Client.post_comment env post_id text true s))
       t post_id text.
Proof.
  remember (Client.post_comment env post_id text true s) as out eqn:Hout.
  unfold Client.post_comment, try_catch, bind, call, sleep, ret in Hout.
  cbv beta in Hout.
  set (s1 := mkState (trace s ++ [(clock s, EvSubmission post_id)]) _ _ _ _) in Hout.
  destruct (reddit_submission env (trace s) post_id) as [submission | e0].
  2: { intros Hin.
       assert (Hnew : new_events s s1 = [(clock s, EvSubmission post_id)])
         by (apply new_events_app; reflexivity).
       destruct (exn_kind e0); subst out; cbn [snd] in Hin; rewrite Hnew in Hin;
         destruct Hin as [Hin | []]; discriminate. }
  set (ctx := sub_title submission +:+ PyStr.nl +:+ sub_selftext submission) in Hout.
  pose proof (validate_comment_step env text ctx s1) as [(evs & Ht2 & Hq2 & _) _].
  destruct (Validator.validate_comment env text ctx s1) as [[[ok reason] | e1] s2] eqn:Hval;
    cbn [fst snd] in *.
  - assert (Hquiet : new_events s s2 = (clock s, EvSubmission post_id) :: evs).
    { apply new_events_app. rewrite Ht2. subst s1. cbn [trace].
      rewrite <- app_assoc. reflexivity. }
    destruct ok; [destruct (sub_locked submission) |].
    + subst out. cbn [snd]. rewrite Hquiet. intros [Hin | Hin]; [discriminate |].
      exfalso. eapply not_validator_reply; eassumption.
    + destruct (submission_reply env (trace s2) post_id text) as [comment | e2];
        [| destruct (exn_kind e2)]; subst out; cbn [snd trace];
        (erewrite new_events_app
           by (cbn [trace]; rewrite Ht2; subst s1; cbn [trace];
               rewrite <- ?app_assoc; reflexivity));
        cbn [app In]; rewrite ?in_app_iff; cbn [In];
        intros Hin; repeat destruct Hin as [Hin | Hin];
        try discriminate; try contradiction;
        try (exfalso; eapply not_validator_reply; eassumption);
        injection Hin as <- <- <-; (split; [reflexivity |]); (split; [reflexivity |]);
        exists ctx, s1, s2, reason; (split; [exact Hval |]);
        (split; [eexists; reflexivity |]);
        eexists; (split; [cbn [trace]; rewrite <- ?app_assoc; reflexivity |]);
        left; reflexivity.
    + subst out. cbn [snd]. rewrite Hquiet. intros [Hin | Hin]; [discriminate |].
      exfalso. eapply not_validator_reply; eassumption.
  - assert (Hquiet : new_events s s2 = (clock s, EvSubmission post_id) :: evs).
    { apply new_events_app. rewrite Ht2. subst s1. cbn [trace].
      rewrite <- app_assoc. reflexivity. }
    destruct (exn_kind e1); subst out; cbn [snd]; rewrite Hquiet;
      (intros [Hin | Hin]; [discriminate |]);
      exfalso; eapply not_validator_reply; eassumption.
Qed.

Lemma not_generator_reply (t : Z) (p x : string) (c : Z) (evs : History) :
  Forall (fun te : Z * Event => c <= fst te /\ asks_generator (snd te)) evs ->
  ~ In (t, EvReply p x) evs.
Proof.
  intros Hall Hin. rewrite Forall_forall in Hall.
  apply list_elem_of_In in Hin. destruct (Hall _ Hin) as [_ []].
Qed.

Lemma generate_and_post_comment_replies_validated (post_id : string) (subreddit : option string)
    (s : State) (t : Z) (p x : string) :
  In (t, EvReply p x)
     (new_events s (snd (Client.generate_and_post_comment env post_id subreddit s))) ->
  p = post_id
  /\ accepted_before env s
       (snd (Client.generate_and_post_comment env post_id subreddit s)) t post_id x.
Proof.
  remember (Client.generate_and_post_comment env post_id subreddit s) as out eqn:Hout.
  unfold Client.generate_and_post_comment, try_catch, bind, call, ret in Hout.
  cbv beta in Hout.
  set (s1 := mkState (trace s ++ [(clock s, EvSubmission post_id)]) _ _ _ _) in Hout.
  destruct (reddit_submission env (trace s) post_id) as [submission | e0].
  2: { subst out. cbn [snd]. erewrite new_events_app by reflexivity.
       intros [Hin | []]; discriminate. }
  set (s2 := mkState (trace s1 ++ [(clock s1, EvReplaceMore post_id)]) _ _ _ _) in Hout.
  destruct (submission_comments env _ post_id) as [comments | e1].
  2: { subst out. cbn [snd].
       erewrite new_events_app
         by (subst s2 s1; cbn [trace]; rewrite <- app_assoc; reflexivity).
       intros [Hin | [Hin | []]]; discriminate. }
  match type of Hout with
  | context [Validator.generate_comment env ?a ?b ?c ?d s2] =>
      pose proof (generate_comment_step env a b c d s2) as [(evs & Ht3 & Hq3 & _) _];
      destruct (Validator.generate_comment env a b c d s2) as [[generated | e2] s3]
  end; cbn [fst snd] in *.
  2: { subst out. cbn [snd].
       erewrite new_events_app
         by (rewrite Ht3; subst s2 s1; cbn [trace]; rewrite <- ?app_assoc; reflexivity).
       cbn [app In]. intros [Hin | [Hin | Hin]]; try discriminate.
       exfalso. eapply not_generator_reply; eassumption. }
  destruct (PyStr.startswith generated "Error").
  { subst out. cbn [snd].
    erewrite new_events_app
      by (rewrite Ht3; subst s2 s1; cbn [trace]; rewrite <- ?app_assoc; reflexivity).
    cbn [app In]. intros [Hin | [Hin | Hin]]; try discriminate.
    exfalso. eapply not_generator_reply; eassumption. }
  pose proof (post_comment_step env post_id generated true s3) as [(evs4 & Ht4 & _ & _) _].
  pose proof (post_comment_replies_validated post_id generated s3 t p x) as Hvalidated.
  destruct (Client.post_comment env post_id generated true s3) as [[r | e3] s4];
    cbn [fst snd] in *; subst out; cbn [snd];
    (erewrite new_events_app
       by (rewrite Ht4, Ht3; subst s2 s1; cbn [trace]; rewrite <- ?app_assoc; reflexivity));
    (erewrite new_events_app in Hvalidated by exact Ht4);
    cbn [app In]; rewrite in_app_iff;
    (intros [Hin | [Hin | [Hin | Hin]]]; try discriminate;
     [exfalso; eapply not_generator_reply; eassumption |]);
    destruct (Hvalidated Hin) as (-> & -> & ctx & sa & sb & reason & Hval & [before Hb] & after & Ha & Hina);
    (split; [reflexivity |]);
    exists ctx, sa, sb, reason; (split; [exact Hval |]);
    (split; [| exists after; split; assumption]);
    eexists; rewrite Hb, Ht3; subst s2 s1; cbn [trace]; rewrite <- ?app_assoc; reflexivity.
Qed.

End ValidatedReplies.

(** C1. With validation enabled, a reply that [post_comment] sends to the
    gateway carries the text it was given and comes after a call of
    [validate_comment] on that text that accepted it; every reply that
    [generate_and_post_comment] sends comes after such a call on the text
    it carries; so a reply without an accepting verdict is only sent by a
    [post_comment] called with [validate=False]. *)
Theorem reply_only_after_accepting_verdict
    (env : Env) (post_id text : string) (subreddit : option string) (s : State)
    (t : Z) (p x : string) :
  (In (t, EvReply p x)
      (new_events s (snd (Client.post_comment env post_id text true s))) ->
   p = post_id /\ x = text
   /\ accepted_before env s (snd (Client.post_comment env post_id text true s))
        t post_id text)
  /\ (In (t, EvReply p x)
         (new_events s
            (snd (Client.generate_and_post_comment env post_id subreddit s))) ->
      p = post_id
      /\ accepted_before env s
           (snd (Client.generate_and_post_comment env post_id subreddit s))
           t post_id x)
  /\ (forall validate : bool,
         In (t, EvReply p x)
            (new_events s (snd (Client.post_comment env post_id text validate s))) ->
         ~ accepted_before env s
             (snd (Client.post_comment env post_id text validate s)) t post_id text ->
         validate = false).
Proof.
  split; [apply post_comment_replies_validated | split].
  - apply generate_and_post_comment_replies_validated.
  - intros [|] Hin Hno; [| reflexivity].
    destruct (post_comment_replies_validated env post_id text s t p x Hin) as (_ & _ & Hacc).
    contradiction.
Qed.

Lemma reply_only_after_accepting_verdict_witness :
  accepted_before Sample.agreeable Sample.initial
    (snd (Client.post_comment Sample.agreeable "p1" "A perfectly fine comment."
            true Sample.initial))
    0 "p1" "A perfectly fine comment.".
Proof.
  destruct (reply_only_after_accepting_verdict Sample.agreeable
              "p1" "A perfectly fine comment." None Sample.initial
              0 "p1" "A perfectly fine comment.") as [Hpost _].
  apply Hpost. vm_compute. right. right. left. reflexivity.
Defined.

(** A rejected comment is not sent; with [validate=False] the validator
    is not asked and the same comment is sent. *)
Example rejected_comment_not_sent :
  map snd
    (trace (snd (Client.post_comment
                   (Sample.env_with (Ok (Some "INVALID: spam")) (Ok None)
                      (Ok Sample.a_comment) (Ok []))
                   "p1" "Buy cheap watches now!" true Sample.initial)))
  = [EvSubmission "p1";
     EvValidationAgent
       (Validator.validation_prompt "Buy cheap watches now!"
          ("Typing tips" +:+ PyStr.nl +:+ "How do you annotate decorators?"))].
Proof. vm_compute. reflexivity. Qed.

Example unvalidated_comment_sent :
  map snd
    (trace (snd (Client.post_comment
                   (Sample.env_with (Ok (Some "INVALID: spam")) (Ok None)
                      (Ok Sample.a_comment) (Ok []))
                   "p1" "Buy cheap watches now!" false Sample.initial)))
  = [EvSubmission "p1"; EvReply "p1" "Buy cheap watches now!"; EvSleep 2].
Proof. vm_compute. reflexivity. Qed.

(** ** The posts a listing returns *)

Lemma validate_post_data_accepts (post : gmap string pyval) (verdict : bool * string) :
  Validator.validate_post_data post = Ok verdict ->
  fst verdict = true ->
  valid_post post.
Proof.
  unfold valid_post, Validator.validate_post_data.
  destruct (Validator.first_missing _ post); [intros [= <-]; discriminate |].
  destruct (dict_get post "title") as [title | e]; [| discriminate].
  cbn [rbind]. destruct (py_strip title) as [stripped | e]; [| discriminate].
  cbn [rbind]. destruct (PyStr.is_empty stripped); intros [= <-]; [discriminate |].
  reflexivity.
Qed.

(** An accepted dictionary has an [id] and a title that is a string and
    not blank. *)
Lemma valid_post_fields (post : gmap string pyval) :
  valid_post post <->
  is_Some (post !! "id")
  /\ exists title, post !! "title" = Some (VStr title)
                   /\ PyStr.is_empty (PyStr.strip title) = false.
Proof.
  unfold valid_post, Validator.validate_post_data, dict_get.
  cbn [Validator.first_missing]. split.
  - destruct (post !! "title") as [title |] eqn:Ht; [| discriminate].
    destruct (post !! "id") as [id |]; [| discriminate].
    cbn [rbind]. destruct title as [| | | title |]; try discriminate.
    cbn [py_strip rbind].
    destruct (PyStr.is_empty (PyStr.strip title)) eqn:Hblank; [discriminate |].
    intros _. split; [eexists; reflexivity |]. exists title. split; [reflexivity | exact Hblank].
  - intros [[id Hid] (title & Ht & Hblank)]. rewrite Ht, Hid.
    cbn [rbind py_strip]. rewrite Hblank. reflexivity.
Qed.

Lemma append_if_valid_keeps (post_info : gmap string pyval)
    (post_data kept : list (gmap string pyval)) :
  Client.append_if_valid post_info post_data = Ok kept ->
  Forall valid_post post_data -> Forall valid_post kept.
Proof.
  unfold Client.append_if_valid.
  destruct (Validator.validate_post_data post_info) as [verdict | e] eqn:Hv;
    [| discriminate].
  cbn [rbind]. destruct (fst verdict) eqn:Hok; intros [= <-] Hall; [| exact Hall].
  apply Forall_app. split; [exact Hall |].
  constructor; [| constructor]. eapply validate_post_data_accepts; eassumption.
Qed.

Lemma listing_step_keeps (post_data kept : list (gmap string pyval)) (post : RawPost) :
  Client.listing_step post_data post = Ok kept ->
  Forall valid_post post_data -> Forall valid_post kept.
Proof.
  unfold Client.listing_step, Client.rtry.
  destruct (Client.listing_post_info post) as [post_info | e]; cbn [rbind].
  - destruct (Client.append_if_valid post_info post_data) as [l | e] eqn:Happ.
    + intros [= <-]. eapply append_if_valid_keeps; eassumption.
    + destruct (post "id"); cbn [rbind]; [intros [= <-]; auto | discriminate].
  - destruct (post "id"); cbn [rbind]; [intros [= <-]; auto | discriminate].
Qed.

Lemma search_step_keeps (post_data kept : list (gmap string pyval)) (post : RawPost) :
  Client.search_step post_data post = Ok kept ->
  Forall valid_post post_data -> Forall valid_post kept.
Proof.
  unfold Client.search_step, Client.rtry.
  destruct (Client.search_post_info post) as [post_info | e]; cbn [rbind].
  - destruct (Client.append_if_valid post_info post_data) as [l | e] eqn:Happ.
    + intros [= <-]. eapply append_if_valid_keeps; eassumption.
    + intros [= <-]; auto.
  - intros [= <-]; auto.
Qed.

Lemma collect_keeps
    (step : list (gmap string pyval) -> RawPost -> Result (list (gmap string pyval))) :
  (forall post_data kept post,
      step post_data post = Ok kept ->
      Forall valid_post post_data -> Forall valid_post kept) ->
  forall posts post_data kept,
    Client.collect step post_data posts = Ok kept ->
    Forall valid_post post_data -> Forall valid_post kept.
Proof.
  intros Hstep posts. induction posts as [| post rest IH]; intros post_data kept.
  - intros [= <-]. auto.
  - cbn [Client.collect]. destruct (step post_data post) as [l | e] eqn:Hs;
      cbn [rbind]; [| discriminate].
    intros Hrest Hall. eapply IH; [exact Hrest |]. eapply Hstep; eassumption.
Qed.

(** The loop of [search_posts] drops an item that cannot be processed and
    goes on: it never fails. *)
Lemma search_step_total (post_data : list (gmap string pyval)) (post : RawPost) :
  exists kept, Client.search_step post_data post = Ok kept.
Proof.
  unfold Client.search_step, Client.rtry.
  destruct (rbind _ _); eexists; reflexivity.
Qed.

Lemma collect_search_total (posts : list RawPost) :
  forall post_data, exists kept, Client.collect Client.search_step post_data posts = Ok kept.
Proof.
  induction posts as [| post rest IH]; intros post_data; cbn [Client.collect].
  - eexists; reflexivity.
  - destruct (search_step_total post_data post) as [kept ->]. cbn [rbind]. apply IH.
Qed.

(** The loop of [get_subreddit_posts] does the same as long as the [id]
    of the item can be read. *)
Lemma listing_step_total (post_data : list (gmap string pyval)) (post : RawPost) (id : pyval) :
  post "id" = Ok id ->
  exists kept, Client.listing_step post_data post = Ok kept.
Proof.
  intros Hid. unfold Client.listing_step, Client.rtry.
  destruct (rbind _ _); [eexists; reflexivity |].
  rewrite Hid. eexists; reflexivity.
Qed.

Lemma bind_ok_inv {A B} (m : M A) (k : A -> M B) (s s' : State) (b : B) :
  bind m k s = (Ok b, s') ->
  exists a s1, m s = (Ok a, s1) /\ k a s1 = (Ok b, s').
Proof.
  unfold bind. destruct (m s) as [[a | e] s1]; [| discriminate].
  intros H. exists a, s1. split; [reflexivity | exact H].
Qed.

(** A handler that only re-raises lets through nothing but the body's
    own successes. *)
Lemma try_catch_ok_inv {A} (body : M A) (handler : Exn -> M A) (s s' : State) (a : A) :
  (forall e s0, exists e', handler e s0 = (Raise e', s0)) ->
  try_catch body handler s = (Ok a, s') ->
  body s = (Ok a, s').
Proof.
  intros Hh. unfold try_catch. destruct (body s) as [[a0 | e] s1]; [auto |].
  destruct (Hh e s1) as [e' ->]. discriminate.
Qed.

Section Listings.

Variable env : Env.

Lemma get_subreddit_posts_valid (name sort_by : string) (limit : Z) (time_filter : string)
    (s s' : State) (posts : list (gmap string pyval)) :
  Client.get_subreddit_posts env name sort_by limit time_filter s = (Ok posts, s') ->
  Forall valid_post posts.
Proof.
  unfold Client.get_subreddit_posts.
  destruct (Validator.validate_subreddit_name name) as [is_valid result].
  intros Hrun. apply try_catch_ok_inv in Hrun.
  2: { intros e s0. destruct (exn_kind e); eexists; reflexivity. }
  destruct (negb is_valid); [discriminate |].
  apply bind_ok_inv in Hrun. destruct Hrun as (raw & s1 & _ & Hcollect).
  unfold lift in Hcollect. injection Hcollect as Hcollect _.
  eapply collect_keeps; [apply listing_step_keeps | exact Hcollect | constructor].
Qed.

Lemma search_posts_valid (query : string) (subreddit : option string)
    (sort time_filter : string) (limit : Z)
    (s s' : State) (posts : list (gmap string pyval)) :
  Client.search_posts env query subreddit sort time_filter limit s = (Ok posts, s') ->
  Forall valid_post posts.
Proof.
  unfold Client.search_posts.
  intros Hrun. apply try_catch_ok_inv in Hrun.
  2: { intros e s0. eexists; reflexivity. }
  apply bind_ok_inv in Hrun. destruct Hrun as (raw & s1 & _ & Hcollect).
  unfold lift in Hcollect. injection Hcollect as Hcollect _.
  eapply collect_keeps; [apply search_step_keeps | exact Hcollect | constructor].
Qed.

End Listings.

Example listing_drops_item_without_score :
  ids_of (fst (Client.get_subreddit_posts
                 (Sample.env_with (Ok None) (Ok None) (Ok Sample.a_comment)
                    (Ok [Sample.raw_post "p1" "Typing tips" 5;
                         Sample.post_without_score;
                         Sample.raw_post "p2" "   " 5;
                         Sample.raw_post "p3" "Async pitfalls" 7]))
                 "r/python" "hot" 10 "day" Sample.initial))
  = Ok [Some (VStr "p1"); Some (VStr "p3")].
Proof. vm_compute. reflexivity. Qed.

(** C10. Every post that [get_subreddit_posts] or [search_posts] returns
    satisfies [validate_post_data], and [search_posts] drops an item whose
    attributes cannot be read; but when the attribute that cannot be read is
    the [id], the handler of [get_subreddit_posts] reads it again for its
    warning and the whole call fails. *)
Theorem listing_fails_when_id_unreadable :
  fst (Client.get_subreddit_posts
         (Sample.env_with (Ok None) (Ok None) (Ok Sample.a_comment)
            (Ok [Sample.raw_post "p1" "Typing tips" 5; Sample.post_without_id]))
         "r/python" "hot" 10 "day" Sample.initial)
  = Raise (mkExn AttributeError "'Submission' object has no attribute 'id'")
  /\ ids_of (fst (Client.search_posts
                    (Sample.env_with (Ok None) (Ok None) (Ok Sample.a_comment)
                       (Ok [Sample.raw_post "p1" "Typing tips" 5;
                            Sample.post_without_id]))
                    "typing" (Some "r/python") "relevance" "all" 25 Sample.initial))
     = Ok [Some (VStr "p1")].
Proof. split; vm_compute; reflexivity. Qed.

(** ** Pacing of the auto-comment loop *)

Section Pacing.

Variable env : Env.


(** An attempt always yields a result dictionary, starts by fetching the
    submission and issues nothing but the events of a comment attempt. *)
Lemma generate_and_post_comment_attempt (post_id : string) (subreddit : option string)
    (s : State) :
  exists r s' attempt,
    Client.generate_and_post_comment env post_id subreddit s = (Ok r, s')
    /\ trace s' = trace s ++ (clock s, EvSubmission post_id) :: attempt
    /\ Forall (fun te => clock s <= fst te /\ comment_event (snd te)) attempt
    /\ clock s <= clock s'
    /\ same_bot s s'.
Proof.
  destruct (generate_and_post_comment_returns env post_id subreddit s) as [r Hr].
  destruct (Client.generate_and_post_comment env post_id subreddit s) as [r0 s'] eqn:Hrun.
  cbn [fst] in Hr. subst r0. exists r, s'.
  assert (Hrest : client_step comment_event
                    (snd (call env (EvSubmission post_id)
                            (fun h => reddit_submission env h post_id) s)) s').
  { replace s' with (snd (Client.generate_and_post_comment env post_id subreddit s))
      by (rewrite Hrun; reflexivity).
    unfold Client.generate_and_post_comment, try_catch, bind at 1.
    destruct (call env (EvSubmission post_id) _ s) as [[submission | e] s1]; cbn [snd].
    - match goal with
      | |- client_step _ _ (snd (let (r, s') := ?m s1 in _)) =>
          assert (Hm : respects (client_step comment_event) m);
          [| specialize (Hm s1); destruct (m s1) as [[a | e] s2]; exact Hm]
      end.
      apply respects_bind; [apply call_step; exact I | intros comments].
      apply respects_bind; [| intros generated].
      { intros s0. eapply client_step_weaken; [| apply generate_comment_step].
        intros [] H; try contradiction; exact I. }
      destruct (PyStr.startswith generated "Error"); [apply respects_ret |].
      apply post_comment_step.
    - reflexivity. }
  destruct Hrest as [(evs & Ht & Hq & Hc) Hbot]. cbn [call snd trace clock] in *.
  exists evs. split; [reflexivity |]. split; [| split; [| split]].
  - rewrite Ht, <- app_assoc. reflexivity.
  - eapply Forall_impl; [exact Hq |]. intros te [Hle HQ]. split; [lia | exact HQ].
  - lia.
  - exact Hbot.
Qed.



Lemma eligible_posts_keeps (P : gmap string pyval -> Prop) (min_score : Z)
    (posts kept : list (gmap string pyval)) :
  Bot.eligible_posts min_score posts = Ok kept -> Forall P posts -> Forall P kept.
Proof.
  revert kept. induction posts as [| post rest IH]; intros kept.
  - intros [= <-] _. constructor.
  - cbn [Bot.eligible_posts].
    destruct (Bot.eligible min_score post) as [keep | e]; [| discriminate].
    cbn [rbind]. destruct (Bot.eligible_posts min_score rest) as [kept' | e];
      [| discriminate].
    cbn [rbind]. intros [= <-] Hall. inversion Hall as [| ? ? Hp Hrest]; subst.
    destruct keep; [constructor; [exact Hp |] |]; apply IH; auto.
Qed.

Lemma slice_upto_keeps {A} (P : A -> Prop) (n : Z) (xs : list A) :
  Forall P xs -> Forall P (Bot.slice_upto n xs).
Proof.
  intros Hall. unfold Bot.slice_upto. destruct (0 <=? n)%Z; apply Forall_take; exact Hall.
Qed.

End Pacing.



(** The sleep follows an attempt that the gateway refused and an attempt
    whose comment the validator rejected. *)
Example auto_comment_sleeps_after_refused_reply :
  outline
    (trace (snd (Bot.auto_comment_on_posts
                   (Sample.env_with (Ok (Some "VALID"))
                      (Ok (Some "Protocols help a lot with that."))
                      (Raise (mkExn Forbidden "received 403 HTTP response"))
                      (Ok [Sample.raw_post "p1" "Typing tips" 5;
                           Sample.raw_post "p2" "Async pitfalls" 7]))
                   "python" 2 "new" 0 Sample.initial)))
  = [EvListing "python" "new" None 4;
     EvSubmission "p1"; EvReplaceMore "p1"; EvSubmission "p1";
     EvReply "p1" "Protocols help a lot with that."; EvSleep 10;
     EvSubmission "p2"; EvReplaceMore "p2"; EvSubmission "p2";
     EvReply "p2" "Protocols help a lot with that."; EvSleep 10].
Proof. vm_compute. reflexivity. Qed.

Example auto_comment_sleeps_after_rejection :
  outline
    (trace (snd (Bot.auto_comment_on_posts
                   (Sample.env_with (Ok (Some "INVALID: off topic"))
                      (Ok (Some "Protocols help a lot with that."))
                      (Ok Sample.a_comment)
                      (Ok [Sample.raw_post "p1" "Typing tips" 5;
                           Sample.raw_post "p2" "Async pitfalls" 7]))
                   "python" 2 "new" 0 Sample.initial)))
  = [EvListing "python" "new" None 4;
     EvSubmission "p1"; EvReplaceMore "p1"; EvSubmission "p1"; EvSleep 10;
     EvSubmission "p2"; EvReplaceMore "p2"; EvSubmission "p2"; EvSleep 10].
Proof. vm_compute. reflexivity. Qed.

Example auto_comment_counts_outcomes :
  stats (snd (Bot.auto_comment_on_posts
                (Sample.env_with (Ok (Some "INVALID: off topic"))
                   (Ok (Some "Protocols help a lot with that."))
                   (Ok Sample.a_comment)
                   (Ok [Sample.raw_post "p1" "Typing tips" 5;
                        Sample.raw_post "p2" "Async pitfalls" 7]))
                "python" 2 "new" 0 Sample.initial))
  = mkStats 0 0 2 0.
Proof. vm_compute. reflexivity. Qed.

(** ** The monitoring loop *)

#[local] Instance monitor_rel_preorder (end_time : Z) : PreOrder (monitor_rel end_time).
Proof.
  split.
  - intros s. split; [| split].
    + exists []. rewrite app_nil_r. split; [reflexivity | constructor].
    + lia.
    + exists []. rewrite app_nil_r. reflexivity.
  - intros s1 s2 s3 ([evs1 [Ht1 Hq1]] & Hc1 & [m1 Hm1]) ([evs2 [Ht2 Hq2]] & Hc2 & [m2 Hm2]).
    split; [| split].
    + exists (evs1 ++ evs2). split; [rewrite Ht2, Ht1, app_assoc; reflexivity |].
      apply Forall_app. split; assumption.
    + lia.
    + exists (m1 ++ m2). rewrite Hm2, Hm1, app_assoc. reflexivity.
Qed.

(** A step of the client that polls nothing is a step of the monitor. *)
Lemma client_step_monitor_rel (end_time : Z) (s s' : State) :
  client_step comment_event s s' -> monitor_rel end_time s s'.
Proof.
  intros [(evs & Ht & Hq & Hc) (_ & _ & Hm)]. split; [| split].
  - exists evs. split; [exact Ht |].
    eapply Forall_impl; [exact Hq |]. intros [t ev] [_ HQ] Hl. cbn in *.
    destruct ev; contradiction.
  - exact Hc.
  - exists []. rewrite app_nil_r. exact Hm.
Qed.

Lemma set_last_comment_result_app (r : PostResult) (ms : list Match) (m : Match) :
  Bot.set_last_comment_result r (ms ++ [m])
  = ms ++ [mkMatch (m_post_id m) (m_title m) (m_keyword m) (m_matched_at m)
             (m_permalink m) (Some r)].
Proof.
  induction ms as [| m0 rest IH]; [reflexivity |].
  cbn [app Bot.set_last_comment_result]. rewrite IH.
  destruct (rest ++ [m]) eqn:Hnil; [destruct rest; discriminate | reflexivity].
Qed.

Section Monitoring.

Variable env : Env.










End Monitoring.


(** An hour of monitoring polls every five minutes; the same post is
    matched again in every cycle. *)
Example monitor_one_hour :
  match Bot.monitor_subreddit Sample.agreeable 60 "python" ["tips"; "rust"] "log" 1
          Sample.initial with
  | Some (Ok found, s') =>
      (Bot.mon_total_matches found, clock s',
       length (List.filter (fun ev => match ev with EvListing _ _ _ _ => true | _ => false end)
                 (map snd (trace s'))))
  | _ => (-1, -1, O)
  end
  = (12, 3600, 12%nat).
Proof. vm_compute. reflexivity. Qed.

(** A failing poll is retried after a minute. *)
Example monitor_retries_after_failure :
  match Bot.monitor_subreddit
          (Sample.env_with (Ok None) (Ok None) (Ok Sample.a_comment)
             (Raise (mkExn OtherException "503")))
          60 "python" ["typing"] "comment" 1 Sample.initial with
  | Some (Ok found, s') =>
      (Bot.mon_total_matches found, clock s',
       length (List.filter (fun ev => match ev with EvSleep 60 => true | _ => false end)
                 (map snd (trace s'))))
  | _ => (-1, -1, O)
  end
  = (0, 3600, 60%nat).
Proof. vm_compute. reflexivity. Qed.

Example monitor_comments_on_match :
  (let s' := snd (Bot.monitor_cycle Sample.agreeable "python" ["TIPS"] "comment"
                    Sample.initial) in
   (map (fun m => (m_post_id m, m_keyword m,
                   match m_comment_result m with
                   | Some r => Some (success r)
                   | None => None
                   end))
        (matches s'),
    outline (trace s')))
  = ([(VStr "p1", "TIPS", Some true)],
     [EvListing "python" "new" None 10;
      EvSubmission "p1"; EvReplaceMore "p1"; EvSubmission "p1";
      EvReply "p1" "Protocols help a lot with that."; EvSleep 2; EvSleep 300]).
Proof. vm_compute. reflexivity. Qed.

(** ** Further checks of the name pattern *)

(** [$] also matches before a final newline, so does the pattern. *)
Example subreddit_trailing_newline :
  Validator.validate_subreddit_name ("python" +:+ PyStr.nl)
  = (true, "python" +:+ PyStr.nl).
Proof. reflexivity. Qed.

Example subreddit_bounds :
  Validator.re_match_name "abc" = true
  /\ Validator.re_match_name "ab" = false
  /\ Validator.re_match_name "abcdefghijklmnopqrstu" = true
  /\ Validator.re_match_name "abcdefghijklmnopqrstuv" = false
  /\ Validator.re_match_name "ab-cd" = false.
Proof. repeat split; reflexivity. Qed.

(* ===================================================================== *)
(** * Further properties of the code *)
(* ===================================================================== *)

(** ** Subreddit names *)

Lemma replace_from_absent (old new s : string) :
  PyStr.contains old s = false -> PyStr.replace_from old new O s = s.
Proof.
  induction s as [| c r IH]; [reflexivity |].
  cbn [PyStr.contains PyStr.replace_from]. intros H.
  apply orb_false_iff in H. destruct H as [Hp Hr].
  rewrite Hp, (IH Hr). reflexivity.
Qed.

Lemma slash_free_no_prefix (a : ascii) (s : string) :
  slash_free s = true -> PyStr.contains (String a "/") s = false.
Proof.
  unfold slash_free. induction s as [| c r IH]; [reflexivity |].
  cbn [all_chars PyStr.contains]. intros H.
  apply andb_true_iff in H. destruct H as [Hc Hr].
  rewrite (IH Hr), orb_false_r. rewrite prefix_cons.
  destruct (Ascii.ascii_dec a c); [| reflexivity].
  destruct r as [| c' r']; [reflexivity |]. rewrite prefix_cons.
  destruct (Ascii.ascii_dec "/" c') as [<- |]; [| reflexivity].
  cbn [all_chars] in Hr. discriminate.
Qed.

Lemma replace_slash_free (a : ascii) (s : string) :
  slash_free s = true -> PyStr.replace s (String a "/") EmptyString = s.
Proof.
  intros H. apply replace_from_absent, slash_free_no_prefix, H.
Qed.

Lemma word_char_not_slash (c : ascii) :
  Validator.is_word_char c = true -> negb (is_slash c) = true.
Proof.
  destruct c as [[] [] [] [] [] [] [] []]; cbn; intros H; try reflexivity; discriminate.
Qed.

Lemma length_append (a b : string) :
  String.length (a +:+ b) = (String.length a + String.length b)%nat.
Proof.
  induction a as [| c r IH]; simpl; [reflexivity |].
  rewrite IH. reflexivity.
Qed.

(** What the pattern accepts: between 3 and 21 word characters, then the
    end of the string or one final newline. *)
Lemma match_name_from_shape (s : string) :
  forall taken,
    Validator.match_name_from taken s = true ->
    exists word,
      (s = word \/ s = word +:+ PyStr.nl)
      /\ all_chars Validator.is_word_char word = true
      /\ (3 <= taken + String.length word <= 21)%nat.
Proof.
  induction s as [| c r IH]; intros taken; cbn [Validator.match_name_from];
    rewrite orb_true_iff, !andb_true_iff.
  - intros [[[Hlo Hhi] _] | H]; [| discriminate].
    apply Nat.leb_le in Hlo, Hhi. exists EmptyString.
    split; [left; reflexivity |]. split; [reflexivity | cbn; lia].
  - intros [[[Hlo Hhi] Hend] | [[Hc Hlt] Hrest]].
    + apply Nat.leb_le in Hlo, Hhi. exists EmptyString.
      unfold Validator.at_dollar in Hend. cbn [PyStr.is_empty orb] in Hend.
      apply String.eqb_eq in Hend.
      split; [right; exact Hend |]. split; [reflexivity | cbn; lia].
    + destruct (IH _ Hrest) as (word & Hshape & Hword & Hlen).
      exists (String c word). split; [| split].
      * destruct Hshape as [-> | ->]; [left | right]; reflexivity.
      * cbn [all_chars]. rewrite Hc, Hword. reflexivity.
      * cbn [String.length]. lia.
Qed.

Lemma all_chars_append (p : ascii -> bool) (a b : string) :
  all_chars p (a +:+ b) = all_chars p a && all_chars p b.
Proof.
  induction a as [| c r IH]; simpl; [reflexivity |].
  rewrite IH, andb_assoc. reflexivity.
Qed.

Lemma all_chars_impl (p q : ascii -> bool) (s : string) :
  (forall c, p c = true -> q c = true) -> all_chars p s = true -> all_chars q s = true.
Proof.
  intros Himp. induction s as [| c r IH]; [reflexivity |].
  cbn [all_chars]. rewrite !andb_true_iff. intros [Hc Hr]. auto.
Qed.

Lemma matched_name_slash_free (s : string) :
  Validator.re_match_name s = true -> slash_free s = true.
Proof.
  intros H. destruct (match_name_from_shape s O H) as (word & Hshape & Hword & _).
  assert (Hw : slash_free word = true).
  { eapply all_chars_impl; [apply word_char_not_slash | exact Hword]. }
  destruct Hshape as [-> | ->]; [exact Hw |].
  unfold slash_free in *. rewrite all_chars_append, Hw. reflexivity.
Qed.

Lemma validate_subreddit_name_accepts (name normal : string) :
  Validator.validate_subreddit_name name = (true, normal) ->
  Validator.re_match_name normal = true.
Proof.
  unfold Validator.validate_subreddit_name.
  destruct (PyStr.is_empty name); [discriminate |].
  destruct (Validator.re_match_name _) eqn:Hm; cbn [negb]; [| discriminate].
  intros [= <-]. exact Hm.
Qed.

(** X1. A name that [validate_subreddit_name] accepts is returned in a
    form the function maps to itself: it contains no slash, and validating
    it again accepts it unchanged. *)
Theorem validate_subreddit_name_idempotent (name normal : string) :
  Validator.validate_subreddit_name name = (true, normal) ->
  slash_free normal = true
  /\ Validator.validate_subreddit_name normal = (true, normal).
Proof.
  intros Hacc. apply validate_subreddit_name_accepts in Hacc.
  pose proof (matched_name_slash_free normal Hacc) as Hfree.
  split; [exact Hfree |].
  unfold Validator.validate_subreddit_name.
  destruct normal as [| c r]; [discriminate |].
  cbn [PyStr.is_empty].
  rewrite (replace_slash_free "r" _ Hfree), (replace_slash_free "R" _ Hfree), Hacc.
  reflexivity.
Qed.

Lemma validate_subreddit_name_idempotent_witness :
  slash_free "Python" = true
  /\ Validator.validate_subreddit_name "Python" = (true, "Python").
Proof.
  apply (validate_subreddit_name_idempotent "r/Python" "Python"). reflexivity.
Defined.

(** X2. An accepted name consists of 3 to 21 letters, digits or
    underscores, possibly followed by one newline (which [$] lets
    through). *)
Theorem validate_subreddit_name_shape (name normal : string) :
  Validator.validate_subreddit_name name = (true, normal) ->
  exists word,
    (normal = word \/ normal = word +:+ PyStr.nl)
    /\ all_chars Validator.is_word_char word = true
    /\ (3 <= String.length word <= 21)%nat.
Proof.
  intros Hacc. apply validate_subreddit_name_accepts in Hacc.
  destruct (match_name_from_shape normal O Hacc) as (word & Hshape & Hword & Hlen).
  exists word. split; [exact Hshape |]. split; [exact Hword | lia].
Qed.

Lemma validate_subreddit_name_shape_witness :
  exists word,
    ("Python" = word \/ "Python" = word +:+ PyStr.nl)
    /\ all_chars Validator.is_word_char word = true
    /\ (3 <= String.length word <= 21)%nat.
Proof.
  apply (validate_subreddit_name_shape "r/Python" "Python"). reflexivity.
Defined.

Lemma append_empty_l (s : string) : EmptyString +:+ s = s.
Proof. reflexivity. Qed.

Lemma prefix_empty (s : string) : String.prefix EmptyString s = true.
Proof. destruct s; reflexivity. Qed.

Lemma replace_leading_prefix (a : ascii) (name : string) :
  slash_free name = true ->
  PyStr.replace (String a (String "/" name)) (String a "/") EmptyString = name.
Proof.
  intros Hfree. pose proof (replace_slash_free a name Hfree) as Hrest.
  unfold PyStr.replace in *. cbn [PyStr.replace_from].
  rewrite prefix_cons. destruct (Ascii.ascii_dec a a); [| congruence].
  rewrite prefix_cons. destruct (Ascii.ascii_dec "/" "/"); [| congruence].
  rewrite prefix_empty, append_empty_l. cbn [String.length Nat.pred].
  exact Hrest.
Qed.

(** X3. For a name without a slash, the prefixed forms [r/name] and
    [R/name] are decided by the pattern on the name itself, which is
    returned unchanged when it matches. *)
Theorem validate_subreddit_name_prefixed (name : string) :
  slash_free name = true ->
  Validator.validate_subreddit_name ("r/" +:+ name)
  = (if Validator.re_match_name name then (true, name)
     else (false, "Invalid subreddit name format"))
  /\ Validator.validate_subreddit_name ("R/" +:+ name)
     = (if Validator.re_match_name name then (true, name)
        else (false, "Invalid subreddit name format")).
Proof.
  intros Hfree.
  change ("r/" +:+ name) with (String "r" (String "/" name)).
  change ("R/" +:+ name) with (String "R" (String "/" name)).
  unfold Validator.validate_subreddit_name. cbn [PyStr.is_empty].
  split.
  - rewrite (replace_leading_prefix "r" name Hfree), (replace_slash_free "R" name Hfree).
    destruct (Validator.re_match_name name); reflexivity.
  - assert (Hkeep : PyStr.replace (String "R" (String "/" name)) "r/" EmptyString
                    = String "R" (String "/" name)).
    { apply replace_from_absent. cbn [PyStr.contains].
      rewrite !prefix_cons.
      destruct (Ascii.ascii_dec "r" "R"); [discriminate |].
      destruct (Ascii.ascii_dec "r" "/"); [discriminate |].
      cbn [orb]. apply slash_free_no_prefix, Hfree. }
    rewrite Hkeep, (replace_leading_prefix "R" name Hfree).
    destruct (Validator.re_match_name name); reflexivity.
Qed.

Lemma validate_subreddit_name_prefixed_witness :
  Validator.validate_subreddit_name ("r/" +:+ "learn_python3")
  = (true, "learn_python3")
  /\ Validator.validate_subreddit_name ("R/" +:+ "learn_python3")
     = (true, "learn_python3").
Proof.
  apply (validate_subreddit_name_prefixed "learn_python3"). reflexivity.
Defined.

(** ** [validate_post_data] *)

(** X4. The verdict of [validate_post_data] depends only on the title and
    on whether the dictionary has an [id] key: the value stored under [id]
    (it may be empty or [None]) and every other entry are not looked at. *)
Theorem validate_post_data_reads_title_only (post post' : gmap string pyval) :
  post !! "title" = post' !! "title" ->
  (is_Some (post !! "id") <-> is_Some (post' !! "id")) ->
  Validator.validate_post_data post = Validator.validate_post_data post'.
Proof.
  intros Htitle Hid.
  unfold Validator.validate_post_data, dict_get. cbn [Validator.first_missing].
  rewrite <- Htitle. destruct (post !! "title") as [title |]; [| reflexivity].
  destruct (post !! "id") as [id |] eqn:Ha, (post' !! "id") as [id' |] eqn:Hb;
    try reflexivity.
  - destruct (proj1 Hid ltac:(eexists; reflexivity)) as [? [=]].
  - destruct (proj2 Hid ltac:(eexists; reflexivity)) as [? [=]].
Qed.

Lemma validate_post_data_reads_title_only_witness :
  Validator.validate_post_data
    (list_to_map [("id", VStr EmptyString); ("title", VStr "Typing tips")])
  = Validator.validate_post_data
      (list_to_map [("id", VNone); ("title", VStr "Typing tips"); ("score", VInt 3)]).
Proof.
  apply validate_post_data_reads_title_only.
  - reflexivity.
  - split; intros _; eexists; reflexivity.
Defined.

Example validate_post_data_edge_cases :
  Validator.validate_post_data (list_to_map [("score", VInt 1)])
  = Ok (false, "Missing required field: title")
  /\ Validator.validate_post_data (list_to_map [("title", VStr "T")])
     = Ok (false, "Missing required field: id")
  /\ Validator.validate_post_data (list_to_map [("id", VStr "p"); ("title", VStr "  ")])
     = Ok (false, "Post title cannot be empty")
  /\ Validator.validate_post_data (list_to_map [("id", VStr "p"); ("title", VNone)])
     = Raise (mkExn AttributeError "'NoneType' object has no attribute 'strip'").
Proof. repeat split; vm_compute; reflexivity. Qed.

(** ** The prompt sent to the validation agent *)

Lemma take_length (n : nat) (s : string) : (String.length (PyStr.take n s) <= n)%nat.
Proof.
  revert s. induction n as [| n IH]; intros [| c r]; cbn [PyStr.take String.length];
    try lia.
  specialize (IH r). lia.
Qed.

Lemma validation_prompt_length (text ctx : string) :
  PyStr.len (Validator.validation_prompt text ctx) <= 554 + PyStr.len text.
Proof.
  unfold Validator.validation_prompt, PyStr.len.
  rewrite !length_append.
  assert (Hctx : (String.length (if PyStr.is_empty ctx then "No context"
                                 else PyStr.take 500 ctx) <= 500)%nat).
  { destruct (PyStr.is_empty ctx); [cbn; lia | apply take_length]. }
  change (String.length "Validate this Reddit comment:") with 29%nat.
  change (String.length PyStr.nl) with 1%nat.
  change (String.length "POST CONTEXT: ") with 14%nat.
  change (String.length "COMMENT: ") with 9%nat.
  lia.
Qed.

(** X5. [validate_comment] asks the validation agent at most once, only
    for a comment within the length limits, and the prompt it sends embeds
    the comment and at most 500 characters of context: it is never longer
    than 10554 characters. *)
Theorem validate_comment_prompt_bounded
    (env : Env) (text ctx : string) (s : State) (t : Z) (prompt : string) :
  In (t, EvValidationAgent prompt)
     (new_events s (snd (Validator.validate_comment env text ctx s))) ->
  new_events s (snd (Validator.validate_comment env text ctx s))
  = [(clock s, EvValidationAgent (Validator.validation_prompt text ctx))]
  /\ prompt = Validator.validation_prompt text ctx
  /\ Config.MIN_COMMENT_LENGTH <= PyStr.len (PyStr.strip text)
  /\ PyStr.len text <= Config.MAX_COMMENT_LENGTH
  /\ PyStr.len prompt <= 10554.
Proof.
  destruct (Z.lt_ge_cases (PyStr.len (PyStr.strip text)) Config.MIN_COMMENT_LENGTH)
    as [Hshort | Hmin].
  { rewrite (validate_comment_too_short env text ctx s Hshort). cbn [snd].
    rewrite new_events_same. intros []. }
  destruct (Z.le_gt_cases (PyStr.len text) Config.MAX_COMMENT_LENGTH) as [Hmax | Hlong].
  2: { rewrite (validate_comment_too_long env text ctx s Hmin ltac:(lia)). cbn [snd].
       rewrite new_events_same. intros []. }
  pose proof (validate_comment_asks env text ctx s Hmin Hmax) as Hrun.
  cbv zeta in Hrun. rewrite Hrun. cbn [snd call].
  erewrite new_events_app by reflexivity.
  intros [[= _ <-] | []].
  split; [reflexivity |]. split; [reflexivity |]. split; [exact Hmin |].
  split; [exact Hmax |].
  pose proof (validation_prompt_length text ctx). unfold Config.MAX_COMMENT_LENGTH in Hmax.
  lia.
Qed.

Lemma validate_comment_prompt_bounded_witness :
  PyStr.len (Validator.validation_prompt "A perfectly fine comment." "ctx") <= 10554.
Proof.
  destruct (validate_comment_prompt_bounded Sample.agreeable
              "A perfectly fine comment." "ctx" Sample.initial 0
              (Validator.validation_prompt "A perfectly fine comment." "ctx"))
    as (_ & _ & _ & _ & Hlen).
  - vm_compute. left. reflexivity.
  - exact Hlen.
Defined.

(** ** The outcomes of [post_comment] *)

Lemma validate_comment_never_raises_aux (env : Env) (text ctx : string) (s : State) :
  exists verdict, fst (Validator.validate_comment env text ctx s) = Ok verdict.
Proof.
  unfold Validator.validate_comment, try_catch.
  match goal with |- context [let (r, s') := ?b s in _] => destruct (b s) as [[v | e] s1] end;
    eexists; reflexivity.
Qed.

Section CommentOutcomes.

Variable env : Env.

Lemma not_reply_validator (c : Z) (evs : History) :
  Forall (fun te : Z * Event => c <= fst te /\ asks_validator (snd te)) evs ->
  Forall (fun te : Z * Event => ~ is_reply (snd te)) evs.
Proof.
  intros H. eapply Forall_impl; [exact H |].
  intros [t ev] [_ HQ]. cbn in *. destruct ev; try contradiction; auto.
Qed.

(** The three ways [post_comment] can end. *)
Lemma post_comment_cases (post_id text : string) (validate : bool) (s : State) :
  let out := Client.post_comment env post_id text validate s in
  (exists msg,
      fst out = Ok (Client.failure msg)
      /\ Forall (fun te => ~ is_reply (snd te)) (new_events s (snd out)))
  \/ (exists submission e before,
         reddit_submission env (trace s) post_id = Ok submission
         /\ sub_locked submission = false
         /\ (exists msg, fst out = Ok (Client.failure msg))
         /\ Forall (fun te => ~ is_reply (snd te)) before
         /\ submission_reply env (trace s ++ before) post_id text = Raise e
         /\ exists t, new_events s (snd out) = before ++ [(t, EvReply post_id text)])
  \/ (exists submission comment before,
         reddit_submission env (trace s) post_id = Ok submission
         /\ sub_locked submission = false
         /\ Forall (fun te => ~ is_reply (snd te)) before
         /\ submission_reply env (trace s ++ before) post_id text = Ok comment
         /\ fst out
            = Ok (mkPostResult true None (Some (c_id comment))
                    (Some ("https://reddit.com" +:+ c_permalink comment)) None None)
         /\ exists t t',
             new_events s (snd out)
             = before ++ [(t, EvReply post_id text);
                          (t', EvSleep Config.RATE_LIMIT_DELAY)]).
Proof.
  intros out. subst out.
  remember (Client.post_comment env post_id text validate s) as out eqn:Hout.
  unfold Client.post_comment, try_catch, bind, call, sleep, ret in Hout.
  cbv beta in Hout.
  set (s1 := mkState (trace s ++ [(clock s, EvSubmission post_id)]) _ _ _ _) in Hout.
  destruct (reddit_submission env (trace s) post_id) as [submission | e0] eqn:Hsub.
  2: { left. exists (match exn_kind e0 with
                     | Forbidden =>
                         "Forbidden: You may be banned from this subreddit or lack permissions"
                     | TooManyRequests =>
                         "Rate limited: Too many requests. Please wait before posting again"
                     | _ => exn_msg e0
                     end).
       destruct (exn_kind e0); subst out; cbn [fst snd];
         (split; [reflexivity |]);
         (erewrite new_events_app by (subst s1; reflexivity));
         (constructor; [cbn; tauto | constructor]). }
  set (ctx := sub_title submission +:+ PyStr.nl +:+ sub_selftext submission) in Hout.
  match type of Hout with
  | context [let (r, s') := ?m s1 in _] =>
      assert (Hstep : exists s2 rejected evs,
                 m s1 = (Ok rejected, s2)
                 /\ trace s2 = trace s1 ++ evs
                 /\ Forall (fun te : Z * Event => ~ is_reply (snd te)) evs)
  end.
  { destruct validate.
    - pose proof (validate_comment_step env text ctx s1) as [(evs & Ht & Hq & _) _].
      destruct (validate_comment_never_raises_aux env text ctx s1) as [verdict Hv].
      destruct (Validator.validate_comment env text ctx s1) as [r s2].
      cbn [fst snd] in *. subst r. eexists; eexists; exists evs.
      split; [reflexivity |]. split; [exact Ht |].
      eapply not_reply_validator; exact Hq.
    - exists s1, None, []. rewrite app_nil_r. repeat split. constructor. }
  destruct Hstep as (s2 & rejected & evs & Hval & Ht2 & Hq2).
  rewrite Hval in Hout.
  assert (Hbefore : trace s2 = trace s ++ (clock s, EvSubmission post_id) :: evs).
  { rewrite Ht2. subst s1. cbn [trace]. rewrite <- app_assoc. reflexivity. }
  assert (Hquiet : Forall (fun te : Z * Event => ~ is_reply (snd te))
                     ((clock s, EvSubmission post_id) :: evs)).
  { constructor; [cbn; tauto | exact Hq2]. }
  destruct rejected as [reason |].
  { left. eexists. subst out. cbn [fst snd]. split; [reflexivity |].
    rewrite (new_events_app _ _ _ Hbefore). exact Hquiet. }
  destruct (sub_locked submission) eqn:Hlocked.
  { left. eexists. subst out. cbn [fst snd]. split; [reflexivity |].
    rewrite (new_events_app _ _ _ Hbefore). exact Hquiet. }
  destruct (submission_reply env (trace s2) post_id text) as [comment | e2] eqn:Hreply.
  - right. right. exists submission, comment, ((clock s, EvSubmission post_id) :: evs).
    rewrite <- Hbefore. subst out. cbn [fst snd].
    split; [reflexivity |]. split; [exact Hlocked |]. split; [exact Hquiet |].
    split; [exact Hreply |]. split; [reflexivity |].
    eexists; eexists. apply new_events_app. cbn [trace]. rewrite Hbefore.
    rewrite <- !app_assoc. reflexivity.
  - right. left. exists submission, e2, ((clock s, EvSubmission post_id) :: evs).
    rewrite <- Hbefore.
    split; [reflexivity |]. split; [exact Hlocked |].
    split; [destruct (exn_kind e2); subst out; cbn [fst]; eexists; reflexivity |].
    split; [exact Hquiet |]. split; [exact Hreply |].
    exists (clock s2).
    destruct (exn_kind e2); subst out; cbn [snd]; apply new_events_app; cbn [trace];
      rewrite Hbefore, <- !app_assoc; reflexivity.
Qed.

End CommentOutcomes.

Lemma failure_well_formed (msg : string) : well_formed_result (Client.failure msg).
Proof. right. cbn. repeat split. eexists; reflexivity. Qed.

(** X6. [post_comment] always returns a well-formed result, and it
    reports success only when the gateway answered the reply with a
    comment: the reply carrying the given text is then in the trace,
    followed by the rate-limit sleep, and the result carries that comment's
    id. *)
Theorem post_comment_reports_gateway_outcome
    (env : Env) (post_id text : string) (validate : bool) (s : State) :
  exists r,
    fst (Client.post_comment env post_id text validate s) = Ok r
    /\ well_formed_result r
    /\ (success r = true ->
        exists comment before t t',
          new_events s (snd (Client.post_comment env post_id text validate s))
          = before ++ [(t, EvReply post_id text);
                       (t', EvSleep Config.RATE_LIMIT_DELAY)]
          /\ Forall (fun te => ~ is_reply (snd te)) before
          /\ submission_reply env (trace s ++ before) post_id text = Ok comment
          /\ comment_id r = Some (c_id comment)).
Proof.
  destruct (post_comment_cases env post_id text validate s)
    as [(msg & Hr & _) | [(sub & e & before & _ & _ & [msg Hr] & _)
                         | (sub & comment & before & _ & _ & Hq & Hreply & Hr & t & t' & Hnew)]].
  - exists (Client.failure msg). split; [exact Hr |].
    split; [apply failure_well_formed | discriminate].
  - exists (Client.failure msg). split; [exact Hr |].
    split; [apply failure_well_formed | discriminate].
  - eexists. split; [exact Hr |]. split.
    + left. cbn. repeat split; eexists; reflexivity.
    + intros _. exists comment, before, t, t'. repeat split; assumption.
Qed.

Lemma post_comment_reports_gateway_outcome_witness :
  exists r comment,
    fst (Client.post_comment Sample.agreeable "p1" "A perfectly fine comment." true
           Sample.initial) = Ok r
    /\ comment_id r = Some (c_id comment).
Proof.
  destruct (post_comment_reports_gateway_outcome Sample.agreeable "p1"
              "A perfectly fine comment." true Sample.initial) as (r & Hr & _ & Hsucc).
  assert (Hs : success r = true).
  { revert Hr. vm_compute. intros [= <-]. reflexivity. }
  destruct (Hsucc Hs) as (comment & _ & _ & _ & _ & _ & _ & Hid).
  exists r, comment. split; assumption.
Defined.

(** X7. A locked submission never receives a reply: whatever the
    validator says and whether or not validation is enabled, [post_comment]
    returns a failure and issues no reply call. *)
Theorem locked_post_gets_no_reply
    (env : Env) (post_id text : string) (validate : bool) (s : State)
    (submission : Submission) :
  reddit_submission env (trace s) post_id = Ok submission ->
  sub_locked submission = true ->
  (exists msg,
      fst (Client.post_comment env post_id text validate s) = Ok (Client.failure msg))
  /\ Forall (fun te => ~ is_reply (snd te))
       (new_events s (snd (Client.post_comment env post_id text validate s))).
Proof.
  intros Hsub Hlocked.
  destruct (post_comment_cases env post_id text validate s)
    as [(msg & Hr & Hquiet) | [(sub & _ & _ & Hsub' & Hopen & _)
                              | (sub & _ & _ & Hsub' & Hopen & _)]].
  - split; [exists msg; exact Hr | exact Hquiet].
  - rewrite Hsub in Hsub'. injection Hsub' as <-. congruence.
  - rewrite Hsub in Hsub'. injection Hsub' as <-. congruence.
Qed.

Lemma locked_post_gets_no_reply_witness :
  Forall (fun te => ~ is_reply (snd te))
    (new_events Sample.initial
       (snd (Client.post_comment Sample2.locked_thread "p1"
               "A perfectly fine comment." false Sample.initial))).
Proof.
  apply (locked_post_gets_no_reply Sample2.locked_thread "p1"
           "A perfectly fine comment." false Sample.initial
           (mkSubmission "Closed" "Thread is closed" true "python"));
    reflexivity.
Defined.

(** The replies of [post_comment] carry the text it was given. *)
Lemma post_comment_reply_text (env : Env) (post_id text : string) (validate : bool)
    (s : State) (t : Z) (p x : string) :
  In (t, EvReply p x)
     (new_events s (snd (Client.post_comment env post_id text validate s))) ->
  p = post_id /\ x = text.
Proof.
  destruct (post_comment_cases env post_id text validate s)
    as [(msg & _ & Hquiet) | [(sub & e & before & _ & _ & _ & Hq & _ & t0 & Hnew)
                             | (sub & c & before & _ & _ & Hq & _ & _ & t0 & t1 & Hnew)]].
  - intros Hin. rewrite Forall_forall in Hquiet.
    apply list_elem_of_In in Hin. destruct (Hquiet _ Hin). exact I.
  - rewrite Hnew, in_app_iff. intros [Hin | [[= _ <- <-] | []]]; [| split; reflexivity].
    rewrite Forall_forall in Hq. apply list_elem_of_In in Hin.
    destruct (Hq _ Hin). exact I.
  - rewrite Hnew, in_app_iff.
    intros [Hin | [[= _ <- <-] | [[=] | []]]]; [| split; reflexivity].
    rewrite Forall_forall in Hq. apply list_elem_of_In in Hin.
    destruct (Hq _ Hin). exact I.
Qed.

(** The two ways [generate_and_post_comment] can end: with a failure
    before anything is validated or posted, or as [post_comment] on a
    generated text that does not start with [Error]. *)
Lemma generate_and_post_comment_cases (env : Env) (post_id : string)
    (subreddit : option string) (s : State) :
  let out := Client.generate_and_post_comment env post_id subreddit s in
  ((exists msg, fst out = Ok (Client.failure msg))
   /\ Forall (fun te => ~ is_reply (snd te) /\ ~ is_validation (snd te))
        (new_events s (snd out)))
  \/ (exists generated s3 before h prompt response,
         out = Client.post_comment env post_id generated true s3
         /\ PyStr.startswith generated "Error" = false
         /\ trace s3 = trace s ++ before
         /\ Forall (fun te => ~ is_reply (snd te) /\ ~ is_validation (snd te)) before
         /\ comment_generator_agent_run env h prompt = Ok (Some response)
         /\ generated = Validator.clean_up (PyStr.strip response)).
Proof.
  intros out. subst out.
  remember (Client.generate_and_post_comment env post_id subreddit s) as out eqn:Hout.
  unfold Client.generate_and_post_comment, try_catch, bind, call, ret in Hout.
  cbv beta in Hout.
  set (s1 := mkState (trace s ++ [(clock s, EvSubmission post_id)]) _ _ _ _) in Hout.
  destruct (reddit_submission env (trace s) post_id) as [submission | e0].
  2: { left. subst out. cbn [fst snd]. split; [eexists; reflexivity |].
       erewrite new_events_app by reflexivity.
       constructor; [cbn; tauto | constructor]. }
  set (s2 := mkState (trace s1 ++ [(clock s1, EvReplaceMore post_id)]) _ _ _ _) in Hout.
  assert (Hs2 : trace s2 = trace s ++ [(clock s, EvSubmission post_id);
                                        (clock s1, EvReplaceMore post_id)]).
  { subst s2 s1. cbn [trace]. rewrite <- app_assoc. reflexivity. }
  destruct (submission_comments env _ post_id) as [comments | e1].
  2: { left. subst out. cbn [fst snd]. split; [eexists; reflexivity |].
       rewrite (new_events_app _ _ _ Hs2).
       repeat (constructor; [cbn; tauto |]). constructor. }
  unfold Validator.generate_comment, try_catch, bind, call, lift, ret in Hout.
  cbv beta in Hout.
  match type of Hout with
  | context [comment_generator_agent_run env (trace s2) ?p] => set (prompt := p) in Hout
  end.
  set (s3 := mkState (trace s2 ++ [(clock s2, EvGeneratorAgent prompt)]) _ _ _ _) in Hout.
  assert (Hs3 : trace s3 = trace s ++ [(clock s, EvSubmission post_id);
                                        (clock s1, EvReplaceMore post_id);
                                        (clock s2, EvGeneratorAgent prompt)]).
  { subst s3. cbn [trace]. rewrite Hs2, <- app_assoc. reflexivity. }
  assert (Hquiet : Forall (fun te : Z * Event => ~ is_reply (snd te) /\ ~ is_validation (snd te))
                     [(clock s, EvSubmission post_id);
                      (clock s1, EvReplaceMore post_id);
                      (clock s2, EvGeneratorAgent prompt)]).
  { repeat (constructor; [cbn; tauto |]). constructor. }
  destruct (comment_generator_agent_run env (trace s2) prompt) as [[response |] | e2] eqn:Hgen;
    cbn [Validator.content_strip] in Hout.
  - destruct (PyStr.startswith (Validator.clean_up (PyStr.strip response)) "Error") eqn:Herr.
    + left. subst out. cbn [fst snd]. split; [eexists; reflexivity |].
      rewrite (new_events_app _ _ _ Hs3). exact Hquiet.
    + right. exists (Validator.clean_up (PyStr.strip response)), s3,
        [(clock s, EvSubmission post_id); (clock s1, EvReplaceMore post_id);
         (clock s2, EvGeneratorAgent prompt)], (trace s2), prompt, response.
      split; [| split; [exact Herr | split; [exact Hs3 | split; [exact Hquiet |]]]].
      * rewrite Hout. unfold Client.post_comment, try_catch.
        destruct (bind _ _ s3) as [[r | e] s4]; [reflexivity |].
        destruct (exn_kind e); reflexivity.
      * split; [exact Hgen | reflexivity].
  - left. subst out. cbn [fst snd]. split; [eexists; reflexivity |].
    erewrite new_events_app by exact Hs3. exact Hquiet.
  - left. subst out. cbn [fst snd]. split; [eexists; reflexivity |].
    erewrite new_events_app by exact Hs3. exact Hquiet.
Qed.

(** X8. [generate_and_post_comment] never posts a text that starts with
    [Error]: every reply it sends goes to the given post and carries the
    cleaned-up answer of the generator agent, and that text does not start
    with [Error] (a generated comment that does is reported as a failure). *)
Theorem generated_error_text_never_posted
    (env : Env) (post_id : string) (subreddit : option string) (s : State)
    (t : Z) (p x : string) :
  In (t, EvReply p x)
     (new_events s (snd (Client.generate_and_post_comment env post_id subreddit s))) ->
  p = post_id
  /\ PyStr.startswith x "Error" = false
  /\ exists h prompt response,
       comment_generator_agent_run env h prompt = Ok (Some response)
       /\ x = Validator.clean_up (PyStr.strip response).
Proof.
  destruct (generate_and_post_comment_cases env post_id subreddit s)
    as [[_ Hquiet] | (generated & s3 & before & h & prompt & response
                      & Hout & Herr & Ht3 & Hq & Hgen & Hclean)].
  - intros Hin. rewrite Forall_forall in Hquiet.
    apply list_elem_of_In in Hin. destruct (Hquiet _ Hin) as [Hno _]. destruct Hno. exact I.
  - rewrite Hout.
    pose proof (post_comment_step env post_id generated true s3) as [(evs & Ht & _ & _) _].
    pose proof (post_comment_reply_text env post_id generated true s3 t p x) as Htext.
    rewrite (new_events_app _ _ _ Ht) in Htext.
    erewrite new_events_app by (rewrite Ht, Ht3, <- app_assoc; reflexivity).
    rewrite in_app_iff. intros [Hin | Hin].
    + rewrite Forall_forall in Hq. apply list_elem_of_In in Hin.
      destruct (Hq _ Hin) as [Hno _]. destruct Hno. exact I.
    + destruct (Htext Hin) as [-> ->]. split; [reflexivity |]. split; [exact Herr |].
      exists h, prompt, response. split; [exact Hgen | exact Hclean].
Qed.

Lemma generated_error_text_never_posted_witness :
  PyStr.startswith "Protocols help a lot with that." "Error" = false.
Proof.
  apply (generated_error_text_never_posted Sample.agreeable "p1" None Sample.initial
           0 "p1" "Protocols help a lot with that.").
  vm_compute. do 5 right. left. reflexivity.
Defined.

Example generated_error_text_is_a_failure :
  fst (Client.generate_and_post_comment Sample3.error_talk "p1" None Sample.initial)
  = Ok (Client.failure "Error handling in Python deserves more love.")
  /\ outline (trace (snd (Client.generate_and_post_comment Sample3.error_talk "p1" None
                            Sample.initial)))
     = [EvSubmission "p1"; EvReplaceMore "p1"].
Proof. split; vm_compute; reflexivity. Qed.

(** X9. While the generator agent fails, [generate_and_post_comment]
    returns a failure and neither asks the validator nor sends a reply. *)
Theorem generator_failure_posts_nothing
    (env : Env) (post_id : string) (subreddit : option string) (s : State) :
  (forall h prompt, exists e, comment_generator_agent_run env h prompt = Raise e) ->
  (exists msg,
      fst (Client.generate_and_post_comment env post_id subreddit s)
      = Ok (Client.failure msg))
  /\ Forall (fun te => ~ is_reply (snd te) /\ ~ is_validation (snd te))
       (new_events s (snd (Client.generate_and_post_comment env post_id subreddit s))).
Proof.
  intros Hdown.
  destruct (generate_and_post_comment_cases env post_id subreddit s)
    as [H | (generated & s3 & before & h & prompt & response & _ & _ & _ & _ & Hgen & _)].
  - exact H.
  - destruct (Hdown h prompt) as [e He]. congruence.
Qed.

Lemma generator_failure_posts_nothing_witness :
  exists msg,
    fst (Client.generate_and_post_comment Sample3.generator_down "p1" None Sample.initial)
    = Ok (Client.failure msg).
Proof.
  apply (generator_failure_posts_nothing Sample3.generator_down "p1" None Sample.initial).
  intros h prompt. eexists. reflexivity.
Defined.

Example generator_failure_message :
  fst (Client.generate_and_post_comment Sample3.generator_down "p1" None Sample.initial)
  = Ok (Client.failure "Error generating comment: quota exceeded").
Proof. vm_compute. reflexivity. Qed.

(** ** Fetching and searching posts *)

(** X10. [get_subreddit_posts] checks its arguments before it goes to the
    network: an invalid subreddit name or an unknown sort method raises
    [ValueError] with the state, and so the trace of calls, unchanged. *)
Theorem get_subreddit_posts_checks_arguments_first
    (env : Env) (name sort_by : string) (limit : Z) (time_filter : string) (s : State) :
  (fst (Validator.validate_subreddit_name name) = false ->
   Client.get_subreddit_posts env name sort_by limit time_filter s
   = (Raise (mkExn ValueError (snd (Validator.validate_subreddit_name name))), s))
  /\ (fst (Validator.validate_subreddit_name name) = true ->
      ~ In sort_by ["hot"; "new"; "top"; "rising"] ->
      Client.get_subreddit_posts env name sort_by limit time_filter s
      = (Raise (mkExn ValueError ("Invalid sort method: " +:+ sort_by)), s)).
Proof.
  unfold Client.get_subreddit_posts.
  destruct (Validator.validate_subreddit_name name) as [is_valid result]. cbn [fst snd].
  split.
  - intros ->. reflexivity.
  - intros -> Hsort. cbn [negb]. unfold try_catch, bind.
    assert (Hne : forall k, In k ["hot"; "new"; "top"; "rising"] ->
                            String.eqb sort_by k = false).
    { intros k Hk. apply String.eqb_neq. intros ->. contradiction. }
    rewrite (Hne "hot"), (Hne "new"), (Hne "top"), (Hne "rising") by (cbn; tauto).
    reflexivity.
Qed.

Lemma get_subreddit_posts_checks_arguments_first_witness :
  Client.get_subreddit_posts Sample.agreeable "r/python" "best" 10 "day" Sample.initial
  = (Raise (mkExn ValueError "Invalid sort method: best"), Sample.initial).
Proof.
  apply (get_subreddit_posts_checks_arguments_first Sample.agreeable "r/python" "best"
           10 "day" Sample.initial).
  - reflexivity.
  - cbn. intros [H | [H | [H | [H | []]]]]; discriminate.
Defined.

(** X11. When the listing call fails, [get_subreddit_posts] fails: a
    [Redirect] becomes a [ValueError] saying the subreddit does not exist
    and a [Forbidden] one saying access is forbidden, both naming the
    normalised subreddit; any other exception is passed on as it is. *)
Theorem get_subreddit_posts_translates_errors
    (env : Env) (name normal sort_by : string) (limit : Z) (time_filter : string)
    (s : State) (e : Exn) :
  Validator.validate_subreddit_name name = (true, normal) ->
  In sort_by ["hot"; "new"; "top"; "rising"] ->
  subreddit_listing env (trace s) normal sort_by (listing_filter sort_by time_filter) limit
  = Raise e ->
  fst (Client.get_subreddit_posts env name sort_by limit time_filter s)
  = Raise (match exn_kind e with
           | Redirect =>
               mkExn ValueError ("Subreddit r/" +:+ normal +:+ " does not exist")
           | Forbidden => mkExn ValueError ("Access forbidden to r/" +:+ normal)
           | _ => e
           end).
Proof.
  intros Hname Hsort Hfail. unfold Client.get_subreddit_posts. rewrite Hname.
  cbn [negb]. unfold try_catch, bind, call, raise.
  destruct Hsort as [<- | [<- | [<- | [<- | []]]]]; cbn [String.eqb Ascii.eqb Bool.eqb] in *;
    unfold listing_filter in Hfail; cbn in Hfail; rewrite Hfail;
    destruct (exn_kind e); reflexivity.
Qed.

Lemma get_subreddit_posts_translates_errors_witness :
  fst (Client.get_subreddit_posts Sample3.no_such_subreddit "r/Pyth0n" "new" 10 "day"
         Sample.initial)
  = Raise (mkExn ValueError "Subreddit r/Pyth0n does not exist").
Proof.
  apply (get_subreddit_posts_translates_errors Sample3.no_such_subreddit
           "r/Pyth0n" "Pyth0n" "new" 10 "day" Sample.initial
           (mkExn Redirect "Redirect to /subreddits/search")).
  - reflexivity.
  - cbn. tauto.
  - reflexivity.
Defined.

Lemma collect_sublist
    (step : list (gmap string pyval) -> RawPost -> Result (list (gmap string pyval)))
    (info : RawPost -> Result (gmap string pyval)) :
  (forall acc post acc',
      step acc post = Ok acc' ->
      acc' = acc \/ exists d, info post = Ok d /\ acc' = acc ++ [d]) ->
  forall raw acc res,
    Client.collect step acc raw = Ok res ->
    exists kept, res = acc ++ kept /\ sublist (map Ok kept) (map info raw).
Proof.
  intros Hstep raw. induction raw as [| post rest IH]; intros acc res.
  - intros [= <-]. exists []. rewrite app_nil_r. split; [reflexivity | constructor].
  - cbn [Client.collect]. destruct (step acc post) as [acc' |] eqn:Hs; [| discriminate].
    cbn [rbind]. intros Hrest. destruct (IH _ _ Hrest) as (kept & -> & Hsub).
    destruct (Hstep _ _ _ Hs) as [-> | (d & Hd & ->)].
    + exists kept. split; [reflexivity |]. cbn [map]. apply sublist_cons. exact Hsub.
    + exists (d :: kept). split; [rewrite <- app_assoc; reflexivity |].
      cbn [map]. rewrite Hd. apply sublist_skip. exact Hsub.
Qed.

Lemma append_if_valid_grows (d : gmap string pyval) (acc acc' : list (gmap string pyval)) :
  Client.append_if_valid d acc = Ok acc' -> acc' = acc \/ acc' = acc ++ [d].
Proof.
  unfold Client.append_if_valid.
  destruct (Validator.validate_post_data d) as [verdict |]; [| discriminate].
  cbn [rbind]. destruct (fst verdict); intros [= <-]; auto.
Qed.

Lemma listing_step_grows (acc : list (gmap string pyval)) (post : RawPost)
    (acc' : list (gmap string pyval)) :
  Client.listing_step acc post = Ok acc' ->
  acc' = acc \/ exists d, Client.listing_post_info post = Ok d /\ acc' = acc ++ [d].
Proof.
  unfold Client.listing_step, Client.rtry.
  destruct (Client.listing_post_info post) as [d | e]; cbn [rbind].
  - destruct (Client.append_if_valid d acc) as [l |] eqn:Happ.
    + intros [= <-]. destruct (append_if_valid_grows _ _ _ Happ) as [-> | ->]; eauto.
    + destruct (post "id"); cbn [rbind]; [intros [= <-]; auto | discriminate].
  - destruct (post "id"); cbn [rbind]; [intros [= <-]; auto | discriminate].
Qed.

Lemma search_step_grows (acc : list (gmap string pyval)) (post : RawPost)
    (acc' : list (gmap string pyval)) :
  Client.search_step acc post = Ok acc' ->
  acc' = acc \/ exists d, Client.search_post_info post = Ok d /\ acc' = acc ++ [d].
Proof.
  unfold Client.search_step, Client.rtry.
  destruct (Client.search_post_info post) as [d | e]; cbn [rbind].
  - destruct (Client.append_if_valid d acc) as [l |] eqn:Happ.
    + intros [= <-]. destruct (append_if_valid_grows _ _ _ Happ) as [-> | ->]; eauto.
    + intros [= <-]; auto.
  - intros [= <-]; auto.
Qed.

(** X12. When [get_subreddit_posts] returns, it has made exactly one
    call, the listing of the normalised subreddit, and the posts it
    returns are, in the order of the listing, dictionaries built from some
    of the fetched items: never more than were fetched. *)
Theorem get_subreddit_posts_returns_fetched_posts
    (env : Env) (name sort_by : string) (limit : Z) (time_filter : string)
    (s s' : State) (posts : list (gmap string pyval)) :
  Client.get_subreddit_posts env name sort_by limit time_filter s = (Ok posts, s') ->
  exists raw,
    new_events s s'
    = [(clock s,
        EvListing (snd (Validator.validate_subreddit_name name)) sort_by
          (listing_filter sort_by time_filter) limit)]
    /\ subreddit_listing env (trace s) (snd (Validator.validate_subreddit_name name))
         sort_by (listing_filter sort_by time_filter) limit = Ok raw
    /\ sublist (map Ok posts) (map Client.listing_post_info raw)
    /\ (length posts <= length raw)%nat.
Proof.
  unfold Client.get_subreddit_posts.
  destruct (Validator.validate_subreddit_name name) as [is_valid result]. cbn [snd].
  intros Hrun. apply try_catch_ok_inv in Hrun.
  2: { intros e s0. destruct (exn_kind e); eexists; reflexivity. }
  destruct is_valid; cbn [negb] in Hrun; [| discriminate].
  apply bind_ok_inv in Hrun. destruct Hrun as (raw & s1 & Hcall & Hcollect).
  unfold lift in Hcollect. injection Hcollect as Hcollect <-.
  destruct (collect_sublist _ _ listing_step_grows _ _ _ Hcollect) as (kept & -> & Hsub).
  cbn [app] in *. exists raw.
  assert (Hcases : sort_by = "hot" \/ sort_by = "new" \/ sort_by = "top"
                   \/ sort_by = "rising").
  { destruct (String.eqb_spec sort_by "hot"); [tauto |].
    destruct (String.eqb_spec sort_by "new"); [tauto |].
    destruct (String.eqb_spec sort_by "top"); [tauto |].
    destruct (String.eqb_spec sort_by "rising"); [tauto |].
    exfalso. revert Hcall.
    repeat match goal with
           | Hne : sort_by <> ?k |- _ => apply String.eqb_neq in Hne; rewrite Hne; clear Hne
           end.
    discriminate. }
  assert (Hlen : (length kept <= length raw)%nat).
  { apply sublist_length in Hsub. rewrite !length_map in Hsub. exact Hsub. }
  destruct Hcases as [-> | [-> | [-> | ->]]];
    cbn [String.eqb Ascii.eqb Bool.eqb] in Hcall; unfold call in Hcall;
    injection Hcall as Hans <-;
    (split; [apply new_events_app; reflexivity |]);
    (split; [exact Hans |]); (split; [exact Hsub | exact Hlen]).
Qed.

Lemma get_subreddit_posts_returns_fetched_posts_witness :
  exists raw,
    new_events Sample.initial (snd Sample3.python_new)
    = [(clock Sample.initial,
        EvListing (snd (Validator.validate_subreddit_name "r/python")) "new"
          (listing_filter "new" "day") 10)]
    /\ subreddit_listing Sample.agreeable (trace Sample.initial)
         (snd (Validator.validate_subreddit_name "r/python")) "new"
         (listing_filter "new" "day") 10 = Ok raw
    /\ sublist (map Ok (Sample3.posts_of (fst Sample3.python_new)))
         (map Client.listing_post_info raw)
    /\ (length (Sample3.posts_of (fst Sample3.python_new)) <= length raw)%nat.
Proof.
  apply (get_subreddit_posts_returns_fetched_posts Sample.agreeable "r/python" "new"
           10 "day" Sample.initial).
  vm_compute. reflexivity.
Defined.

(** X13. [search_posts] searches [all] when no subreddit is given and
    the normalised subreddit otherwise; an invalid name raises [ValueError]
    before any call.  Once the search call has answered, the function
    cannot fail: items that cannot be read or are not valid are left out,
    and the posts returned are valid and in the order of the answer. *)
Theorem search_posts_outcome
    (env : Env) (query : string) (subreddit_name : option string)
    (sort time_filter : string) (limit : Z) (s : State) :
  (search_target subreddit_name = None ->
   exists reason,
     Client.search_posts env query subreddit_name sort time_filter limit s
     = (Raise (mkExn ValueError reason), s))
  /\ (forall target raw,
         search_target subreddit_name = Some target ->
         subreddit_search env (trace s) target query sort time_filter limit = Ok raw ->
         exists posts,
           fst (Client.search_posts env query subreddit_name sort time_filter limit s)
           = Ok posts
           /\ sublist (map Ok posts) (map Client.search_post_info raw)
           /\ Forall valid_post posts
           /\ new_events s
                (snd (Client.search_posts env query subreddit_name sort time_filter
                        limit s))
              = [(clock s, EvSearch target query sort time_filter limit)]).
Proof.
  assert (Hsearch : forall target raw,
             subreddit_search env (trace s) target query sort time_filter limit = Ok raw ->
             let out :=
               try_catch
                 (bind (call env (EvSearch target query sort time_filter limit)
                          (fun h => subreddit_search env h target query sort time_filter
                                      limit))
                       (fun results => lift (Client.collect Client.search_step [] results)))
                 (fun e => raise e) s in
             exists posts,
               fst out = Ok posts
               /\ sublist (map Ok posts) (map Client.search_post_info raw)
               /\ Forall valid_post posts
               /\ new_events s (snd out)
                  = [(clock s, EvSearch target query sort time_filter limit)]).
  { intros target raw Hans. unfold try_catch, bind, call, lift. rewrite Hans.
    destruct (collect_search_total raw []) as [kept Hkept]. rewrite Hkept. cbn [fst snd].
    destruct (collect_sublist _ _ search_step_grows _ _ _ Hkept) as (kept' & -> & Hsub).
    exists kept'. split; [reflexivity |]. split; [exact Hsub |].
    split; [| apply new_events_app; reflexivity].
    eapply collect_keeps; [apply search_step_keeps | exact Hkept | constructor]. }
  unfold search_target, Client.search_posts.
  destruct subreddit_name as [name |].
  - destruct (PyStr.is_empty name).
    + split; [discriminate |]. intros target raw [= <-]. apply Hsearch.
    + destruct (Validator.validate_subreddit_name name) as [is_valid result].
      cbn [fst snd]. destruct is_valid; cbn [negb].
      * split; [discriminate |]. intros target raw [= <-]. apply Hsearch.
      * split; [| discriminate]. intros _. exists result. reflexivity.
  - split; [discriminate |]. intros target raw [= <-]. apply Hsearch.
Qed.

Lemma search_posts_outcome_witness :
  exists posts,
    fst (Client.search_posts Sample.agreeable "typing" None "relevance" "all" 25
           Sample.initial) = Ok posts
    /\ Forall valid_post posts.
Proof.
  destruct (search_posts_outcome Sample.agreeable "typing" None "relevance" "all" 25
              Sample.initial) as [_ Hok].
  destruct (Hok "all" [Sample.raw_post "p1" "Typing tips" 5;
                       Sample.raw_post "p2" "Async pitfalls" 7] eq_refl eq_refl)
    as (posts & Hposts & _ & Hvalid & _).
  exists posts. split; assumption.
Defined.

(** ** Accounting of the auto-comment loop *)

Lemma successes_app (a b : list PostResult) : successes (a ++ b) = successes a + successes b.
Proof. unfold successes. rewrite List.filter_app, length_app. lia. Qed.

Lemma failures_app (a b : list PostResult) : failures (a ++ b) = failures a + failures b.
Proof. unfold failures. rewrite List.filter_app, length_app. lia. Qed.

Lemma comment_on_counts (env : Env) (subreddit_name : string)
    (post : gmap string pyval) (s : State) :
  valid_post post ->
  exists r s',
    Bot.comment_on env subreddit_name post s = (Ok tt, s')
    /\ results s' = results s ++ [r]
    /\ Some (post_id r) = Some (post !! "id")
    /\ comments_posted (stats s') = comments_posted (stats s) + successes [r]
    /\ errors (stats s') = errors (stats s) + failures [r]
    /\ posts_retrieved (stats s') = posts_retrieved (stats s)
    /\ start_time (stats s') = start_time (stats s).
Proof.
  intros Hvalid. apply valid_post_fields in Hvalid.
  destruct Hvalid as [[id Hid] (title & Ht & _)].
  destruct (generate_and_post_comment_attempt env (py_str id) (Some subreddit_name) s)
    as (r & s1 & attempt & Hrun & _ & _ & _ & Hst & Hres & _).
  unfold Bot.comment_on, try_catch, bind, lift, dict_get.
  rewrite Ht, Hid. cbn [Bot.title_prefix]. rewrite Hrun.
  unfold modify, sleep, successes, failures.
  exists (mkPostResult (success r) (error r) (comment_id r) (permalink r)
            (Some (VStr title)) (Some id)).
  cbn [success].
  destruct (success r) eqn:Hs; eexists;
    (split; [reflexivity |]);
    cbn [fst snd trace clock results stats set_results set_stats Bot.count_comment
           Bot.count_error comments_posted errors posts_retrieved start_time
           List.filter success post_id negb length];
    rewrite Hres, Hst; repeat split; lia.
Qed.

Lemma comment_loop_counts (env : Env) (subreddit_name : string)
    (posts : list (gmap string pyval)) :
  Forall valid_post posts ->
  forall s, exists rs s',
    for_each posts (Bot.comment_on env subreddit_name) s = (Ok tt, s')
    /\ results s' = results s ++ rs
    /\ map post_id rs = map (fun post : gmap string pyval => post !! "id") posts
    /\ comments_posted (stats s') = comments_posted (stats s) + successes rs
    /\ errors (stats s') = errors (stats s) + failures rs
    /\ posts_retrieved (stats s') = posts_retrieved (stats s)
    /\ start_time (stats s') = start_time (stats s).
Proof.
  induction 1 as [| post rest Hvalid _ IH]; intros s.
  - exists [], s. cbn [for_each map]. rewrite app_nil_r.
    unfold successes, failures. cbn. repeat split; lia.
  - destruct (comment_on_counts env subreddit_name post s Hvalid)
      as (r & s1 & Hrun & Hres & [= Hid] & Hp & He & Hr & Hst).
    destruct (IH s1) as (rs & s' & Hloop & Hres' & Hids & Hp' & He' & Hr' & Hst').
    exists (r :: rs), s'. cbn [for_each]. unfold bind at 1. rewrite Hrun.
    split; [exact Hloop |].
    change (r :: rs) with ([r] ++ rs). rewrite successes_app, failures_app.
    split; [rewrite Hres', Hres, <- app_assoc; reflexivity |].
    split; [cbn [app map]; rewrite Hid, Hids; reflexivity |].
    repeat split; lia.
Qed.

(** X14. [auto_comment_on_posts] counts every attempt exactly once: when
    it returns its results, [comments_posted] has grown by the number of
    successful results and [errors] by the number of failed ones; when it
    raises, [errors] has grown by one and nothing was posted.  It never
    changes [posts_retrieved] or the start time. *)
Theorem auto_comment_counts_every_attempt
    (env : Env) (subreddit_name : string) (max_comments : Z) (sort_by : string)
    (min_score : Z) (s s' : State) (outcome : Result (list PostResult)) :
  Bot.auto_comment_on_posts env subreddit_name max_comments sort_by min_score s
  = (outcome, s') ->
  match outcome with
  | Ok rs =>
      comments_posted (stats s') = comments_posted (stats s) + successes rs
      /\ errors (stats s') = errors (stats s) + failures rs
      /\ successes rs + failures rs = Z.of_nat (length rs)
  | Raise _ =>
      comments_posted (stats s') = comments_posted (stats s)
      /\ errors (stats s') = errors (stats s) + 1
      /\ results s' = results s
  end
  /\ posts_retrieved (stats s') = posts_retrieved (stats s)
  /\ start_time (stats s') = start_time (stats s).
Proof.
  intros Hrun.
  unfold Bot.auto_comment_on_posts, try_catch, bind at 1 in Hrun.
  pose proof (get_subreddit_posts_step env subreddit_name sort_by (max_comments * 2)
                "day" s) as [_ (Hst & Hres & _)].
  destruct (Client.get_subreddit_posts env subreddit_name sort_by (max_comments * 2)
              "day" s) as [[posts | e] s1] eqn:Hget; cbn [fst snd] in *.
  2: { unfold bind, modify, raise in Hrun. injection Hrun as <- <-.
       cbn [set_stats stats results Bot.count_error comments_posted errors
              posts_retrieved start_time]. rewrite Hst, Hres. repeat split; lia. }
  unfold bind at 1, lift at 1 in Hrun.
  destruct (Bot.eligible_posts min_score posts) as [eligible | e] eqn:Hel.
  2: { unfold bind, modify, raise in Hrun. injection Hrun as <- <-.
       cbn [set_stats stats results Bot.count_error comments_posted errors
              posts_retrieved start_time]. rewrite Hst, Hres. repeat split; lia. }
  unfold bind at 1, modify at 1 in Hrun.
  set (s2 := set_results (fun _ => []) s1) in Hrun.
  assert (Hvalid : Forall valid_post (Bot.slice_upto max_comments eligible)).
  { apply slice_upto_keeps. eapply eligible_posts_keeps; [exact Hel |].
    eapply get_subreddit_posts_valid. exact Hget. }
  destruct (comment_loop_counts env subreddit_name _ Hvalid s2)
    as (rs & s3 & Hloop & Hres3 & _ & Hp & He & Hr & Hstart).
  unfold bind at 1 in Hrun. rewrite Hloop in Hrun. injection Hrun as <- <-.
  subst s2. cbn [set_results stats results app] in *. rewrite Hres3, <- Hst.
  split; [split; [exact Hp | split; [exact He |]] | split; [exact Hr | exact Hstart]].
  unfold successes, failures. clear. induction rs as [| r rs IH]; [reflexivity |].
  cbn [List.filter length]. destruct (success r); cbn [negb length]; lia.
Qed.

Lemma auto_comment_counts_every_attempt_witness :
  comments_posted
    (stats (snd (Bot.auto_comment_on_posts Sample.agreeable "python" 2 "new" 0
                   Sample.initial)))
  = 2.
Proof.
  pose proof (auto_comment_counts_every_attempt Sample.agreeable "python" 2 "new" 0
                Sample.initial
                (snd (Bot.auto_comment_on_posts Sample.agreeable "python" 2 "new" 0
                        Sample.initial))
                (fst (Bot.auto_comment_on_posts Sample.agreeable "python" 2 "new" 0
                        Sample.initial))
                ltac:(vm_compute; reflexivity)) as [H _].
  revert H. vm_compute. intros [H _]. exact H.
Defined.

(** ** Which posts the auto-comment loop attempts *)

Lemma eligible_posts_filter (min_score : Z) (posts kept : list (gmap string pyval)) :
  Bot.eligible_posts min_score posts = Ok kept ->
  kept = List.filter (is_eligible min_score) posts.
Proof.
  revert kept. induction posts as [| post rest IH]; intros kept.
  - intros [= <-]. reflexivity.
  - cbn [Bot.eligible_posts List.filter]. unfold is_eligible at 1.
    destruct (Bot.eligible min_score post) as [keep | e]; [| discriminate].
    cbn [rbind]. destruct (Bot.eligible_posts min_score rest) as [kept' | e];
      [| discriminate].
    cbn [rbind]. intros [= <-]. rewrite (IH kept' eq_refl).
    destruct keep; reflexivity.
Qed.

Lemma is_eligible_criteria (min_score : Z) (post : gmap string pyval) :
  is_eligible min_score post = true -> meets_criteria min_score post.
Proof.
  unfold is_eligible, Bot.eligible, meets_criteria, int_field_of, dict_get.
  destruct (post !! "score") as [score_v |]; [| discriminate]. cbn [rbind].
  destruct (py_int score_v) as [score |]; [| discriminate]. cbn [rbind].
  destruct (score >=? min_score)%Z eqn:Hscore; cbn [negb]; [| discriminate].
  destruct (post !! "locked") as [locked |]; [| discriminate]. cbn [rbind].
  destruct (truthy locked) eqn:Hlocked; [discriminate |].
  destruct (post !! "over_18") as [over_18 |]; [| discriminate]. cbn [rbind].
  destruct (truthy over_18) eqn:Hadult; [discriminate |].
  destruct (post !! "num_comments") as [nc_v |]; [| discriminate]. cbn [rbind].
  destruct (py_int nc_v) as [nc |]; [| discriminate]. cbn [rbind].
  destruct (nc <? 100)%Z eqn:Hnc; [| discriminate].
  intros _. exists score, locked, over_18, nc.
  apply Z.geb_le in Hscore. apply Z.ltb_lt in Hnc.
  repeat split; try reflexivity; try assumption.
Qed.

Lemma slice_upto_length {A} (n : Z) (xs : list A) :
  0 <= n -> Z.of_nat (length (Bot.slice_upto n xs)) <= n.
Proof.
  intros Hn. unfold Bot.slice_upto.
  destruct (0 <=? n)%Z eqn:H; [| apply Z.leb_gt in H; lia].
  rewrite length_take. lia.
Qed.

(** X15. The results [auto_comment_on_posts] returns are, in order, the
    attempts on the first [max_comments] posts of the listing that pass the
    filter: each attempted post has a score of at least [min_score], is
    neither locked nor marked over 18 and has fewer than 100 comments, and
    for a non-negative [max_comments] there are at most that many
    results. *)
Theorem auto_comment_attempts_eligible_posts
    (env : Env) (subreddit_name : string) (max_comments : Z) (sort_by : string)
    (min_score : Z) (s s' : State) (rs : list PostResult) :
  Bot.auto_comment_on_posts env subreddit_name max_comments sort_by min_score s
  = (Ok rs, s') ->
  exists posts s1,
    Client.get_subreddit_posts env subreddit_name sort_by (max_comments * 2) "day" s
    = (Ok posts, s1)
    /\ map post_id rs
       = map (fun post : gmap string pyval => post !! "id")
           (Bot.slice_upto max_comments (List.filter (is_eligible min_score) posts))
    /\ Forall (meets_criteria min_score)
         (Bot.slice_upto max_comments (List.filter (is_eligible min_score) posts))
    /\ (0 <= max_comments -> Z.of_nat (length rs) <= max_comments).
Proof.
  intros Hrun.
  unfold Bot.auto_comment_on_posts, try_catch, bind at 1 in Hrun.
  destruct (Client.get_subreddit_posts env subreddit_name sort_by (max_comments * 2)
              "day" s) as [[posts | e] s1] eqn:Hget.
  2: { unfold bind, modify, raise in Hrun. discriminate. }
  unfold bind at 1, lift at 1 in Hrun.
  destruct (Bot.eligible_posts min_score posts) as [eligible | e] eqn:Hel.
  2: { unfold bind, modify, raise in Hrun. discriminate. }
  unfold bind at 1, modify at 1 in Hrun.
  set (s2 := set_results (fun _ => []) s1) in Hrun.
  assert (Hvalid : Forall valid_post (Bot.slice_upto max_comments eligible)).
  { apply slice_upto_keeps. eapply eligible_posts_keeps; [exact Hel |].
    eapply get_subreddit_posts_valid. exact Hget. }
  destruct (comment_loop_counts env subreddit_name _ Hvalid s2)
    as (rs' & s3 & Hloop & Hres3 & Hids & _).
  unfold bind at 1 in Hrun. rewrite Hloop in Hrun. injection Hrun as <- <-.
  subst s2. cbn [set_results results app] in Hres3. rewrite Hres3.
  pose proof (eligible_posts_filter _ _ _ Hel) as ->.
  exists posts, s1. split; [reflexivity |]. split; [exact Hids |]. split.
  - apply slice_upto_keeps. rewrite Forall_forall. intros post Hin.
    apply list_elem_of_In, filter_In in Hin. apply is_eligible_criteria, Hin.
  - intros Hmax. apply (f_equal (@length _)) in Hids. rewrite !length_map in Hids.
    rewrite Hids. apply slice_upto_length, Hmax.
Qed.

Lemma auto_comment_attempts_eligible_posts_witness :
  exists posts s1,
    Client.get_subreddit_posts Sample3.mixed_listing "python" "hot" (5 * 2) "day"
      Sample.initial = (Ok posts, s1)
    /\ map post_id (Sample3.posts_of (fst Sample3.mixed_run))
       = map (fun post : gmap string pyval => post !! "id")
           (Bot.slice_upto 5 (List.filter (is_eligible 0) posts))
    /\ Forall (meets_criteria 0)
         (Bot.slice_upto 5 (List.filter (is_eligible 0) posts))
    /\ (0 <= 5 -> Z.of_nat (length (Sample3.posts_of (fst Sample3.mixed_run))) <= 5).
Proof.
  apply (auto_comment_attempts_eligible_posts Sample3.mixed_listing "python" 5 "hot" 0
           Sample.initial (snd Sample3.mixed_run)).
  vm_compute. reflexivity.
Defined.

(** Of three posts with scores 5, -1 and 20, the two with a score of at
    least 0 are attempted. *)
Example auto_comment_skips_low_score :
  map post_id (Sample3.posts_of (fst Sample3.mixed_run))
  = [Some (VStr "p1"); Some (VStr "p3")].
Proof. vm_compute. reflexivity. Qed.

(** ** Monitoring and the bot's counters *)

#[local] Instance keeps_counters_preorder : PreOrder keeps_counters.
Proof.
  split.
  - intros s. split; reflexivity.
  - intros s1 s2 s3 [Ha Hb] [Ha' Hb']. split; congruence.
Qed.

#[local] Instance log_rel_preorder : PreOrder log_rel.
Proof.
  split.
  - intros s. split; [reflexivity |]. exists []. rewrite app_nil_r.
    split; [reflexivity | constructor].
  - intros s1 s2 s3 [He1 (m1 & Hm1 & Hf1)] [He2 (m2 & Hm2 & Hf2)]. split.
    + etransitivity; eassumption.
    + exists (m1 ++ m2). split; [rewrite Hm2, Hm1, app_assoc; reflexivity |].
      apply Forall_app. split; assumption.
Qed.

Lemma client_step_keeps_counters (Q : Event -> Prop) (s s' : State) :
  client_step Q s s' -> keeps_counters s s'.
Proof. intros [_ (Ha & Hb & _)]. split; assumption. Qed.

Lemma client_step_log_rel (s s' : State) :
  client_step monitor_event s s' -> log_rel s s'.
Proof.
  intros [He (_ & _ & Hm)]. split; [exact He |].
  exists []. rewrite app_nil_r. split; [exact Hm | constructor].
Qed.

Section MonitorCounters.

Variable env : Env.

Lemma check_keyword_keeps_counters (subreddit_name action post_text : string)
    (post : gmap string pyval) (keyword : string) :
  respects keeps_counters
    (Bot.check_keyword env subreddit_name action post_text post keyword).
Proof.
  unfold Bot.check_keyword.
  destruct (PyStr.contains _ _); [| apply respects_ret].
  apply respects_bind; [apply respects_lift | intros id].
  apply respects_bind; [apply respects_lift | intros title].
  apply respects_bind; [apply respects_now | intros matched_at].
  apply respects_bind; [apply respects_lift | intros permalink].
  apply respects_bind; [intros s; split; reflexivity | intros _].
  destruct (Bot.comments_on_match action); [| apply respects_ret].
  apply respects_try_catch; [| intros e; apply respects_ret].
  apply respects_bind; [apply respects_lift | intros id'].
  apply respects_bind; [| intros r; intros s; split; reflexivity].
  intros s. eapply client_step_keeps_counters. apply generate_and_post_comment_step.
Qed.

Lemma monitor_cycle_keeps_counters (subreddit_name : string) (keywords : list string)
    (action : string) :
  respects keeps_counters (Bot.monitor_cycle env subreddit_name keywords action).
Proof.
  unfold Bot.monitor_cycle.
  assert (Hsleep : forall n, respects keeps_counters (sleep env n)).
  { intros n s. split; reflexivity. }
  apply respects_try_catch; [| intros e; apply Hsleep].
  apply respects_bind.
  { intros s. eapply client_step_keeps_counters. apply get_subreddit_posts_step. }
  intros posts. apply respects_bind; [| intros _; apply Hsleep].
  apply respects_for_each. intros post. unfold Bot.scan_post.
  apply respects_bind; [apply respects_lift | intros title].
  apply respects_bind; [apply respects_lift | intros selftext].
  apply respects_for_each. intros keyword. apply check_keyword_keeps_counters.
Qed.

Lemma monitor_loop_keeps_counters (subreddit_name : string) (keywords : list string)
    (action : string) (end_time : Z) (fuel : nat) :
  forall s r s',
    Bot.monitor_loop env fuel subreddit_name keywords action end_time s = Some (r, s') ->
    keeps_counters s s'.
Proof.
  induction fuel as [| fuel IH]; intros s r s'; cbn [Bot.monitor_loop];
    destruct (clock s <? end_time)%Z; try discriminate;
    try (intros [= <- <-]; reflexivity).
  pose proof (monitor_cycle_keeps_counters subreddit_name keywords action s) as Hcycle.
  destruct (Bot.monitor_cycle env subreddit_name keywords action s) as [[[] | e] s1];
    cbn [snd] in Hcycle.
  - intros Hloop. etransitivity; [exact Hcycle | eapply IH; exact Hloop].
  - intros [= <- <-]. exact Hcycle.
Qed.

Lemma check_keyword_log_rel (subreddit_name action post_text : string)
    (post : gmap string pyval) (keyword : string) :
  Bot.comments_on_match action = false ->
  respects log_rel (Bot.check_keyword env subreddit_name action post_text post keyword).
Proof.
  intros Hlog. unfold Bot.check_keyword. rewrite Hlog.
  destruct (PyStr.contains _ _); [| apply respects_ret].
  apply respects_bind; [apply respects_lift | intros id].
  apply respects_bind; [apply respects_lift | intros title].
  apply respects_bind; [apply respects_now | intros matched_at].
  apply respects_bind; [apply respects_lift | intros permalink].
  apply respects_bind; [| intros _; apply respects_ret].
  intros s. unfold modify. cbn [snd]. split.
  - exists []. cbn [set_matches trace clock]. rewrite app_nil_r.
    split; [reflexivity |]. split; [constructor | lia].
  - eexists [_]. split; [reflexivity |]. constructor; [reflexivity | constructor].
Qed.

Lemma monitor_cycle_log_rel (subreddit_name : string) (keywords : list string)
    (action : string) :
  Bot.comments_on_match action = false ->
  respects log_rel (Bot.monitor_cycle env subreddit_name keywords action).
Proof.
  intros Hlog. unfold Bot.monitor_cycle.
  assert (Hsleep : forall n, n = 300 \/ n = 60 -> respects log_rel (sleep env n)).
  { intros n Hn s. apply client_step_log_rel.
    apply sleep_step; [lia | exact Hn]. }
  apply respects_try_catch; [| intros e; apply Hsleep; right; reflexivity].
  apply respects_bind.
  { intros s. apply client_step_log_rel.
    eapply client_step_weaken; [| apply get_subreddit_posts_step].
    intros [] H; try contradiction; exact I. }
  intros posts. apply respects_bind; [| intros _; apply Hsleep; left; reflexivity].
  apply respects_for_each. intros post. unfold Bot.scan_post.
  apply respects_bind; [apply respects_lift | intros title].
  apply respects_bind; [apply respects_lift | intros selftext].
  apply respects_for_each. intros keyword. apply check_keyword_log_rel. exact Hlog.
Qed.

Lemma monitor_loop_log_rel (subreddit_name : string) (keywords : list string)
    (action : string) (end_time : Z) (fuel : nat) :
  Bot.comments_on_match action = false ->
  forall s r s',
    Bot.monitor_loop env fuel subreddit_name keywords action end_time s = Some (r, s') ->
    log_rel s s'.
Proof.
  intros Hlog.
  induction fuel as [| fuel IH]; intros s r s'; cbn [Bot.monitor_loop];
    destruct (clock s <? end_time)%Z; try discriminate;
    try (intros [= <- <-]; reflexivity).
  pose proof (monitor_cycle_log_rel subreddit_name keywords action Hlog s) as Hcycle.
  destruct (Bot.monitor_cycle env subreddit_name keywords action s) as [[[] | e] s1];
    cbn [snd] in Hcycle.
  - intros Hloop. etransitivity; [exact Hcycle | eapply IH; exact Hloop].
  - intros [= <- <-]. exact Hcycle.
Qed.

End MonitorCounters.

(** X16. Monitoring leaves the bot's counters alone: whatever the action
    and however many comments the cycles posted or failed to post, the
    statistics ([comments_posted], [posts_retrieved], [errors],
    [start_time]) and the result list are the same after
    [monitor_subreddit] as before. *)
Theorem monitor_leaves_counters_untouched
    (env : Env) (fuel : nat) (subreddit_name : string) (keywords : list string)
    (action : string) (duration_hours : Z) (s s' : State) (result : Result Bot.Monitoring) :
  Bot.monitor_subreddit env fuel subreddit_name keywords action duration_hours s
  = Some (result, s') ->
  stats s' = stats s /\ results s' = results s.
Proof.
  unfold Bot.monitor_subreddit. intros Hrun.
  destruct (Bot.monitor_loop env fuel subreddit_name keywords action _ _)
    as [[r s1] |] eqn:Hloop; [| discriminate].
  apply monitor_loop_keeps_counters in Hloop. destruct Hloop as [Hst Hres].
  cbn [set_matches stats results] in Hst, Hres.
  destruct r; injection Hrun as <- <-; split; assumption.
Qed.

Lemma monitor_leaves_counters_untouched_witness :
  stats (snd Sample3.commenting_hour) = stats Sample.initial
  /\ results (snd Sample3.commenting_hour) = results Sample.initial.
Proof.
  apply (monitor_leaves_counters_untouched Sample.agreeable 60 "python" ["tips"] "comment" 1
           Sample.initial (snd Sample3.commenting_hour) (fst Sample3.commenting_hour)).
  vm_compute. reflexivity.
Defined.

(** Twelve comments are posted in the hour, and none is counted. *)
Example monitor_comments_uncounted :
  (length (List.filter (fun ev => match ev with EvReply _ _ => true | _ => false end)
             (map snd (trace (snd Sample3.commenting_hour)))),
   comments_posted (stats (snd Sample3.commenting_hour)))
  = (12%nat, 0).
Proof. vm_compute. reflexivity. Qed.

(** X17. With an action other than [comment] and [both], monitoring only
    watches: the calls it issues are polls of the listing and the waits of
    300 and 60 seconds that end a cycle - no submission is fetched, no
    agent is asked and no reply is sent - and no match it returns carries
    a [comment_result]. *)
Theorem monitor_log_mode_only_polls
    (env : Env) (fuel : nat) (subreddit_name : string) (keywords : list string)
    (action : string) (duration_hours : Z) (s s' : State) (result : Result Bot.Monitoring) :
  Bot.comments_on_match action = false ->
  Bot.monitor_subreddit env fuel subreddit_name keywords action duration_hours s
  = Some (result, s') ->
  Forall (fun te => monitor_event (snd te)) (new_events s s')
  /\ Forall without_comment (matches s').
Proof.
  unfold Bot.monitor_subreddit. intros Hlog Hrun.
  destruct (Bot.monitor_loop env fuel subreddit_name keywords action _ _)
    as [[r s1] |] eqn:Hloop; [| discriminate].
  apply monitor_loop_log_rel in Hloop; [| exact Hlog].
  destruct Hloop as [(evs & Ht & Hq & _) (recorded & Hm & Hnone)].
  cbn [set_matches trace matches] in Ht, Hm.
  assert (Hs' : s' = s1) by (destruct r; injection Hrun as _ <-; reflexivity).
  subst s'. split.
  - rewrite (new_events_app _ _ _ Ht).
    eapply Forall_impl; [exact Hq |]. intros te [_ HQ]. exact HQ.
  - rewrite Hm. exact Hnone.
Qed.

Lemma monitor_log_mode_only_polls_witness :
  Forall (fun te => monitor_event (snd te))
    (new_events Sample.initial (snd Sample3.logging_hour))
  /\ Forall without_comment (matches (snd Sample3.logging_hour)).
Proof.
  apply (monitor_log_mode_only_polls Sample.agreeable 60 "python" ["tips"] "log" 1
           Sample.initial (snd Sample3.logging_hour) (fst Sample3.logging_hour)).
  - reflexivity.
  - vm_compute. reflexivity.
Defined.

(** ** Summaries *)

Lemma max_from_first_greatest (key : string) (rest : list (gmap string pyval)) :
  forall (best : gmap string pyval) (best_key : Z) (pre mid : list (gmap string pyval))
         (top : gmap string pyval),
    Reports.int_field key best = Ok best_key ->
    Forall (fun p => exists z, Reports.int_field key p = Ok z /\ z < best_key) pre ->
    Forall (fun p => exists z, Reports.int_field key p = Ok z /\ z <= best_key) mid ->
    Reports.max_from key best best_key rest = Ok top ->
    first_greatest key (pre ++ best :: mid ++ rest) top.
Proof.
  induction rest as [| post rest IH]; intros best best_key pre mid top Hbest Hpre Hmid.
  - cbn [Reports.max_from]. intros [= <-]. rewrite app_nil_r.
    exists pre, mid, best_key. split; [reflexivity |]. split; [exact Hbest |].
    split; assumption.
  - cbn [Reports.max_from].
    destruct (Reports.int_field key post) as [value | e] eqn:Hpost; [| discriminate].
    cbn [rbind]. destruct (value >? best_key)%Z eqn:Hcmp; intros Hmax.
    + apply Z.gtb_lt in Hcmp.
      replace (pre ++ best :: mid ++ post :: rest)
        with ((pre ++ best :: mid) ++ post :: [] ++ rest)
        by (rewrite <- app_assoc; reflexivity).
      apply (IH post value); [exact Hpost | | constructor | exact Hmax].
      apply Forall_app. split.
      * eapply Forall_impl; [exact Hpre |]. intros p (z & Hz & Hlt).
        exists z. split; [exact Hz | lia].
      * constructor; [exists best_key; split; [exact Hbest | lia] |].
        eapply Forall_impl; [exact Hmid |]. intros p (z & Hz & Hle).
        exists z. split; [exact Hz | lia].
    + assert (Hle : value <= best_key).
      { destruct (Z.gtb_spec value best_key); [discriminate | lia]. }
      replace (pre ++ best :: mid ++ post :: rest)
        with (pre ++ best :: (mid ++ [post]) ++ rest)
        by (rewrite <- (app_assoc mid); reflexivity).
      apply (IH best best_key); [exact Hbest | exact Hpre | | exact Hmax].
      apply Forall_app. split; [exact Hmid |].
      constructor; [| constructor]. exists value. split; [exact Hpost | exact Hle].
Qed.

Lemma max_by_first_greatest (key : string) (posts : list (gmap string pyval))
    (top : gmap string pyval) :
  Reports.max_by key posts = Ok top -> first_greatest key posts top.
Proof.
  destruct posts as [| post rest]; [discriminate |].
  cbn [Reports.max_by].
  destruct (Reports.int_field key post) as [value | e] eqn:Hpost; [| discriminate].
  cbn [rbind]. intros Hmax.
  apply (max_from_first_greatest key rest post value [] [] top Hpost); auto.
Qed.

(** X18. The summary of a list of posts.  No posts give the empty
    summary.  Otherwise, when a summary is produced, it counts the posts,
    its totals are the sums of the posts' scores and comment counts, its
    averages are the totals divided by the count, and [top_post] and
    [most_discussed] are the titles of the first post with the greatest
    score and of the first post with the most comments. *)
Theorem summary_names_first_greatest (posts : list (gmap string pyval)) (sm : Reports.Summary) :
  Reports._generate_subreddit_summary [] = Ok None
  /\ (Reports._generate_subreddit_summary posts = Ok (Some sm) ->
      Reports.total_posts sm = Z.of_nat (length posts)
      /\ 0 < Reports.total_posts sm
      /\ Reports.sum_field "score" posts = Ok (Reports.total_score sm)
      /\ Reports.sum_field "num_comments" posts = Ok (Reports.total_comments sm)
      /\ Reports.average_score sm
         = Reports.true_div (Reports.total_score sm) (Reports.total_posts sm)
      /\ Reports.average_comments sm
         = Reports.true_div (Reports.total_comments sm) (Reports.total_posts sm)
      /\ (exists top, first_greatest "score" posts top
                      /\ top !! "title" = Some (Reports.top_post sm))
      /\ (exists top, first_greatest "num_comments" posts top
                      /\ top !! "title" = Some (Reports.most_discussed sm))).
Proof.
  split; [reflexivity |].
  unfold Reports._generate_subreddit_summary.
  destruct posts as [| post rest]; [discriminate |].
  set (posts := post :: rest).
  destruct (Reports.sum_field "score" posts) as [total_score | e]; [| discriminate].
  cbn [rbind].
  destruct (Reports.sum_field "num_comments" posts) as [total_comments | e];
    [| discriminate].
  cbn [rbind].
  destruct (Reports.max_by "score" posts) as [top | e] eqn:Htop; [| discriminate].
  cbn [rbind]. unfold dict_get at 1.
  destruct (top !! "title") as [top_title |] eqn:Htitle; [| discriminate].
  cbn [rbind].
  destruct (Reports.max_by "num_comments" posts) as [discussed | e] eqn:Hdiscussed;
    [| discriminate].
  cbn [rbind]. unfold dict_get at 1.
  destruct (discussed !! "title") as [discussed_title |] eqn:Htitle'; [| discriminate].
  cbn [rbind]. intros [= <-]. cbn [Reports.total_posts Reports.total_score
    Reports.total_comments Reports.average_score Reports.average_comments
    Reports.top_post Reports.most_discussed].
  split; [reflexivity |]. split; [subst posts; cbn [length]; lia |].
  split; [reflexivity |]. split; [reflexivity |].
  split; [reflexivity |]. split; [reflexivity |]. split.
  - exists top. split; [apply max_by_first_greatest; exact Htop | exact Htitle].
  - exists discussed. split; [apply max_by_first_greatest; exact Hdiscussed | exact Htitle'].
Qed.

Lemma summary_names_first_greatest_witness :
  exists top,
    first_greatest "score" (Sample3.posts_of (fst Sample3.mixed_posts)) top
    /\ top !! "title" = Some (Reports.top_post Sample3.mixed_summary).
Proof.
  destruct (summary_names_first_greatest (Sample3.posts_of (fst Sample3.mixed_posts))
              Sample3.mixed_summary) as [_ H].
  destruct H as (_ & _ & _ & _ & _ & _ & Htop & _).
  - vm_compute. reflexivity.
  - exact Htop.
Defined.

(** Scores 5, -1 and 20: the third post is on top; all three have 3
    comments, so the first is the most discussed. *)
Example summary_of_mixed_listing :
  (Reports.total_posts Sample3.mixed_summary, Reports.total_score Sample3.mixed_summary,
   Reports.average_score Sample3.mixed_summary,
   Reports.top_post Sample3.mixed_summary, Reports.most_discussed Sample3.mixed_summary)
  = (3, 24, 8%float, VStr "Async pitfalls", VStr "Typing tips").
Proof. vm_compute. reflexivity. Qed.

(** ** Fetching comments *)

Lemma collect_invariant (P : gmap string pyval -> Prop)
    (step : list (gmap string pyval) -> RawPost -> Result (list (gmap string pyval))) :
  (forall acc post acc',
      step acc post = Ok acc' -> Forall P acc -> Forall P acc') ->
  forall raw acc res,
    Client.collect step acc raw = Ok res -> Forall P acc -> Forall P res.
Proof.
  intros Hstep raw. induction raw as [| post rest IH]; intros acc res.
  - intros [= <-]. auto.
  - cbn [Client.collect]. destruct (step acc post) as [acc' | e] eqn:Hs;
      cbn [rbind]; [| discriminate].
    intros Hrest Hall. eapply IH; [exact Hrest |]. eapply Hstep; eassumption.
Qed.

Lemma collect_total
    (step : list (gmap string pyval) -> RawPost -> Result (list (gmap string pyval))) :
  (forall acc post, exists acc', step acc post = Ok acc') ->
  forall raw acc, exists res, Client.collect step acc raw = Ok res.
Proof.
  intros Hstep raw. induction raw as [| post rest IH]; intros acc.
  - eexists. reflexivity.
  - cbn [Client.collect]. destruct (Hstep acc post) as [acc' ->]. cbn [rbind]. apply IH.
Qed.

Lemma comment_step_total (acc : list (gmap string pyval)) (comment : RawComment) :
  exists acc', Comments.comment_step acc comment = Ok acc'.
Proof.
  unfold Comments.comment_step, Client.rtry.
  destruct (rbind _ _); eexists; reflexivity.
Qed.

Lemma comment_info_body (comment : RawComment) (d : gmap string pyval) :
  Comments.comment_info comment = Ok d ->
  exists body, comment "body" = Ok body /\ d !! "body" = Some body.
Proof.
  unfold Comments.comment_info.
  repeat match goal with
         | |- context [rbind ?r _] =>
             let v := fresh "v" in
             destruct r as [v | ?] eqn:?; cbn [rbind]; [| discriminate]
         end.
  intros [= <-]. eexists. split; [reflexivity |]. vm_compute. reflexivity.
Qed.

Lemma comment_step_cases (acc : list (gmap string pyval)) (comment : RawComment)
    (acc' : list (gmap string pyval)) :
  Comments.comment_step acc comment = Ok acc' ->
  acc' = acc
  \/ exists d, Comments.comment_info comment = Ok d /\ live_comment d /\ acc' = acc ++ [d].
Proof.
  unfold Comments.comment_step, Client.rtry.
  destruct (Comments.hasattr comment "body") as [[|] | e]; cbn [rbind];
    try (intros [= <-]; left; reflexivity).
  destruct (comment "body") as [body | e] eqn:Hbody; cbn [rbind];
    try (intros [= <-]; left; reflexivity).
  destruct (Comments.not_deleted body) eqn:Hlive;
    try (intros [= <-]; left; reflexivity).
  destruct (Comments.comment_info comment) as [d | e] eqn:Hinfo; cbn [rbind];
    try (intros [= <-]; left; reflexivity).
  intros [= <-]. right. exists d. split; [reflexivity |]. split; [| reflexivity].
  destruct (comment_info_body _ _ Hinfo) as (body' & Hb & Hd).
  exists body'. split; [exact Hd |]. congruence.
Qed.

Lemma get_post_comments_step (env : Env) (forest : Forest) (post_id : string) (limit : Z) :
  respects (client_step retrieval_event)
    (Comments.get_post_comments env forest post_id limit).
Proof.
  unfold Comments.get_post_comments.
  apply respects_try_catch; [| intros e; apply respects_raise].
  apply respects_bind; [apply call_step; exact I | intros submission].
  apply respects_bind; [apply call_step; exact I | intros comments].
  apply respects_lift.
Qed.

(** X19. Fetching the comments of a post asks the gateway for the
    submission and then for its comment tree, and touches nothing of the
    bot.  A failure of either call is passed on.  Otherwise the call
    succeeds, whatever the comments are like: what it returns are
    dictionaries of comments among the first [limit] of the tree, in the
    order of the tree, each with a body that is not [[deleted]]; a comment
    that cannot be read is left out. *)
Theorem get_post_comments_outcome
    (env : Env) (forest : Forest) (post_id : string) (limit : Z) (s : State) :
  let out := Comments.get_post_comments env forest post_id limit s in
  let h1 := trace s ++ [(clock s, EvSubmission post_id)] in
  same_bot s (snd out)
  /\ match fst out with
     | Ok comments =>
         exists t objs,
           new_events s (snd out)
           = [(clock s, EvSubmission post_id); (t, EvReplaceMore post_id)]
           /\ comment_objects forest h1 post_id = Ok objs
           /\ sublist (map Ok comments)
                (map Comments.comment_info (Bot.slice_upto limit objs))
           /\ Forall live_comment comments
           /\ (0 <= limit -> Z.of_nat (length comments) <= limit)
     | Raise e =>
         reddit_submission env (trace s) post_id = Raise e
         \/ comment_objects forest h1 post_id = Raise e
     end.
Proof.
  intros out h1. split.
  { apply (get_post_comments_step env forest post_id limit s). }
  subst out. unfold Comments.get_post_comments, try_catch, bind, call, lift, raise.
  destruct (reddit_submission env (trace s) post_id) as [submission | e];
    [| left; reflexivity].
  cbn [trace clock]. fold h1.
  destruct (comment_objects forest h1 post_id) as [objs | e]; [| right; reflexivity].
  destruct (collect_total Comments.comment_step comment_step_total
              (Bot.slice_upto limit objs) []) as [comments Hcollect].
  rewrite Hcollect. cbn [fst snd].
  eexists; exists objs. split.
  { apply new_events_app. cbn [trace]. subst h1. rewrite <- app_assoc. reflexivity. }
  split; [reflexivity |].
  destruct (collect_sublist Comments.comment_step Comments.comment_info) with
    (raw := Bot.slice_upto limit objs) (acc := @nil (gmap string pyval)) (res := comments)
    as (kept & Hkept & Hsub).
  { intros acc post acc' Hstep. destruct (comment_step_cases _ _ _ Hstep)
      as [-> | (d & Hd & _ & ->)]; [left; reflexivity | right; eauto]. }
  { exact Hcollect. }
  cbn [app] in Hkept. subst kept.
  split; [exact Hsub |]. split.
  - eapply (collect_invariant live_comment Comments.comment_step);
      [| exact Hcollect | constructor].
    intros acc post acc' Hstep Hall.
    destruct (comment_step_cases _ _ _ Hstep) as [-> | (d & _ & Hlive & ->)];
      [exact Hall |].
    apply Forall_app. split; [exact Hall | constructor; [exact Hlive | constructor]].
  - intros Hlimit. apply sublist_length in Hsub. rewrite !length_map in Hsub.
    apply Nat2Z.inj_le in Hsub.
    etransitivity; [exact Hsub | exact (slice_upto_length limit objs Hlimit)].
Qed.

(** Of a live, a deleted, an unreadable and another live comment, the two
    live ones are returned. *)
Example get_post_comments_skips_deleted_and_broken :
  map (fun d : gmap string pyval => d !! "id") (Sample3.posts_of (fst Sample3.p1_comments))
  = [Some (VStr "c1"); Some (VStr "c3")].
Proof. vm_compute. reflexivity. Qed.

(** ** Retrieving the data of a subreddit *)

Section Collecting.

Context {R : State -> State -> Prop} `{!PreOrder R}.

Lemma respects_for_each_collect {A B} (xs : list A) (body : A -> M B) :
  (forall x, respects R (body x)) -> respects R (Reports.for_each_collect xs body).
Proof.
  intros Hb. induction xs as [| x rest IH]; cbn [Reports.for_each_collect].
  - apply respects_ret.
  - apply respects_bind; [apply Hb | intros y].
    apply respects_bind; [exact IH | intros ys; apply respects_ret].
Qed.

End Collecting.

Lemma attach_comments_step (env : Env) (forest : Forest) (post : gmap string pyval) :
  respects (client_step retrieval_event) (Reports.attach_comments env forest post).
Proof.
  unfold Reports.attach_comments.
  apply respects_try_catch.
  - apply respects_bind; [apply respects_lift | intros id].
    apply respects_bind; [apply get_post_comments_step | intros comments].
    apply respects_bind; [| intros _; apply respects_ret].
    apply sleep_step; [lia | reflexivity].
  - intros e. apply respects_bind; [apply respects_lift | intros _; apply respects_ret].
Qed.

(** A post that has an id always gets a [comments] entry. *)
Lemma attach_comments_total (env : Env) (forest : Forest) (post : gmap string pyval)
    (s : State) :
  is_Some (post !! "id") ->
  exists comments s',
    Reports.attach_comments env forest post s
    = (Ok (mkWithComments post (Some comments)), s').
Proof.
  intros [id Hid]. unfold Reports.attach_comments, try_catch, bind at 1, lift at 1, dict_get.
  rewrite Hid. unfold bind at 1.
  destruct (Comments.get_post_comments env forest (py_str id) 20 s) as [[comments | e] s1].
  - eexists; eexists. reflexivity.
  - unfold bind, lift, ret. eexists; eexists. reflexivity.
Qed.

Lemma attach_all_total (env : Env) (forest : Forest) (posts : list (gmap string pyval)) :
  Forall valid_post posts ->
  forall s,
    exists with_comments s',
      Reports.for_each_collect posts (Reports.attach_comments env forest) s
      = (Ok with_comments, s')
      /\ map wc_post with_comments = posts
      /\ Forall has_comments with_comments.
Proof.
  induction 1 as [| post rest Hvalid _ IH]; intros s; cbn [Reports.for_each_collect].
  - exists [], s. split; [reflexivity |]. split; [reflexivity | constructor].
  - destruct (proj1 (valid_post_fields post) Hvalid) as (Hid & _).
    destruct (attach_comments_total env forest post s Hid) as (comments & s1 & Hrun).
    unfold bind at 1. rewrite Hrun.
    destruct (IH s1) as (ws & s2 & Hrest & Hmap & Hall).
    unfold bind, ret. rewrite Hrest.
    eexists; eexists. split; [reflexivity |]. split.
    + cbn [map wc_post]. rewrite Hmap. reflexivity.
    + constructor; [eexists; reflexivity | exact Hall].
Qed.

(** X20. The bookkeeping of [retrieve_subreddit_data].  The run only
    reads: it issues the listing, fetches of submissions and comment trees
    and one-second waits, never a reply and never a call to an agent, and
    leaves the results and matches alone.  When it returns data, the
    posts are valid, [total_posts] is their number and
    [posts_retrieved] has grown by it, with no error counted; the summary
    is the summary of these posts.  When it fails, exactly one error is
    counted and [posts_retrieved] is unchanged. *)
Theorem retrieve_subreddit_data_accounting
    (env : Env) (forest : Forest) (subreddit_name sort_by : string) (limit : Z)
    (include_comments : bool) (s : State) :
  let out :=
    Reports.retrieve_subreddit_data env forest subreddit_name sort_by limit
      include_comments s in
  Forall (fun te => retrieval_event (snd te)) (new_events s (snd out))
  /\ results (snd out) = results s
  /\ matches (snd out) = matches s
  /\ match fst out with
     | Ok data =>
         stats (snd out) = Reports.count_retrieved (Reports.sd_total_posts data) (stats s)
         /\ Reports.sd_total_posts data = Z.of_nat (length (Reports.sd_posts data))
         /\ Forall valid_post (map wc_post (Reports.sd_posts data))
         /\ Reports._generate_subreddit_summary (map wc_post (Reports.sd_posts data))
            = Ok (Reports.sd_summary data)
     | Raise e => stats (snd out) = Bot.count_error (stats s)
     end.
Proof.
  intros out.
  assert (Hout : out = Reports.retrieve_subreddit_data env forest subreddit_name sort_by
                         limit include_comments s) by reflexivity.
  clearbody out.
  assert (Hfail : forall e s',
             client_step retrieval_event s s' ->
             out = (Raise e, set_stats Bot.count_error s') ->
             Forall (fun te => retrieval_event (snd te)) (new_events s (snd out))
             /\ results (snd out) = results s
             /\ matches (snd out) = matches s
             /\ match fst out with
                | Ok data =>
                    stats (snd out)
                    = Reports.count_retrieved (Reports.sd_total_posts data) (stats s)
                    /\ Reports.sd_total_posts data = Z.of_nat (length (Reports.sd_posts data))
                    /\ Forall valid_post (map wc_post (Reports.sd_posts data))
                    /\ Reports._generate_subreddit_summary
                         (map wc_post (Reports.sd_posts data))
                       = Ok (Reports.sd_summary data)
                | Raise e => stats (snd out) = Bot.count_error (stats s)
                end).
  { intros e s' [(evs & Ht & Hq & _) (Hst & Hres & Hm)] ->.
    cbn [fst snd set_stats trace results matches stats].
    split; [| split; [exact Hres | split; [exact Hm | rewrite Hst; reflexivity]]].
    rewrite (new_events_app s (set_stats Bot.count_error s') evs Ht).
    eapply Forall_impl; [exact Hq |]. intros te [_ HQ]. exact HQ. }
  unfold Reports.retrieve_subreddit_data, try_catch, bind at 1 in Hout.
  pose proof (get_subreddit_posts_step env subreddit_name sort_by limit "day" s) as Hget.
  pose proof (get_subreddit_posts_valid env subreddit_name sort_by limit "day" s) as Hvalid.
  destruct (Client.get_subreddit_posts env subreddit_name sort_by limit "day" s)
    as [[posts | e] s1]; cbn [snd] in Hget.
  2: { apply (Hfail e s1); [| exact Hout].
       eapply client_step_weaken; [| exact Hget].
       intros [] HQ; try contradiction; exact I. }
  assert (Hposts : Forall valid_post posts) by (eapply Hvalid; reflexivity).
  assert (Hget' : client_step retrieval_event s s1).
  { eapply client_step_weaken; [| exact Hget].
    intros [] HQ; try contradiction; exact I. }
  clear Hget Hvalid.
  unfold bind at 1 in Hout.
  set (attach := if include_comments
                 then Reports.for_each_collect posts (Reports.attach_comments env forest)
                 else ret (map (fun post => mkWithComments post None) posts)) in Hout.
  assert (Hstep : client_step retrieval_event s1 (snd (attach s1))).
  { subst attach. destruct include_comments; [| reflexivity].
    apply (respects_for_each_collect (R := client_step retrieval_event)).
    intros post. apply attach_comments_step. }
  assert (Hmap : forall ws, fst (attach s1) = Ok ws -> map wc_post ws = posts).
  { subst attach. destruct include_comments.
    - destruct (attach_all_total env forest posts Hposts s1) as (ws' & s2 & -> & Hm & _).
      cbn [fst]. intros ws [= <-]. exact Hm.
    - unfold ret. cbn [fst]. intros ws [= <-]. rewrite map_map. cbn [wc_post].
      apply map_id. }
  destruct (attach s1) as [[ws | e] s2]; cbn [fst snd] in Hstep, Hmap.
  2: { apply (Hfail e s2); [etransitivity; eassumption | exact Hout]. }
  specialize (Hmap ws eq_refl).
  assert (Hall : client_step retrieval_event s s2) by (etransitivity; eassumption).
  unfold bind at 1, now at 1 in Hout. unfold bind at 1, lift at 1 in Hout.
  destruct (Reports._generate_subreddit_summary (map wc_post ws)) as [summary | e] eqn:Hsum.
  2: { apply (Hfail e s2); [exact Hall | exact Hout]. }
  clear Hfail. unfold bind, modify, ret in Hout. subst out.
  destruct Hall as [(evs & Ht & Hq & _) (Hst & Hres & Hm)].
  cbn [fst snd set_stats trace results matches stats Reports.sd_total_posts
       Reports.sd_posts Reports.sd_summary].
  split.
  { erewrite new_events_app by exact Ht.
    eapply Forall_impl; [exact Hq |]. intros te [_ HQ]. exact HQ. }
  split; [exact Hres |]. split; [exact Hm |].
  split; [rewrite Hst; reflexivity |]. split; [reflexivity |].
  split; [rewrite Hmap; exact Hposts | exact Hsum].
Qed.

(** X21. Comments are optional extras: when the listing can be fetched
    and summarised, a retrieval that includes comments succeeds whatever
    the gateway does with the comment trees.  It returns the posts of the
    listing, in order, each with a [comments] entry, and their summary. *)
Theorem retrieve_tolerates_comment_failures
    (env : Env) (forest : Forest) (subreddit_name sort_by : string) (limit : Z)
    (s s1 : State) (posts : list (gmap string pyval)) (summary : option Reports.Summary) :
  Client.get_subreddit_posts env subreddit_name sort_by limit "day" s = (Ok posts, s1) ->
  Reports._generate_subreddit_summary posts = Ok summary ->
  exists data s',
    Reports.retrieve_subreddit_data env forest subreddit_name sort_by limit true s
    = (Ok data, s')
    /\ map wc_post (Reports.sd_posts data) = posts
    /\ Forall has_comments (Reports.sd_posts data)
    /\ Reports.sd_summary data = summary.
Proof.
  intros Hget Hsum.
  assert (Hposts : Forall valid_post posts).
  { eapply (get_subreddit_posts_valid env subreddit_name sort_by limit "day" s).
    rewrite Hget. reflexivity. }
  unfold Reports.retrieve_subreddit_data, try_catch, bind at 1. rewrite Hget.
  destruct (attach_all_total env forest posts Hposts s1) as (ws & s2 & Hrun & Hmap & Hall).
  unfold bind at 1. rewrite Hrun.
  unfold bind at 1, now at 1. unfold bind at 1, lift at 1. rewrite Hmap, Hsum.
  unfold bind, modify, ret. eexists; eexists. split; [reflexivity |].
  cbn [Reports.sd_posts Reports.sd_summary].
  split; [exact Hmap |]. split; [exact Hall | reflexivity].
Qed.

Lemma retrieve_tolerates_comment_failures_witness :
  exists data s',
    Reports.retrieve_subreddit_data Sample3.mixed_listing Sample3.broken_forest
      "python" "hot" 10 true Sample.initial
    = (Ok data, s')
    /\ map wc_post (Reports.sd_posts data) = Sample3.posts_of (fst Sample3.mixed_posts)
    /\ Forall has_comments (Reports.sd_posts data)
    /\ Reports.sd_summary data = Some Sample3.mixed_summary.
Proof.
  apply (retrieve_tolerates_comment_failures Sample3.mixed_listing Sample3.broken_forest
           "python" "hot" 10 Sample.initial (snd Sample3.mixed_posts)).
  - reflexivity.
  - reflexivity.
Defined.

(** With the comment trees out of reach every post comes back with an
    empty comment list, and the three posts are counted. *)
Example retrieval_with_broken_comment_trees :
  match fst Sample3.retrieval_without_comments with
  | Ok data =>
      (Reports.sd_total_posts data, map wc_comments (Reports.sd_posts data),
       posts_retrieved (stats (snd Sample3.retrieval_without_comments)),
       errors (stats (snd Sample3.retrieval_without_comments)))
  | Raise _ => (-1, [], -1, -1)
  end
  = (3, [Some []; Some []; Some []], 3, 0).
Proof. vm_compute. reflexivity. Qed.

(** ** Search with analysis *)

Lemma search_posts_step (env : Env) (query : string) (subreddit : option string)
    (sort time_filter : string) (limit : Z) :
  respects (client_step search_event)
    (Client.search_posts env query subreddit sort time_filter limit).
Proof.
  unfold Client.search_posts.
  apply respects_try_catch; [| intros e; apply respects_raise].
  apply respects_bind; [| intros raw; apply respects_lift].
  destruct subreddit as [name |]; [| apply call_step; exact I].
  destruct (PyStr.is_empty name); [apply call_step; exact I |].
  destruct (Validator.validate_subreddit_name name) as [is_valid result].
  destruct (negb is_valid); [apply respects_raise | apply call_step; exact I].
Qed.

Lemma analyze_posts_step (env : Env)
    (json_dumps : list (list (string * pyval)) -> string)
    (posts : list (gmap string pyval)) (query : string) :
  respects (client_step search_event)
    (Reports._analyze_posts_with_ai env json_dumps posts query).
Proof.
  unfold Reports._analyze_posts_with_ai.
  apply respects_try_catch; [| intros e; apply respects_ret].
  destruct posts as [| post rest]; [apply respects_ret |].
  apply respects_bind; [apply respects_lift | intros summaries].
  apply call_step. exact I.
Qed.

(** The analysis always yields a text (or the agent's empty content). *)
Lemma analyze_posts_returns (env : Env)
    (json_dumps : list (list (string * pyval)) -> string)
    (posts : list (gmap string pyval)) (query : string) :
  never_raises (Reports._analyze_posts_with_ai env json_dumps posts query).
Proof.
  intros s. unfold Reports._analyze_posts_with_ai, try_catch.
  match goal with
  | |- context [let (r, s') := ?m s in _] => destruct (m s) as [[r | e] s1]
  end; eexists; reflexivity.
Qed.

(** X22. A search with analysis fails only when the search itself fails,
    and then with the search's exception; unlike the other operations of
    the bot it counts no error.  Otherwise it returns the posts found and
    their number, stamped with the time after the analysis.  For no posts
    the analysis is a fixed text and the agent is not asked; a failure of
    the agent ends up in the analysis text instead of failing the call.
    The run issues the search and at most agent calls, and never touches
    the counters. *)
Theorem search_and_analyze_outcome
    (env : Env) (json_dumps : list (list (string * pyval)) -> string)
    (query : string) (subreddit_name : option string) (limit : Z) (s : State) :
  let out := Reports.search_and_analyze env json_dumps query subreddit_name limit s in
  let found := Client.search_posts env query subreddit_name "relevance" "all" limit s in
  client_step search_event s (snd out)
  /\ match fst found with
     | Raise e => out = (Raise e, snd found)
     | Ok posts =>
         exists analysis,
           fst out
           = Ok (Reports.mkSearchResults query subreddit_name (clock (snd out))
                   (Z.of_nat (length posts)) posts analysis)
           /\ (posts = [] ->
               analysis = Some "No posts found for analysis" /\ snd out = snd found)
           /\ (forall summaries e,
                  posts <> [] ->
                  Reports.post_summaries (firstn 10 posts) = Ok summaries ->
                  validation_agent_run env (trace (snd found))
                    (Reports.analysis_prompt json_dumps summaries query) = Raise e ->
                  analysis = Some ("Analysis error: " +:+ exn_msg e))
     end.
Proof.
  intros out found.
  assert (Hout : out = Reports.search_and_analyze env json_dumps query subreddit_name
                         limit s) by reflexivity.
  assert (Hfound : found = Client.search_posts env query subreddit_name "relevance" "all"
                             limit s) by reflexivity.
  clearbody out found.
  pose proof (search_posts_step env query subreddit_name "relevance" "all" limit s)
    as Hsearch.
  unfold Reports.search_and_analyze, try_catch, bind at 1 in Hout.
  rewrite <- Hfound in Hout, Hsearch. clear Hfound.
  destruct found as [[posts | e] s1]; cbn [fst snd] in *.
  2: { unfold raise in Hout. subst out. split; [exact Hsearch | reflexivity]. }
  unfold bind at 1 in Hout.
  pose proof (analyze_posts_step env json_dumps posts query s1) as Hstep.
  assert (Hnil : posts = [] ->
                 Reports._analyze_posts_with_ai env json_dumps posts query s1
                 = (Ok (Some "No posts found for analysis"), s1)).
  { intros ->. reflexivity. }
  assert (Herr : forall summaries e,
             posts <> [] ->
             Reports.post_summaries (firstn 10 posts) = Ok summaries ->
             validation_agent_run env (trace s1)
               (Reports.analysis_prompt json_dumps summaries query) = Raise e ->
             fst (Reports._analyze_posts_with_ai env json_dumps posts query s1)
             = Ok (Some ("Analysis error: " +:+ exn_msg e))).
  { intros summaries e Hne Hsum Hagent.
    unfold Reports._analyze_posts_with_ai, try_catch.
    destruct posts as [| post rest]; [contradiction |].
    unfold bind, lift, call. rewrite Hsum, Hagent. reflexivity. }
  destruct (analyze_posts_returns env json_dumps posts query s1) as [analysis Hok].
  destruct (Reports._analyze_posts_with_ai env json_dumps posts query s1)
    as [r s2]; cbn [fst snd] in *. subst r.
  unfold bind, now, ret in Hout. subst out. cbn [fst snd].
  split; [etransitivity; eassumption |].
  exists analysis. split; [reflexivity |]. split.
  - intros Hempty. specialize (Hnil Hempty). injection Hnil as -> ->. split; reflexivity.
  - intros summaries e Hne Hsum Hagent.
    specialize (Herr summaries e Hne Hsum Hagent). congruence.
Qed.

(** A search that finds posts while the agent is out of order: the posts
    come back, with the failure as the analysis, and no error is
    counted. *)
Example search_survives_agent_failure :
  match fst Sample3.search_with_agent_down with
  | Ok found =>
      (Reports.sr_total_results found, Reports.sr_analysis found,
       errors (stats (snd Sample3.search_with_agent_down)))
  | Raise _ => (-1, None, -1)
  end
  = (2, Some "Analysis error: agent offline", 0).
Proof. vm_compute. reflexivity. Qed.

(** ** The configuration check *)

Lemma missing_vars_filter (cls : string -> option string) (vars : list string) :
  ConfigCheck.missing_vars cls vars
  = List.filter (fun var => ConfigCheck.is_unset (cls var)) vars.
Proof.
  induction vars as [| var rest IH]; [reflexivity |].
  cbn [ConfigCheck.missing_vars List.filter]. rewrite IH. reflexivity.
Qed.

(** X23. The configuration check passes exactly when each of the five
    required variables is set to a non-empty value - the user agent and
    the Gemini endpoint and model are not among them.  Otherwise it
    raises a [ValueError] whose message lists the variables that are
    unset or empty, all of them, in the order of the list of required
    variables.  It never returns [False]. *)
Theorem validate_config_names_every_missing_variable (cls : string -> option string) :
  (ConfigCheck.validate_config cls = Ok true
   <-> Forall (fun var => exists value, cls var = Some value /\ value <> EmptyString)
         ConfigCheck.required_vars)
  /\ (forall e,
         ConfigCheck.validate_config cls = Raise e ->
         exn_kind e = ValueError
         /\ exn_msg e
            = "Missing required environment variables: "
                +:+ PyStr.join ", "
                      (List.filter (fun var => ConfigCheck.is_unset (cls var))
                         ConfigCheck.required_vars)
         /\ List.filter (fun var => ConfigCheck.is_unset (cls var))
              ConfigCheck.required_vars <> [])
  /\ ConfigCheck.validate_config cls <> Ok false
  /\ ConfigCheck.required_vars
     = ["REDDIT_CLIENT_ID"; "REDDIT_CLIENT_SECRET"; "REDDIT_USERNAME";
        "REDDIT_PASSWORD"; "GEMINI_API_KEY"].
Proof.
  unfold ConfigCheck.validate_config. rewrite missing_vars_filter.
  set (unset := fun var => ConfigCheck.is_unset (cls var)).
  assert (Hset : forall var,
             unset var = false
             <-> exists value, cls var = Some value /\ value <> EmptyString).
  { intros var. subst unset. cbn beta. unfold ConfigCheck.is_unset.
    destruct (cls var) as [[| c r] |]; cbn [PyStr.is_empty]; split.
    - discriminate.
    - intros (value & [= <-] & Hne). contradiction.
    - intros _. eexists. split; [reflexivity | discriminate].
    - reflexivity.
    - discriminate.
    - intros (value & Hnone & _). discriminate. }
  assert (Hall : List.filter unset ConfigCheck.required_vars = []
                 <-> Forall (fun var => unset var = false) ConfigCheck.required_vars).
  { generalize ConfigCheck.required_vars. intros vars.
    induction vars as [| var rest IH]; cbn [List.filter].
    - split; [constructor | reflexivity].
    - destruct (unset var) eqn:Hvar; split.
      + discriminate.
      + intros H. inversion H; congruence.
      + intros H. constructor; [exact Hvar | apply IH; exact H].
      + intros H. inversion H; subst. apply IH. assumption. }
  split; [| split; [| split; [| reflexivity]]].
  - destruct (List.filter unset ConfigCheck.required_vars) as [| var rest] eqn:Hmissing.
    + split; [| reflexivity]. intros _.
      eapply Forall_impl; [apply Hall; reflexivity |].
      intros var Hvar. apply Hset. exact Hvar.
    + split; [discriminate |]. intros Hforall.
      assert (Hnone : var :: rest = []).
      { apply Hall. eapply Forall_impl; [exact Hforall |].
        intros v Hv. apply Hset. exact Hv. }
      discriminate.
  - intros e.
    destruct (List.filter unset ConfigCheck.required_vars) as [| var rest];
      [discriminate |].
    intros [= <-]. cbn [exn_kind exn_msg]. split; [reflexivity |].
    split; [reflexivity | discriminate].
  - destruct (List.filter unset ConfigCheck.required_vars); discriminate.
Qed.

(** With the password empty and the Gemini key unset, both are named. *)
Example validate_config_lists_missing :
  ConfigCheck.validate_config
    (fun var =>
       if String.eqb var "REDDIT_PASSWORD" then Some EmptyString
       else if String.eqb var "GEMINI_API_KEY" then None
       else Some "x")
  = Raise (mkExn ValueError
             "Missing required environment variables: REDDIT_PASSWORD, GEMINI_API_KEY").
Proof. vm_compute. reflexivity. Qed.

(** ** Keyword matching *)

Lemma prefix_nil (s : string) : String.prefix EmptyString s = true.
Proof. destruct s; reflexivity. Qed.

Lemma contains_empty (s : string) : PyStr.contains EmptyString s = true.
Proof. destruct s; cbn [PyStr.contains]; rewrite prefix_nil; reflexivity. Qed.

Lemma with_matches_nil (s : State) : with_matches [] s = s.
Proof. unfold with_matches. rewrite app_nil_r. destruct s; reflexivity. Qed.

Lemma check_keywords_log (env : Env) (subreddit_name action : string)
    (post : gmap string pyval) (id title selftext permalink : pyval)
    (keywords : list string) :
  Bot.comments_on_match action = false ->
  post !! "id" = Some id ->
  post !! "title" = Some title ->
  post !! "permalink" = Some permalink ->
  forall s,
    for_each keywords
      (Bot.check_keyword env subreddit_name action (post_text title selftext) post) s
    = (Ok tt,
       with_matches
         (map (fun keyword => mkMatch id title keyword (clock s) permalink None)
            (List.filter (keyword_matches title selftext) keywords))
         s).
Proof.
  intros Hlog Hid Htitle Hlink.
  induction keywords as [| keyword rest IH]; intros s.
  - cbn [for_each List.filter map]. rewrite with_matches_nil. reflexivity.
  - cbn [for_each List.filter]. unfold bind at 1, Bot.check_keyword at 1.
    fold (keyword_matches title selftext keyword).
    destruct (keyword_matches title selftext keyword).
    + unfold bind, lift, now, modify, dict_get. rewrite Hid, Htitle, Hlink, Hlog.
      unfold ret. rewrite IH. unfold with_matches, set_matches.
      cbn [map clock trace stats results matches].
      rewrite <- app_assoc. reflexivity.
    + unfold ret. rewrite IH. reflexivity.
Qed.

(** X24. What one post contributes to the match list when monitoring only
    logs.  For a post with its [id], [title], [selftext] and [permalink],
    the scan records one match per keyword that occurs, letter case
    aside, in the title and the text joined by a space - in the order of
    the keywords, a keyword given twice twice - and changes nothing else.
    What was matched before plays no part, so a post still in the listing
    is matched again in the next cycle; and an empty keyword matches every
    post. *)
Theorem scan_post_records_matching_keywords
    (env : Env) (subreddit_name action : string) (keywords : list string)
    (post : gmap string pyval) (id title selftext permalink : pyval) (s : State) :
  Bot.comments_on_match action = false ->
  post !! "id" = Some id ->
  post !! "title" = Some title ->
  post !! "selftext" = Some selftext ->
  post !! "permalink" = Some permalink ->
  Bot.scan_post env subreddit_name keywords action post s
  = (Ok tt,
     with_matches
       (map (fun keyword => mkMatch id title keyword (clock s) permalink None)
          (List.filter (keyword_matches title selftext) keywords))
       s)
  /\ keyword_matches title selftext EmptyString = true.
Proof.
  intros Hlog Hid Htitle Hself Hlink. split.
  - unfold Bot.scan_post, bind at 1, lift at 1, dict_get. rewrite Htitle.
    unfold bind at 1, lift at 1. rewrite Hself.
    apply (check_keywords_log env subreddit_name action post id title selftext permalink
             keywords Hlog Hid Htitle Hlink).
  - unfold keyword_matches. cbn [PyStr.lower]. apply contains_empty.
Qed.

Lemma scan_post_records_matching_keywords_witness :
  Bot.scan_post Sample.agreeable "python" ["TIPS"; "rust"; "tips"] "log"
    Sample3.first_post Sample.initial
  = (Ok tt,
     with_matches
       (map (fun keyword =>
               mkMatch (VStr "p1") (VStr "Typing tips") keyword (clock Sample.initial)
                 (VStr "https://reddit.com/r/python/comments/p1/") None)
          (List.filter (keyword_matches (VStr "Typing tips") (VStr "Decorators and typing"))
             ["TIPS"; "rust"; "tips"]))
       Sample.initial)
  /\ keyword_matches (VStr "Typing tips") (VStr "Decorators and typing") EmptyString = true.
Proof.
  apply (scan_post_records_matching_keywords Sample.agreeable "python" "log"
           ["TIPS"; "rust"; "tips"] Sample3.first_post);
    vm_compute; reflexivity.
Defined.

(** [TIPS] and [tips] both match the title [Typing tips]; [rust] does
    not. *)
Example scan_post_ignores_case :
  map m_keyword (matches (snd (Bot.scan_post Sample.agreeable "python"
                                 ["TIPS"; "rust"; "tips"] "log"
                                 Sample3.first_post Sample.initial)))
  = ["TIPS"; "tips"].
Proof. vm_compute. reflexivity. Qed.

(** ** Monitoring that comments *)

#[local] Instance comment_rel_preorder : PreOrder comment_rel.
Proof.
  split.
  - intros s. exists []. rewrite app_nil_r. split; [reflexivity | constructor].
  - intros s1 s2 s3 (m1 & Hm1 & Hf1) (m2 & Hm2 & Hf2).
    exists (m1 ++ m2). split; [rewrite Hm2, Hm1, app_assoc; reflexivity |].
    apply Forall_app. split; assumption.
Qed.

Lemma same_bot_comment_rel (s s' : State) : same_bot s s' -> comment_rel s s'.
Proof.
  intros (_ & _ & Hm). exists []. rewrite app_nil_r. split; [exact Hm | constructor].
Qed.

Section MonitorComments.

Variable env : Env.

Lemma check_keyword_comment_rel (subreddit_name action post_text : string)
    (post : gmap string pyval) (keyword : string) :
  Bot.comments_on_match action = true ->
  respects comment_rel
    (Bot.check_keyword env subreddit_name action post_text post keyword).
Proof.
  intros Hcomment s. unfold Bot.check_keyword. rewrite Hcomment.
  destruct (PyStr.contains _ _); [| reflexivity].
  unfold bind at 1, lift at 1.
  destruct (dict_get post "id") as [id | e] eqn:Hid; [| reflexivity].
  unfold bind at 1, lift at 1.
  destruct (dict_get post "title") as [title | e]; [| reflexivity].
  unfold bind at 1, now at 1. unfold bind at 1, lift at 1.
  destruct (dict_get post "permalink") as [permalink | e]; [| reflexivity].
  unfold bind at 1, modify at 1.
  set (m := mkMatch id title keyword (clock s) permalink None).
  set (s1 := set_matches (fun ms => ms ++ [m]) s).
  unfold try_catch, bind, lift. cbv beta iota.
  destruct (generate_and_post_comment_attempt env (py_str id) (Some subreddit_name) s1)
    as (r & s2 & attempt & Hrun & _ & _ & _ & _ & _ & Hm).
  rewrite Hrun. unfold modify. cbn [fst snd].
  unfold comment_rel, set_matches. cbn [matches].
  rewrite Hm. subst s1. cbn [set_matches matches].
  rewrite set_last_comment_result_app. eexists. split; [reflexivity |].
  constructor; [eexists; reflexivity | constructor].
Qed.

Lemma monitor_cycle_comment_rel (subreddit_name : string) (keywords : list string)
    (action : string) :
  Bot.comments_on_match action = true ->
  respects comment_rel (Bot.monitor_cycle env subreddit_name keywords action).
Proof.
  intros Hcomment. unfold Bot.monitor_cycle.
  assert (Hsleep : forall n, respects comment_rel (sleep env n)).
  { intros n s. apply same_bot_comment_rel. repeat split. }
  apply respects_try_catch; [| intros e; apply Hsleep].
  apply respects_bind.
  { intros s. apply same_bot_comment_rel.
    apply (get_subreddit_posts_step env subreddit_name "new" 10 "day" s). }
  intros posts. apply respects_bind; [| intros _; apply Hsleep].
  apply respects_for_each. intros post. unfold Bot.scan_post.
  apply respects_bind; [apply respects_lift | intros title].
  apply respects_bind; [apply respects_lift | intros selftext].
  apply respects_for_each. intros keyword.
  apply check_keyword_comment_rel. exact Hcomment.
Qed.

Lemma monitor_loop_comment_rel (subreddit_name : string) (keywords : list string)
    (action : string) (end_time : Z) (fuel : nat) :
  Bot.comments_on_match action = true ->
  forall s r s',
    Bot.monitor_loop env fuel subreddit_name keywords action end_time s = Some (r, s') ->
    comment_rel s s'.
Proof.
  intros Hcomment.
  induction fuel as [| fuel IH]; intros s r s'; cbn [Bot.monitor_loop];
    destruct (clock s <? end_time)%Z; try discriminate;
    try (intros [= <- <-]; reflexivity).
  pose proof (monitor_cycle_comment_rel subreddit_name keywords action Hcomment s)
    as Hcycle.
  destruct (Bot.monitor_cycle env subreddit_name keywords action s) as [[[] | e] s1];
    cbn [snd] in Hcycle.
  - intros Hloop. etransitivity; [exact Hcycle | eapply IH; exact Hloop].
  - intros [= <- <-]. exact Hcycle.
Qed.

End MonitorComments.

(** X25. With the action [comment] or [both], every match that
    [monitor_subreddit] returns carries a [comment_result]: the client
    turns every failure of a comment attempt into a result, so the
    handler around the attempt never runs and no match is left without
    one. *)
Theorem monitor_comment_mode_attempts_every_match
    (env : Env) (fuel : nat) (subreddit_name : string) (keywords : list string)
    (action : string) (duration_hours : Z) (s s' : State) (found : Bot.Monitoring) :
  Bot.comments_on_match action = true ->
  Bot.monitor_subreddit env fuel subreddit_name keywords action duration_hours s
  = Some (Ok found, s') ->
  Forall with_comment (Bot.mon_matches found)
  /\ Bot.mon_total_matches found = Z.of_nat (length (Bot.mon_matches found)).
Proof.
  unfold Bot.monitor_subreddit. intros Hcomment Hrun.
  destruct (Bot.monitor_loop env fuel subreddit_name keywords action _ _)
    as [[r s1] |] eqn:Hloop; [| discriminate].
  apply monitor_loop_comment_rel in Hloop; [| exact Hcomment].
  destruct Hloop as (recorded & Hm & Hall). cbn [set_matches matches app] in Hm.
  destruct r as [[] | e]; [| discriminate].
  injection Hrun as <- <-. cbn [Bot.mon_matches Bot.mon_total_matches].
  split; [rewrite Hm; exact Hall | reflexivity].
Qed.

Lemma monitor_comment_mode_attempts_every_match_witness :
  Forall with_comment (Bot.mon_matches Sample3.commenting_found)
  /\ Bot.mon_total_matches Sample3.commenting_found
     = Z.of_nat (length (Bot.mon_matches Sample3.commenting_found)).
Proof.
  apply (monitor_comment_mode_attempts_every_match Sample.agreeable 60 "python" ["tips"]
           "comment" 1 Sample.initial (snd Sample3.commenting_hour)).
  - reflexivity.
  - vm_compute. reflexivity.
Defined.

(** ** What the monitoring loop returns *)



Section MonitorMatches.

Variable env : Env.






End MonitorMatches.



(** In the commenting hour the post [p1] is matched in each of the twelve
    polls, [p2] never. *)
Example monitor_hour_matches :
  (map (fun m => (m_post_id m, m_keyword m)) (Bot.mon_matches Sample3.commenting_found),
   Bot.mon_total_matches Sample3.commenting_found)
  = (repeat (VStr "p1", "tips") 12, 12).
Proof. vm_compute. reflexivity. Qed.
